(** * Training orchestration of thai-deepvecfont-v2

    A shallow embedding of [train.py] (the function [train_main_model])
    and of [data_utils/convert_ttf_to_sfd.py] (the inner function
    [process]), followed by the properties of the orchestration logic.

    Modelling conventions.
    - Python integers are [Z]; [%] is Python's floored remainder, which
      is [Z.modulo] for a non-zero divisor and raises
      [ZeroDivisionError] for a zero divisor.
    - Loss scalars (tensor items and Python floats) are exact rationals
      [Qc]; the rounding of IEEE arithmetic is not modelled.
    - The nested dictionaries of losses are finite maps with string keys;
      a missing key raises [KeyError].
    - Exceptions are values of [Exn]; a computation that raises keeps the
      world it had reached, so that what a failed run leaves behind can be
      inspected.
    - The model of the driver is a [DataParallel] wrapper exactly when
      [opts.multi_gpu] is set; a state dictionary is loaded only by a
      model whose keys it has, with or without the prefix [module.].
    - The file system of the converter answers each [open(path, 'w')]:
      the file is created, or the call raises. *)

From Stdlib Require Import ZArith QArith Qcanon Ascii String List Lia.
From stdpp Require Import gmap strings pretty.

Open Scope string_scope.
Open Scope Z_scope.

(** ** Exceptions and results *)

Inductive Exn : Type :=
  | ZeroDivisionError
  | KeyError (key : string)
  | TypeError
  | ValueError
  | UnboundLocalError (name : string)
  | FileNotFoundError (path : string)
  | TrackerError
  | FontForgeError
  | RuntimeError.

Inductive Result (A : Type) : Type :=
  | Ok (a : A)
  | Raise (e : Exn).
Arguments Ok {A} a.
Arguments Raise {A} e.

Definition bindR {A B : Type} (r : Result A) (k : A -> Result B) : Result B :=
  match r with
  | Ok a => k a
  | Raise e => Raise e
  end.

Declare Scope result_scope.
Delimit Scope result_scope with res.
Notation "'let?' x ':=' r 'in' k" := (bindR r (fun x => k))
  (at level 10, x name, r at level 100, k at level 200) : result_scope.
Open Scope result_scope.

(** [numeric_error e] holds of the exceptions raised by arithmetic
    itself. *)
Definition numeric_error (e : Exn) : bool :=
  match e with
  | ZeroDivisionError => true
  | _ => false
  end.

Fixpoint foldR {A S : Type} (f : S -> A -> Result S) (l : list A) (s : S)
  : Result S :=
  match l with
  | [] => Ok s
  | x :: l' => let? s' := f s x in foldR f l' s'
  end.

(** ** Python arithmetic *)

(** [a % b] *)
Definition py_mod (a b : Z) : Result Z :=
  if b =? 0 then Raise ZeroDivisionError else Ok (a mod b).

(** [x / n] for a scalar [x] and an integer [n] *)
Definition py_div (x : Qc) (n : Z) : Result Qc :=
  if n =? 0 then Raise ZeroDivisionError else Ok (x / Q2Qc (inject_Z n))%Qc.

(** [range(a, b)] *)
Definition py_range (a b : Z) : list Z :=
  map (fun i => a + Z.of_nat i) (seq 0 (Z.to_nat (b - a))).

(** [enumerate(l)] *)
Definition enumerate {A : Type} (l : list A) : list (Z * A) :=
  combine (map Z.of_nat (seq 0 (length l))) l.

(** [len(l)] *)
Definition len {A : Type} (l : list A) : Z := Z.of_nat (length l).

(** ** Loss dictionaries *)

(** The value stored under a category of the loss dictionary returned by
    the model: a scalar (['kl']) or a dictionary of terms (['img'],
    ['svg'], ['svg_para']). *)
Inductive LossValue : Type :=
  | Scalar (x : Qc)
  | Terms (m : gmap string Qc).

Abbreviation LossDict := (gmap string LossValue).

(** [d[cat][key]] *)
Definition get_term (d : LossDict) (cat key : string) : Result Qc :=
  match d !! cat with
  | None => Raise (KeyError cat)
  | Some (Scalar _) => Raise TypeError
  | Some (Terms m) =>
      match m !! key with
      | None => Raise (KeyError key)
      | Some x => Ok x
      end
  end.

(** [d[cat]] used as a scalar *)
Definition get_scalar (d : LossDict) (cat : string) : Result Qc :=
  match d !! cat with
  | None => Raise (KeyError cat)
  | Some (Scalar x) => Ok x
  | Some (Terms _) => Raise TypeError
  end.

(** [d[cat][key] = v] on a category that holds a dictionary of terms *)
Definition set_term (d : LossDict) (cat key : string) (v : Qc) : LossDict :=
  match d !! cat with
  | Some (Terms m) => <[cat := Terms (<[key := v]> m)]> d
  | _ => d
  end.

(** ** Options *)

(** The fields of [opts] the driver reads. *)
Record Opts : Type := {
  exp_path : string;
  name_exp : string;
  init_epoch : Z;
  n_epochs : Z;
  freq_log : Z;
  freq_sample : Z;
  freq_val : Z;
  freq_ckpt : Z;
  threshold_ckpt : Z;
  loss_w_l1 : Qc;
  loss_w_pt_c : Qc;
  kl_beta : Qc;
  loss_w_cmd : Qc;
  loss_w_args : Qc;
  loss_w_smt : Qc;
  loss_w_aux : Qc;
  wandb : bool;
  wandb_project_name : string;
  multi_gpu : bool;
  continue_training : bool;
  continue_ckpt : string
}.

(** ** Loss aggregation (train.py, lines 66-67) *)

Definition aggregate (opts : Opts) (loss_dict : LossDict) : Result Qc :=
  let? l1 := get_term loss_dict "img" "l1" in
  let? vggpt := get_term loss_dict "img" "vggpt" in
  let? kl := get_scalar loss_dict "kl" in
  let? svg_total := get_term loss_dict "svg" "total" in
  let? svg_para_total := get_term loss_dict "svg_para" "total" in
  Ok (loss_w_l1 opts * l1 + loss_w_pt_c opts * vggpt + kl_beta opts * kl
      + svg_total + svg_para_total)%Qc.

(** ** Step cadences (train.py, lines 88, 115, 121) *)

(** [batches_done % opts.freq_log == 0] *)
Definition log_due (opts : Opts) (batches_done : Z) : Result bool :=
  let? r := py_mod batches_done (freq_log opts) in
  Ok (r =? 0).

(** [opts.freq_sample > 0 and batches_done % opts.freq_sample == 0] *)
Definition sample_due (opts : Opts) (batches_done : Z) : Result bool :=
  if 0 <? freq_sample opts then
    let? r := py_mod batches_done (freq_sample opts) in
    Ok (r =? 0)
  else Ok false.

(** [opts.freq_val > 0 and batches_done % opts.freq_val == 0] *)
Definition val_due (opts : Opts) (batches_done : Z) : Result bool :=
  if 0 <? freq_val opts then
    let? r := py_mod batches_done (freq_val opts) in
    Ok (r =? 0)
  else Ok false.

(** [epoch % opts.freq_ckpt == 0 and epoch >= opts.threshold_ckpt] *)
Definition ckpt_due (opts : Opts) (epoch : Z) : Result bool :=
  let? r := py_mod epoch (freq_ckpt opts) in
  Ok ((r =? 0) && (threshold_ckpt opts <=? epoch)).

(** ** Paths *)

Definition nl : string := String (Ascii.ascii_of_nat 10) EmptyString.

Fixpoint ends_with_slash (s : string) : bool :=
  match s with
  | EmptyString => false
  | String c EmptyString => Ascii.eqb c "/"%char
  | String _ s' => ends_with_slash s'
  end.

(** [os.path.join(a, b)] on a POSIX system *)
Definition os_path_join (a b : string) : string :=
  if String.prefix "/" b then b
  else if String.eqb a "" || ends_with_slash a then a +:+ b
  else a +:+ "/" +:+ b.

Definition dir_exp (opts : Opts) : string :=
  os_path_join (os_path_join (exp_path opts) "experiments") (name_exp opts).
Definition dir_sample (opts : Opts) : string := os_path_join (dir_exp opts) "samples".
Definition dir_ckpt (opts : Opts) : string := os_path_join (dir_exp opts) "checkpoints".

(** [f'{dir_ckpt}/{epoch}_{batches_done}.ckpt'] *)
Definition ckpt_path (opts : Opts) (epoch batches_done : Z) : string :=
  dir_ckpt opts +:+ "/" +:+ pretty epoch +:+ "_" +:+ pretty batches_done +:+ ".ckpt".

(** [os.path.join(dir_sample, f"train_epoch_{epoch}_batch_{batches_done}.png")] *)
Definition sample_path (opts : Opts) (epoch batches_done : Z) : string :=
  os_path_join (dir_sample opts)
    ("train_epoch_" +:+ pretty epoch +:+ "_batch_" +:+ pretty batches_done +:+ ".png").

(** ** Files opened for writing *)

(** A text file of records of type [A]: what the file holds on disk, the
    records written and not yet flushed, and whether the handle is open. *)
Record File (A : Type) : Type := {
  on_disk : list A;
  buffer : list A;
  is_open : bool
}.
Arguments on_disk {A} f.
Arguments buffer {A} f.
Arguments is_open {A} f.

(** [open(path, 'w')]: the file is truncated. *)
Definition open_w {A : Type} (f : File A) : File A :=
  {| on_disk := []; buffer := []; is_open := true |}.

(** [f.write(x)] *)
Definition file_write {A : Type} (x : A) (f : File A) : Result (File A) :=
  if is_open f
  then Ok {| on_disk := on_disk f; buffer := buffer f ++ [x]; is_open := true |}
  else Raise ValueError.

(** [f.close()]: flushes, then releases the handle. *)
Definition file_close {A : Type} (f : File A) : File A :=
  {| on_disk := on_disk f ++ buffer f; buffer := []; is_open := false |}.

(** ** Log records *)

(** The fields of [message] (train.py, lines 74-87); the elapsed time is
    left out. *)
Record TrainMsg : Type := {
  tm_epoch : Z;
  tm_n_epochs : Z;
  tm_batch : Z;
  tm_n_batches : Z;
  tm_loss : Qc;
  tm_img_l1_loss : Qc;
  tm_img_pt_c_loss : Qc;
  tm_svg_total_loss : Qc;
  tm_svg_cmd_loss : Qc;
  tm_svg_args_loss : Qc;
  tm_svg_smooth_loss : Qc;
  tm_svg_aux_loss : Qc;
  tm_lr : Qc;
  tm_step : Z
}.

(** The fields of [val_msg] (train.py, lines 151-158). *)
Record ValMsg : Type := {
  vm_epoch : Z;
  vm_n_epochs : Z;
  vm_batch : Z;
  vm_n_batches : Z;
  vm_img_l1 : Qc;
  vm_img_pt : Qc;
  vm_total : Qc;
  vm_cmd : Qc;
  vm_args : Qc
}.

Definition train_message (opts : Opts) (epoch idx n_batches : Z) (loss : Qc)
    (loss_dict : LossDict) (lr : Qc) (batches_done : Z) : Result TrainMsg :=
  let? l1 := get_term loss_dict "img" "l1" in
  let? vggpt := get_term loss_dict "img" "vggpt" in
  let? total := get_term loss_dict "svg" "total" in
  let? cmd := get_term loss_dict "svg" "cmd" in
  let? args := get_term loss_dict "svg" "args" in
  let? smt := get_term loss_dict "svg" "smt" in
  let? aux := get_term loss_dict "svg" "aux" in
  Ok {| tm_epoch := epoch; tm_n_epochs := n_epochs opts;
        tm_batch := idx; tm_n_batches := n_batches;
        tm_loss := loss;
        tm_img_l1_loss := (loss_w_l1 opts * l1)%Qc;
        tm_img_pt_c_loss := (loss_w_pt_c opts * vggpt)%Qc;
        tm_svg_total_loss := total;
        tm_svg_cmd_loss := (loss_w_cmd opts * cmd)%Qc;
        tm_svg_args_loss := (loss_w_args opts * args)%Qc;
        tm_svg_smooth_loss := (loss_w_smt opts * smt)%Qc;
        tm_svg_aux_loss := (loss_w_aux opts * aux)%Qc;
        tm_lr := lr;
        tm_step := batches_done |}.

(** ** Validation sums (train.py, lines 125-137) *)

Abbreviation LossVal := (gmap string (gmap string Qc)).

(** The literal of line 125, in the order it is written. *)
Definition loss_val_literal : list (string * list (string * Qc)) :=
  [ ("img", [("l1", 0%Qc); ("vggpt", 0%Qc)]);
    ("svg", [("total", 0%Qc); ("cmd", 0%Qc); ("args", 0%Qc); ("aux", 0%Qc)]);
    ("svg_para", [("total", 0%Qc); ("cmd", 0%Qc); ("args", 0%Qc); ("aux", 0%Qc)]) ].

Definition loss_val_init : LossVal :=
  list_to_map (map (fun ct => (fst ct, list_to_map (snd ct))) loss_val_literal).

(** The keys [loss_val[cat].items()] goes through: the loops of lines
    131-137 rebind values only, so the keys are those of the literal, in
    its order. *)
Definition term_keys (cat : string) : list string :=
  match find (fun ct => String.eqb (fst ct) cat) loss_val_literal with
  | Some ct => map fst (snd ct)
  | None => []
  end.

(** [loss_val[cat][key]] *)
Definition get_val (loss_val : LossVal) (cat key : string) : Result Qc :=
  match loss_val !! cat with
  | None => Raise (KeyError cat)
  | Some m =>
      match m !! key with
      | None => Raise (KeyError key)
      | Some x => Ok x
      end
  end.

(** [loss_val[cat][key] = v] *)
Definition set_val (loss_val : LossVal) (cat key : string) (v : Qc) : LossVal :=
  match loss_val !! cat with
  | Some m => <[cat := <[key := v]> m]> loss_val
  | None => loss_val
  end.

(** [loss_val[cat][key] += loss_dict_val[cat][key]] *)
Definition add_term (loss_dict_val : LossDict) (cat : string)
    (loss_val : LossVal) (key : string) : Result LossVal :=
  let? cur := get_val loss_val cat key in
  let? x := get_term loss_dict_val cat key in
  Ok (set_val loss_val cat key (cur + x)%Qc).

(** Lines 131-133, for one validation batch. *)
Definition accumulate (loss_val : LossVal) (loss_dict_val : LossDict)
  : Result LossVal :=
  foldR (fun lv cat => foldR (add_term loss_dict_val cat) (term_keys cat) lv)
        ["img"; "svg"] loss_val.

(** [loss_val[cat][key] /= n] *)
Definition div_term (n : Z) (cat : string) (loss_val : LossVal) (key : string)
  : Result LossVal :=
  let? cur := get_val loss_val cat key in
  let? q := py_div cur n in
  Ok (set_val loss_val cat key q).

(** Lines 135-137. *)
Definition average (loss_val : LossVal) (n : Z) : Result LossVal :=
  foldR (fun lv cat => foldR (div_term n cat) (term_keys cat) lv)
        ["img"; "svg"] loss_val.

(** ** Computations with a state and exceptions *)

(** A computation reads and writes a state and returns or raises; the
    state it has reached is kept in both cases. *)
Definition Comp (S A : Type) : Type := S -> Result A * S.

Definition ret {S A : Type} (a : A) : Comp S A := fun w => (Ok a, w).

Definition raise {S A : Type} (e : Exn) : Comp S A := fun w => (Raise e, w).

Definition bind {S A B : Type} (m : Comp S A) (k : A -> Comp S B) : Comp S B :=
  fun w =>
    match m w with
    | (Ok a, w') => k a w'
    | (Raise e, w') => (Raise e, w')
    end.

Definition lift {S A : Type} (r : Result A) : Comp S A := fun w => (r, w).

Definition get {S : Type} : Comp S S := fun w => (Ok w, w).

Definition modify {S : Type} (f : S -> S) : Comp S unit := fun w => (Ok tt, f w).

Fixpoint for_each {S A : Type} (l : list A) (body : A -> Comp S unit)
  : Comp S unit :=
  match l with
  | [] => ret tt
  | x :: l' => bind (body x) (fun _ => for_each l' body)
  end.

Declare Scope run_scope.
Delimit Scope run_scope with run.
Notation "'let!' x ':=' m 'in' k" := (bind m (fun x => k))
  (at level 10, x name, m at level 100, k at level 200) : run_scope.
Notation "m ';;' k" := (bind m (fun _ => k))
  (at level 100, k at level 200, right associativity) : run_scope.
Open Scope run_scope.

(** ** Collaborators of the driver *)

(** [model_main(data)] and [model_main(val_data, mode='val')] *)
Inductive FwdMode : Type := ModeTrain | ModeVal.

(** The dictionary written by [torch.save] (train.py, lines 169, 172).
    [ck_module_keys] tells whether the keys of the state dictionary under
    ['model'] carry the prefix [module.], as those of the state dictionary
    of a [DataParallel] wrapper do. *)
Record Checkpoint (N O : Type) : Type := {
  ck_model : N;
  ck_module_keys : bool;
  ck_opt : O;
  ck_n_epoch : Z;
  ck_n_iter : Z
}.
Arguments ck_model {N O} c.
Arguments ck_module_keys {N O} c.
Arguments ck_opt {N O} c.
Arguments ck_n_epoch {N O} c.
Arguments ck_n_iter {N O} c.

(** What the driver uses and does not define: the data loader's batches,
    the model, the optimizer with its scheduler, and the tracker. Their
    calls are taken to return, but for the publication of an artifact and
    the loading of a state dictionary; the seeding and the transfer of the
    tensors to the device are not modelled, and of the replication of the
    model over the devices only the keys of its state dictionary are.
    - [forward net training mode data] is the call of the model on a
      batch, with the parameters [net] and the module's training flag;
    - [optimize] is [zero_grad], [backward] and [step] for one batch;
    - [optim_lr] is [optimizer.param_groups[0]['lr']];
    - [scheduler_step] is [scheduler.step()];
    - [log_artifact_ok path] tells whether the publication of the
      checkpoint at [path] to the tracker succeeds. *)
Class Collaborators : Type := {
  Batch : Type;
  Net : Type;
  Optim : Type;
  Ret : Type;
  new_model : Opts -> Net;
  new_optimizer : Opts -> Optim;
  forward : Net -> bool -> FwdMode -> Batch -> Ret * LossDict;
  optimize : Opts -> Net -> Optim -> bool -> Batch -> Net * Optim;
  optim_lr : Optim -> Qc;
  scheduler_step : Optim -> Optim;
  log_artifact_ok : string -> bool
}.

Section Driver.
Context `{C : Collaborators}.

(** Calls of the tracker. *)
Inductive TrackerEvent : Type :=
  | WandbInit (project : string) (config : Opts)
  | WandbLog (name : string) (value : Qc) (step : option Z)
  | WandbImages (validation : bool) (ret_dict : Ret) (step : option Z)
  | WandbArtifact (path : string).

(** Lines printed on the console. *)
Inductive Printed : Type :=
  | PrintTrain (message : TrainMsg)
  | PrintVal (val_msg : ValMsg)
  | PrintSaved (path : string).

(** ** The world of a run *)

(** The state the driver reads and writes: the model and the optimizer,
    the module's training flag, the two log files, the console, the sample
    images and the checkpoints on disk, the tracker, and the local
    variable [batches_done], unbound until line 73 runs. *)
Record World : Type := {
  net : Net;
  optim : Optim;
  training : bool;
  logfile_train : File TrainMsg;
  logfile_val : File ValMsg;
  stdout : list Printed;
  samples : list (string * Ret);
  ckpt_files : gmap string (Checkpoint Net Optim);
  tracker : list TrackerEvent;
  batches_done : option Z
}.

Definition set_net_optim (no : Net * Optim) (w : World) : World :=
  {| net := fst no; optim := snd no; training := training w;
     logfile_train := logfile_train w; logfile_val := logfile_val w;
     stdout := stdout w; samples := samples w; ckpt_files := ckpt_files w;
     tracker := tracker w; batches_done := batches_done w |}.

Definition set_training (b : bool) (w : World) : World :=
  {| net := net w; optim := optim w; training := b;
     logfile_train := logfile_train w; logfile_val := logfile_val w;
     stdout := stdout w; samples := samples w; ckpt_files := ckpt_files w;
     tracker := tracker w; batches_done := batches_done w |}.

Definition set_logfile_train (f : File TrainMsg) (w : World) : World :=
  {| net := net w; optim := optim w; training := training w;
     logfile_train := f; logfile_val := logfile_val w;
     stdout := stdout w; samples := samples w; ckpt_files := ckpt_files w;
     tracker := tracker w; batches_done := batches_done w |}.

Definition set_logfile_val (f : File ValMsg) (w : World) : World :=
  {| net := net w; optim := optim w; training := training w;
     logfile_train := logfile_train w; logfile_val := f;
     stdout := stdout w; samples := samples w; ckpt_files := ckpt_files w;
     tracker := tracker w; batches_done := batches_done w |}.

Definition print (p : Printed) (w : World) : World :=
  {| net := net w; optim := optim w; training := training w;
     logfile_train := logfile_train w; logfile_val := logfile_val w;
     stdout := stdout w ++ [p]; samples := samples w;
     ckpt_files := ckpt_files w;
     tracker := tracker w; batches_done := batches_done w |}.

Definition save_image (path : string) (img : Ret) (w : World) : World :=
  {| net := net w; optim := optim w; training := training w;
     logfile_train := logfile_train w; logfile_val := logfile_val w;
     stdout := stdout w; samples := samples w ++ [(path, img)];
     ckpt_files := ckpt_files w;
     tracker := tracker w; batches_done := batches_done w |}.

Definition torch_save (ck : Checkpoint Net Optim) (path : string) (w : World)
  : World :=
  {| net := net w; optim := optim w; training := training w;
     logfile_train := logfile_train w; logfile_val := logfile_val w;
     stdout := stdout w; samples := samples w;
     ckpt_files := <[path := ck]> (ckpt_files w);
     tracker := tracker w; batches_done := batches_done w |}.

Definition track (e : TrackerEvent) (w : World) : World :=
  {| net := net w; optim := optim w; training := training w;
     logfile_train := logfile_train w; logfile_val := logfile_val w;
     stdout := stdout w; samples := samples w; ckpt_files := ckpt_files w;
     tracker := tracker w ++ [e]; batches_done := batches_done w |}.

Definition set_batches_done (bd : Z) (w : World) : World :=
  {| net := net w; optim := optim w; training := training w;
     logfile_train := logfile_train w; logfile_val := logfile_val w;
     stdout := stdout w; samples := samples w; ckpt_files := ckpt_files w;
     tracker := tracker w; batches_done := Some bd |}.

(** The local variables of a call that starts: none is bound. *)
Definition enter_call (w : World) : World :=
  {| net := net w; optim := optim w; training := training w;
     logfile_train := logfile_train w; logfile_val := logfile_val w;
     stdout := stdout w; samples := samples w; ckpt_files := ckpt_files w;
     tracker := tracker w; batches_done := None |}.

(** The computations of the driver. *)
Definition Run (A : Type) : Type := Comp World A.

End Driver.


Section TrainMainModel.
Context `{C : Collaborators}.

(** [logfile_train.write(message + '\n')] *)
Definition write_train (message : TrainMsg) : Run unit :=
  let! w := get in
  let! f := lift (file_write message (logfile_train w)) in
  modify (set_logfile_train f).

(** [logfile_val.write(val_msg + "\n")] *)
Definition write_val (val_msg : ValMsg) : Run unit :=
  let! w := get in
  let! f := lift (file_write val_msg (logfile_val w)) in
  modify (set_logfile_val f).

(** ** Tracker events of a logged step (train.py, lines 92-113) *)

Definition loss_img_items : list string := ["l1"; "vggpt"].
Definition loss_svg_items : list string := ["total"; "cmd"; "args"; "aux"; "smt"].

Definition wandb_log_train (opts : Opts) (ret_dict : Ret) (loss_dict : LossDict)
    (batches_done : Z) : Run unit :=
  for_each loss_img_items (fun item =>
    let! x := lift (get_term loss_dict "img" item) in
    modify (track (WandbLog ("Loss/img_" +:+ item) x (Some batches_done))));;
  for_each loss_svg_items (fun item =>
    let! x := lift (get_term loss_dict "svg" item) in
    modify (track (WandbLog ("Loss/svg_" +:+ item) x (Some batches_done)));;
    let! y := lift (get_term loss_dict "svg_para" item) in
    modify (track (WandbLog ("Loss/svg_para_" +:+ item) y (Some batches_done))));;
  let! kl := lift (get_scalar loss_dict "kl") in
  modify (track (WandbLog "Loss/img_kl_loss" (kl_beta opts * kl)%Qc
                          (Some batches_done)));;
  modify (track (WandbImages false ret_dict (Some batches_done))).

(** ** A validation event (train.py, lines 123-161) *)

(** One pass of the loop of line 128: the model is called on the batch and
    its losses are added to the sums; [ret_dict_val] is rebound. *)
Definition val_batch (net : Net) (training : bool)
    (acc : LossVal * option Ret) (val_data : Batch)
  : Result (LossVal * option Ret) :=
  let ret_loss := forward net training ModeVal val_data in
  let? loss_val := accumulate (fst acc) (snd ret_loss) in
  Ok (loss_val, Some (fst ret_loss)).

(** Lines 124-137: the model is put in evaluation mode, the losses of the
    validation batches are summed from the literal of line 125 and divided
    by [len(val_loader)]. Returns [loss_val] and [ret_dict_val], the
    latter unbound when the loader gave no batch. *)
Definition validation_losses (val_loader : list Batch)
  : Run (LossVal * option Ret) :=
  modify (set_training false);;
  let! w := get in
  let! acc := lift (foldR (val_batch (net w) (training w)) val_loader
                          (loss_val_init, None)) in
  let! loss_val := lift (average (fst acc) (len val_loader)) in
  ret (loss_val, snd acc).

(** Lines 139-148. *)
Definition wandb_log_val (loss_val : LossVal) (ret_dict_val : option Ret)
  : Run unit :=
  for_each ["img"; "svg"] (fun loss_cat =>
    for_each (term_keys loss_cat) (fun key =>
      let! value := lift (get_val loss_val loss_cat key) in
      modify (track (WandbLog ("VAL/loss_" +:+ loss_cat +:+ "_" +:+ key)
                              value None))));;
  match ret_dict_val with
  | Some r => modify (track (WandbImages true r None))
  | None => raise (UnboundLocalError "ret_dict_val")
  end.

Definition val_message (opts : Opts) (epoch idx n_batches : Z)
    (loss_val : LossVal) : Result ValMsg :=
  let? l1 := get_val loss_val "img" "l1" in
  let? vggpt := get_val loss_val "img" "vggpt" in
  let? total := get_val loss_val "svg" "total" in
  let? cmd := get_val loss_val "svg" "cmd" in
  let? args := get_val loss_val "svg" "args" in
  Ok {| vm_epoch := epoch; vm_n_epochs := n_epochs opts;
        vm_batch := idx; vm_n_batches := n_batches;
        vm_img_l1 := l1; vm_img_pt := vggpt;
        vm_total := total; vm_cmd := cmd; vm_args := args |}.

Definition validation_event (opts : Opts) (val_loader : list Batch)
    (epoch idx n_batches : Z) : Run unit :=
  let! lv_ret := validation_losses val_loader in
  (if wandb opts then wandb_log_val (fst lv_ret) (snd lv_ret) else ret tt);;
  let! val_msg := lift (val_message opts epoch idx n_batches (fst lv_ret)) in
  write_val val_msg;;
  modify (print (PrintVal val_msg)).

(** ** One batch (train.py, lines 62-161) *)

Definition batch_step (opts : Opts) (n_batches : Z) (val_loader : list Batch)
    (epoch : Z) (idx_data : Z * Batch) : Run unit :=
  let idx := fst idx_data in
  let data := snd idx_data in
  let! w := get in
  let ret_loss := forward (net w) (training w) ModeTrain data in
  let ret_dict := fst ret_loss in
  let loss_dict := snd ret_loss in
  let! loss := lift (aggregate opts loss_dict) in
  modify (set_net_optim (optimize opts (net w) (optim w) (training w) data));;
  let batches_done := epoch * n_batches + idx + 1 in
  modify (set_batches_done batches_done);;
  let! w1 := get in
  let! message := lift (train_message opts epoch idx n_batches loss loss_dict
                                      (optim_lr (optim w1)) batches_done) in
  let! log := lift (log_due opts batches_done) in
  (if log then
     write_train message;;
     modify (print (PrintTrain message));;
     if wandb opts then wandb_log_train opts ret_dict loss_dict batches_done
     else ret tt
   else ret tt);;
  let! sample := lift (sample_due opts batches_done) in
  (if sample then
     modify (save_image (sample_path opts epoch batches_done) ret_dict)
   else ret tt);;
  let! validate := lift (val_due opts batches_done) in
  if validate then validation_event opts val_loader epoch idx n_batches
  else ret tt.

(** ** The end of an epoch (train.py, lines 164-176) *)

(** The local variable [batches_done], read after the loop over the
    batches. *)
Definition read_batches_done : Run Z :=
  let! w := get in
  match batches_done w with
  | Some bd => ret bd
  | None => raise (UnboundLocalError "batches_done")
  end.

(** Lines 173-176. *)
Definition publish_artifact (path : string) : Run unit :=
  if log_artifact_ok path then modify (track (WandbArtifact path))
  else raise TrackerError.

(** Lines 167-176. With [opts.multi_gpu] the state dictionary saved is
    that of [model_main.module], the module inside the wrapper; without,
    it is that of [model_main], which is then the module itself: in both
    branches the keys are those of the module, without prefix. *)
Definition save_checkpoint (opts : Opts) (epoch : Z) : Run unit :=
  let! bd := read_batches_done in
  let path := ckpt_path opts epoch bd in
  (if multi_gpu opts then
     modify (print (PrintSaved path));;
     let! w := get in
     modify (torch_save {| ck_model := net w; ck_module_keys := false;
                           ck_opt := optim w;
                           ck_n_epoch := epoch; ck_n_iter := bd |} path)
   else
     modify (print (PrintSaved path));;
     let! w := get in
     modify (torch_save {| ck_model := net w; ck_module_keys := false;
                           ck_opt := optim w;
                           ck_n_epoch := epoch; ck_n_iter := bd |} path));;
  if wandb opts then publish_artifact path else ret tt.

Definition epoch_body (opts : Opts) (train_loader val_loader : list Batch)
    (epoch : Z) : Run unit :=
  for_each (enumerate train_loader)
           (batch_step opts (len train_loader) val_loader epoch);;
  modify (fun w => set_net_optim (net w, scheduler_step (optim w)) w);;
  let! due := lift (ckpt_due opts epoch) in
  if due then save_checkpoint opts epoch else ret tt.

(** ** The run (train.py, lines 25-179) *)

(** Lines 48-49: whether [model_main] is rebound to a [DataParallel]
    wrapper of the module, [torch.cuda.is_available() and opts.multi_gpu].
    The call [model_main.cuda()] of line 40 has returned when the test is
    made, so that CUDA is available there. *)
Definition data_parallel (opts : Opts) : bool := multi_gpu opts.

(** Lines 52-55, for a model that is a [DataParallel] wrapper or not.
    [load_state_dict] is strict: a wrapper takes the keys with the prefix
    [module.] and a module those without, and raises [RuntimeError] on the
    others, before anything is loaded. *)
Definition load_checkpoint (opts : Opts) (wrapped : bool) : Run unit :=
  if continue_training opts then
    let! w := get in
    match ckpt_files w !! continue_ckpt opts with
    | Some checkpoint =>
        if Bool.eqb (ck_module_keys checkpoint) wrapped then
          modify (set_net_optim (ck_model checkpoint, ck_opt checkpoint))
        else raise RuntimeError
    | None => raise (FileNotFoundError (continue_ckpt opts))
    end
  else ret tt.

(** Lines 31-57: the log files are opened, the tracker is initialised
    (line 37, whatever [opts.wandb]), the model and the optimizer are built
    (a new module is in training mode), the model is wrapped for several
    devices (lines 48-49) and, when training is continued, the model and
    the optimizer are loaded from the checkpoint. *)
Definition setup (opts : Opts) : Run unit :=
  modify enter_call;;
  modify (fun w => set_logfile_train (open_w (logfile_train w)) w);;
  modify (fun w => set_logfile_val (open_w (logfile_val w)) w);;
  modify (track (WandbInit (wandb_project_name opts) opts));;
  modify (set_net_optim (new_model opts, new_optimizer opts));;
  modify (set_training true);;
  let wrapped := data_parallel opts in
  load_checkpoint opts wrapped.

(** Lines 178-179. *)
Definition close_logs : Run unit :=
  modify (fun w => set_logfile_train (file_close (logfile_train w)) w);;
  modify (fun w => set_logfile_val (file_close (logfile_val w)) w).

Definition train_main_model (opts : Opts) (train_loader val_loader : list Batch)
  : Run unit :=
  setup opts;;
  for_each (py_range (init_epoch opts) (n_epochs opts))
           (epoch_body opts train_loader val_loader);;
  close_logs.

End TrainMainModel.

(** ** The font converter (data_utils/convert_ttf_to_sfd.py, lines 50-80) *)

(** A Python string as the list of its code points. *)
Abbreviation PyStr := (list Z).

(** [ord(s)] *)
Definition ord (s : PyStr) : Result Z :=
  match s with
  | [c] => Ok c
  | _ => Raise TypeError
  end.

(** The code point of a lower-case hexadecimal digit. *)
Definition hex_digit (n : Z) : Z := if n <? 10 then 48 + n else 87 + n.

(** [c] on [width] hexadecimal digits. *)
Definition hex_fixed (width : nat) (c : Z) : PyStr :=
  map (fun i => hex_digit ((c / 16 ^ Z.of_nat i) mod 16)) (rev (seq 0 width)).

(** [char.encode("unicode_escape")[2:].decode("utf-8")] for a string of one
    character: the escape without its first two bytes. *)
Definition unicode_escape_tail (c : Z) : PyStr :=
  if 65536 <=? c then hex_fixed 8 c
  else if 256 <=? c then hex_fixed 4 c
  else if (c =? 9) || (c =? 10) || (c =? 13) || (c =? 92) then []
  else if (c <? 32) || (127 <=? c) then hex_fixed 2 c
  else [].

(** ['{num:0{width}}'.format(num=n, width=width)] for [n >= 0] *)
Definition pad0 (width : nat) (n : Z) : string :=
  let s := pretty n in
  String.concat "" (repeat "0" (width - String.length s)) +:+ s.

(** What the converter uses and does not define. Of the fontforge
    library: [FF] is the state of the library (the font being read, the
    font built for the character, the selections and the clipboard); each
    call may raise. Of the file system: [open_for_writing path] tells
    whether [open(path, 'w')] returns or raises, and what. *)
Class FontForge : Type := {
  FF : Type;
  open_for_writing : string -> Result unit;
  cur_select : PyStr -> FF -> Result FF;
  cur_copy : FF -> Result FF;
  new_font : FF -> Result FF;
  new_select : PyStr -> FF -> Result FF;
  new_paste : FF -> Result FF;
  new_set_fontname : string -> FF -> Result FF;
  new_save : string -> FF -> Result FF;
  new_width : PyStr -> FF -> Result Z;
  new_vwidth : PyStr -> FF -> Result Z
}.

Section Converter.
Context `{F : FontForge}.

(** The errors printed by the handler of line 78. *)
Record FoundError : Type := {
  fe_font_id : string;
  fe_font_name : string;
  fe_char_id : Z;
  fe_char : PyStr;
  fe_exn : Exn
}.

(** The state of the conversion of one font: the library, the text files
    written (a write is shown in the file at once), the console, and the
    loop variable [char]. *)
Record ConvWorld : Type := {
  ff : FF;
  files : gmap string string;
  found_errors : list FoundError;
  char : PyStr
}.

Definition set_ff (x : FF) (w : ConvWorld) : ConvWorld :=
  {| ff := x; files := files w; found_errors := found_errors w;
     char := char w |}.

Definition set_char (s : PyStr) (w : ConvWorld) : ConvWorld :=
  {| ff := ff w; files := files w; found_errors := found_errors w;
     char := s |}.

(** The file at [path] is created, or truncated if it exists. *)
Definition truncate_file (path : string) (w : ConvWorld) : ConvWorld :=
  {| ff := ff w; files := <[path := ""]> (files w);
     found_errors := found_errors w; char := char w |}.

(** [open(path, 'w')]: raises what the file system raises, or creates the
    file. *)
Definition create_file (path : string) : Comp ConvWorld unit :=
  lift (open_for_writing path);;
  modify (truncate_file path).

(** [char_description.write(text)] on the file opened at [path] *)
Definition append_file (path text : string) (w : ConvWorld) : ConvWorld :=
  {| ff := ff w;
     files := <[path := default "" (files w !! path) +:+ text]> (files w);
     found_errors := found_errors w; char := char w |}.

Definition print_found_error (e : FoundError) (w : ConvWorld) : ConvWorld :=
  {| ff := ff w; files := files w; found_errors := found_errors w ++ [e];
     char := char w |}.

(** A call of the library that changes its state. *)
Definition call (f : FF -> Result FF) : Comp ConvWorld unit :=
  let! w := get in
  let! x := lift (f (ff w)) in
  modify (set_ff x).

(** A call of the library that returns a value. *)
Definition query {A : Type} (f : FF -> Result A) : Comp ConvWorld A :=
  let! w := get in
  lift (f (ff w)).

Definition description_path (target_dir font_id : string) (charset_lenw : nat)
    (char_id : Z) : string :=
  os_path_join target_dir (font_id +:+ "_" +:+ pad0 charset_lenw char_id +:+ ".txt").

Definition sfd_path (target_dir font_id : string) (charset_lenw : nat)
    (char_id : Z) : string :=
  os_path_join target_dir (font_id +:+ "_" +:+ pad0 charset_lenw char_id +:+ ".sfd").

(** The body of the [try] (lines 52-77), entered with the loop variable
    [char] bound to the character of the charset. *)
Definition convert_char (charset_th : PyStr) (charset_lenw : nat)
    (target_dir font_id font_name : string) (char_id : Z)
  : Comp ConvWorld unit :=
  let char_description := description_path target_dir font_id charset_lenw char_id in
  create_file char_description;;
  let! w := get in
  (match char w with
   | [c] =>
       if existsb (Z.eqb c) charset_th
       then modify (set_char ([117; 110; 105] ++ unicode_escape_tail c))
       else ret tt
   | _ => ret tt
   end);;
  let! w := get in
  call (cur_select (char w));;
  call cur_copy;;
  call new_font;;
  modify (set_char [65]);;
  let! w := get in
  call (new_select (char w));;
  call new_paste;;
  call (new_set_fontname (font_id +:+ "_" +:+ font_name));;
  call (new_save (sfd_path target_dir font_id charset_lenw char_id));;
  let! o := lift (ord (char w)) in
  modify (append_file char_description (pretty o +:+ nl));;
  let! width := query (new_width (char w)) in
  modify (append_file char_description (pretty width +:+ nl));;
  let! vwidth := query (new_vwidth (char w)) in
  modify (append_file char_description (pretty vwidth +:+ nl));;
  modify (append_file char_description (pad0 charset_lenw char_id +:+ nl));;
  modify (append_file char_description font_id).

(** Lines 50-80 for one character: the loop variable is bound, the body is
    tried and an exception is printed and dropped. *)
Definition try_convert_char (charset_th : PyStr) (charset_lenw : nat)
    (target_dir font_id font_name : string) (id_char : Z * Z)
  : Comp ConvWorld unit :=
  fun w =>
    match convert_char charset_th charset_lenw target_dir font_id font_name
                       (fst id_char) (set_char [snd id_char] w) with
    | (Ok tt, w') => (Ok tt, w')
    | (Raise e, w') =>
        (Ok tt, print_found_error
                  {| fe_font_id := font_id; fe_font_name := font_name;
                     fe_char_id := fst id_char; fe_char := char w';
                     fe_exn := e |} w')
    end.

(** Lines 50-80: the loop over the charset. *)
Definition convert_charset (charset_th charset : PyStr) (charset_lenw : nat)
    (target_dir font_id font_name : string) : Comp ConvWorld unit :=
  for_each (enumerate charset)
           (try_convert_char charset_th charset_lenw target_dir font_id font_name).

(** The first line of a text. *)
Fixpoint first_line (s : string) : string :=
  match s with
  | EmptyString => EmptyString
  | String c s' =>
      if Ascii.eqb c (Ascii.ascii_of_nat 10) then EmptyString
      else String c (first_line s')
  end.

End Converter.

(** ** The fonts of a process (convert_ttf_to_sfd.py, lines 12-48, 82) *)

(** [a // b] *)
Definition py_floordiv (a b : Z) : Result Z :=
  if b =? 0 then Raise ZeroDivisionError else Ok (a / b).

(** Lines 26-27: [process_num = mp.cpu_count() - 1] and
    [font_num // process_num + 1]. *)
Definition font_num_per_process (font_num cpu_count : Z) : Result Z :=
  let process_num := cpu_count - 1 in
  let? q := py_floordiv font_num process_num in
  Ok (q + 1).

(** A loop whose body starts with [if stop: break]. *)
Fixpoint for_each_until {S A : Type} (stop : A -> bool) (l : list A)
    (body : A -> Comp S unit) : Comp S unit :=
  match l with
  | [] => ret tt
  | x :: l' =>
      if stop x then ret tt
      else bind (body x) (fun _ => for_each_until stop l' body)
  end.

(** [name.split('.')[0]] *)
Fixpoint before_dot (s : string) : string :=
  match s with
  | EmptyString => EmptyString
  | String c s' =>
      if Ascii.eqb c "."%char then EmptyString else String c (before_dot s')
  end.

(** What [process] uses of the fontforge library besides the calls of the
    conversion of a character: [fontforge.open(path)], after which the
    font read is the one opened, and [cur_font.close()]. *)
Class FontFiles `{F : FontForge} : Type := {
  fontforge_open : string -> FF -> Result FF;
  cur_close : FF -> Result FF
}.

Section Process.
Context `{F : FontForge} `{!FontFiles}.

(** The state of a process: that of the conversions, the directories made
    and the fonts reported as impossible to open. *)
Record ProcWorld : Type := {
  conv : ConvWorld;
  made_dirs : list string;
  cannot_open : list (string * Exn)
}.

Definition set_conv (c : ConvWorld) (w : ProcWorld) : ProcWorld :=
  {| conv := c; made_dirs := made_dirs w; cannot_open := cannot_open w |}.

(** [if not os.path.exists(target_dir): os.makedirs(target_dir)], for the
    directories that the process makes itself. *)
Definition makedirs (target_dir : string) (w : ProcWorld) : ProcWorld :=
  if existsb (String.eqb target_dir) (made_dirs w) then w
  else {| conv := conv w; made_dirs := made_dirs w ++ [target_dir];
          cannot_open := cannot_open w |}.

Definition print_cannot_open (font_name : string) (e : Exn) (w : ProcWorld)
  : ProcWorld :=
  {| conv := conv w; made_dirs := made_dirs w;
     cannot_open := cannot_open w ++ [(font_name, e)] |}.

(** A computation of the conversion, run in the state of the process. *)
Definition in_conv (m : Comp ConvWorld unit) : Comp ProcWorld unit :=
  fun w => (fst (m (conv w)), set_conv (snd (m (conv w))) w).

(** Lines 34-82, for the font of index [i]; the index is within the list:
    the loop has left before for [i >= font_num]. A font that cannot be
    opened is reported and the loop goes on ([continue]). *)
Definition convert_font (charset_th charset : PyStr) (charset_lenw : nat)
    (fonts_file_path sfd_dir split : string) (ttf_fnames : list string)
    (i : Z) : Comp ProcWorld unit :=
  let font_id := before_dot (nth (Z.to_nat i) ttf_fnames "") in
  let font_name := nth (Z.to_nat i) ttf_fnames "" in
  let font_file_path :=
    os_path_join (os_path_join fonts_file_path split) font_name in
  fun w =>
    match fontforge_open font_file_path (ff (conv w)) with
    | Raise e => (Ok tt, print_cannot_open font_name e w)
    | Ok cur_font =>
        let target_dir := os_path_join (os_path_join sfd_dir split) font_id in
        (modify (makedirs target_dir);;
         in_conv (convert_charset charset_th charset charset_lenw target_dir
                                  font_id font_name);;
         in_conv (call cur_close))
          (set_conv (set_ff cur_font (conv w)) w)
    end.

(** Lines 29-82: the fonts of the process [process_id]. *)
Definition process (charset_th charset : PyStr) (charset_lenw : nat)
    (fonts_file_path sfd_dir split : string) (ttf_fnames : list string)
    (font_num process_id font_num_p_process : Z) : Comp ProcWorld unit :=
  for_each_until (fun i => font_num <=? i)
    (py_range (process_id * font_num_p_process)
              ((process_id + 1) * font_num_p_process))
    (convert_font charset_th charset charset_lenw fonts_file_path sfd_dir
                  split ttf_fnames).

End Process.

(** ** The start of the converter (convert_ttf_to_sfd.py, lines 9-27, 92-100) *)

(** The options: [opt_ref_nshot] is [None] when the namespace has no such
    attribute. *)
Record Namespace : Type := {
  opt_language : string;
  opt_data_path : string;
  opt_ttf_path : string;
  opt_sfd_path : string;
  opt_split : string;
  opt_ref_nshot : option Z
}.

(** The namespace built by the parser of [main]: the parser declares
    [--language], [--data_path], [--ttf_path], [--sfd_path] and
    [--split], and nothing else. *)
Definition main_namespace (language data_path ttf_path sfd_path split : string)
  : Namespace :=
  {| opt_language := language; opt_data_path := data_path;
     opt_ttf_path := ttf_path; opt_sfd_path := sfd_path; opt_split := split;
     opt_ref_nshot := None |}.

(** What [convert_mp] reads of the machine: the text files, the files of
    each directory that [os.walk] visits, in the order of the visit, and
    the number of processors. *)
Record Machine : Type := {
  read_text : string -> option PyStr;
  walk_files : string -> list (list string);
  cpu_count : Z
}.

(** The outcome of the start: a value, an exception of [Exn], or the
    [AttributeError] of an attribute that the namespace lacks. *)
Inductive Outcome (A : Type) : Type :=
  | Done (a : A)
  | Failed (e : Exn)
  | FailedAttribute (name : string).
Arguments Done {A} a.
Arguments Failed {A} e.
Arguments FailedAttribute {A} name.

(** The variables of [convert_mp] that [process] reads. *)
Record Plan : Type := {
  plan_charset_th : PyStr;
  plan_charset : PyStr;
  plan_charset_lenw : nat;
  plan_fonts_file_path : string;
  plan_sfd_path : string;
  plan_ttf_fnames : list string;
  plan_font_num : Z;
  plan_process_num : Z;
  plan_font_num_per_process : Z
}.

Definition char_set_path (opts : Namespace) (language : string) : string :=
  opt_data_path opts +:+ "/char_set/" +:+ language +:+ ".txt".

(** Lines 12-27. *)
Definition convert_mp_start (opts : Namespace) (m : Machine) : Outcome Plan :=
  match read_text m (char_set_path opts (opt_language opts)) with
  | None => Failed (FileNotFoundError (char_set_path opts (opt_language opts)))
  | Some charset_th =>
      match opt_ref_nshot opts with
      | None => FailedAttribute "ref_nshot"
      | Some ref_nshot =>
          let with_charset (charset : PyStr) : Outcome Plan :=
            let charset_lenw := String.length (pretty (len charset)) in
            let fonts_file_path :=
              os_path_join (opt_ttf_path opts) (opt_language opts) in
            let sfd_path :=
              os_path_join (opt_sfd_path opts) (opt_language opts) in
            match last (walk_files m
                          (os_path_join fonts_file_path (opt_split opts))) with
            | None => Failed (UnboundLocalError "ttf_fnames")
            | Some ttf_fnames =>
                let font_num := len ttf_fnames in
                match font_num_per_process font_num (cpu_count m) with
                | Raise e => Failed e
                | Ok n =>
                    Done {| plan_charset_th := charset_th;
                            plan_charset := charset;
                            plan_charset_lenw := charset_lenw;
                            plan_fonts_file_path := fonts_file_path;
                            plan_sfd_path := sfd_path;
                            plan_ttf_fnames := ttf_fnames;
                            plan_font_num := font_num;
                            plan_process_num := cpu_count m - 1;
                            plan_font_num_per_process := n |}
                end
            end in
          if ref_nshot =? 52 then
            match read_text m (char_set_path opts "eng") with
            | None => Failed (FileNotFoundError (char_set_path opts "eng"))
            | Some charset_eng => with_charset (charset_th ++ charset_eng)%list
            end
          else with_charset charset_th
      end
  end.

(** ** Concrete inputs *)

(** The breakdown and the weights of the aggregation example. *)
Definition example_breakdown : LossDict :=
  list_to_map
    [ ("img", Terms (list_to_map [("l1", Q2Qc 2); ("vggpt", Q2Qc 1)]));
      ("kl", Scalar (Q2Qc 0.5));
      ("svg", Terms (list_to_map [("total", Q2Qc 3)]));
      ("svg_para", Terms (list_to_map [("total", Q2Qc 1.5)])) ].

Definition example_opts : Opts :=
  {| exp_path := "."; name_exp := "exp_main_model";
     init_epoch := 0; n_epochs := 1;
     freq_log := 1; freq_sample := 0; freq_val := 0; freq_ckpt := 1;
     threshold_ckpt := 0;
     loss_w_l1 := Q2Qc 1; loss_w_pt_c := Q2Qc 0.5; kl_beta := Q2Qc 0.1;
     loss_w_cmd := Q2Qc 1; loss_w_args := Q2Qc 1; loss_w_smt := Q2Qc 1;
     loss_w_aux := Q2Qc 1;
     wandb := false; wandb_project_name := "dvf"; multi_gpu := false;
     continue_training := false; continue_ckpt := "" |}.

(** A breakdown with every term the driver reads, [x] under each. *)
Definition full_breakdown (x : Qc) : LossDict :=
  list_to_map
    [ ("img", Terms (list_to_map [("l1", x); ("vggpt", x)]));
      ("kl", Scalar x);
      ("svg", Terms (list_to_map [("total", x); ("cmd", x); ("args", x);
                                  ("smt", x); ("aux", x)]));
      ("svg_para", Terms (list_to_map [("total", x); ("cmd", x); ("args", x);
                                       ("smt", x); ("aux", x)])) ].

(** Collaborators for the examples: a batch is the breakdown the model
    returns on it, the model and the optimizer count their updates, and no
    artifact can be published. *)
Definition toy : Collaborators :=
  {| Batch := LossDict; Net := Z; Optim := Z; Ret := unit;
     new_model := fun _ => 0;
     new_optimizer := fun _ => 0;
     forward := fun _ _ _ data => (tt, data);
     optimize := fun _ n o _ _ => (n + 1, o + 1);
     optim_lr := fun _ => Q2Qc 1;
     scheduler_step := fun o => o;
     log_artifact_ok := fun _ => false |}.

(** A world before any run: nothing on disk, nothing open. *)
Definition toy_world : @World toy :=
  {| net := (0 : @Net toy); optim := (0 : @Optim toy); training := false;
     logfile_train := {| on_disk := []; buffer := []; is_open := false |};
     logfile_val := {| on_disk := []; buffer := []; is_open := false |};
     stdout := []; samples := []; ckpt_files := ∅; tracker := [];
     batches_done := None |}.

(** A font library where every call goes through, for the examples. *)
Definition toy_fontforge : FontForge :=
  {| FF := unit;
     open_for_writing := fun _ => Ok tt;
     cur_select := fun _ x => Ok x;
     cur_copy := fun x => Ok x;
     new_font := fun x => Ok x;
     new_select := fun _ x => Ok x;
     new_paste := fun x => Ok x;
     new_set_fontname := fun _ x => Ok x;
     new_save := fun _ x => Ok x;
     new_width := fun _ _ => Ok 600;
     new_vwidth := fun _ _ => Ok 1000 |}.

Definition toy_conv_world : @ConvWorld toy_fontforge :=
  {| ff := (tt : @FF toy_fontforge); files := ∅; found_errors := [];
     char := [] |}.

(** Options with the three step frequencies given. *)
Definition cadence_opts (log sample val : Z) : Opts :=
  {| exp_path := "."; name_exp := "exp_main_model";
     init_epoch := 0; n_epochs := 1;
     freq_log := log; freq_sample := sample; freq_val := val; freq_ckpt := 1;
     threshold_ckpt := 0;
     loss_w_l1 := Q2Qc 1; loss_w_pt_c := Q2Qc 0.5; kl_beta := Q2Qc 0.1;
     loss_w_cmd := Q2Qc 1; loss_w_args := Q2Qc 1; loss_w_smt := Q2Qc 1;
     loss_w_aux := Q2Qc 1;
     wandb := false; wandb_project_name := "dvf"; multi_gpu := false;
     continue_training := false; continue_ckpt := "" |}.

(** A validation stream of three batches whose [img.l1] is 1, 2 and 3. *)
Definition val_example : list LossDict :=
  [ set_term (full_breakdown (Q2Qc 5)) "img" "l1" (Q2Qc 1);
    set_term (full_breakdown (Q2Qc 5)) "img" "l1" (Q2Qc 2);
    set_term (full_breakdown (Q2Qc 5)) "img" "l1" (Q2Qc 3) ].

(** A world where the model has been built and is in training mode and
    the log files are open. *)
Definition toy_training_world : @World toy :=
  {| net := (0 : @Net toy); optim := (0 : @Optim toy); training := true;
     logfile_train := {| on_disk := []; buffer := []; is_open := true |};
     logfile_val := {| on_disk := []; buffer := []; is_open := true |};
     stdout := []; samples := []; ckpt_files := ∅; tracker := [];
     batches_done := None |}.

(** Options of a run of two epochs that saves a checkpoint at every epoch
    and publishes it to the tracker. *)
Definition publish_opts : Opts :=
  {| exp_path := "."; name_exp := "exp_main_model";
     init_epoch := 0; n_epochs := 2;
     freq_log := 1; freq_sample := 0; freq_val := 0; freq_ckpt := 1;
     threshold_ckpt := 0;
     loss_w_l1 := Q2Qc 1; loss_w_pt_c := Q2Qc 0.5; kl_beta := Q2Qc 0.1;
     loss_w_cmd := Q2Qc 1; loss_w_args := Q2Qc 1; loss_w_smt := Q2Qc 1;
     loss_w_aux := Q2Qc 1;
     wandb := true; wandb_project_name := "dvf"; multi_gpu := false;
     continue_training := false; continue_ckpt := "" |}.

(** Three training batches. *)
Definition train_example : list LossDict :=
  [full_breakdown (Q2Qc 1); full_breakdown (Q2Qc 2); full_breakdown (Q2Qc 3)].

(** A run continued at epoch 2 from a checkpoint that records epoch 7 and
    step 100. *)
Definition resume_opts : Opts :=
  {| exp_path := "."; name_exp := "exp_main_model";
     init_epoch := 2; n_epochs := 3;
     freq_log := 1; freq_sample := 0; freq_val := 0; freq_ckpt := 1;
     threshold_ckpt := 0;
     loss_w_l1 := Q2Qc 1; loss_w_pt_c := Q2Qc 0.5; kl_beta := Q2Qc 0.1;
     loss_w_cmd := Q2Qc 1; loss_w_args := Q2Qc 1; loss_w_smt := Q2Qc 1;
     loss_w_aux := Q2Qc 1;
     wandb := false; wandb_project_name := "dvf"; multi_gpu := false;
     continue_training := true; continue_ckpt := "7_100.ckpt" |}.

Definition resume_checkpoint : Checkpoint (@Net toy) (@Optim toy) :=
  {| ck_model := 40; ck_module_keys := false; ck_opt := 41;
     ck_n_epoch := 7; ck_n_iter := 100 |}.

Definition resume_world : @World toy :=
  {| net := (0 : @Net toy); optim := (0 : @Optim toy); training := false;
     logfile_train := {| on_disk := []; buffer := []; is_open := false |};
     logfile_val := {| on_disk := []; buffer := []; is_open := false |};
     stdout := []; samples := [];
     ckpt_files := {[ "7_100.ckpt" := resume_checkpoint ]};
     tracker := []; batches_done := None |}.

(** Options of the examples, with the epochs, the frequencies, the
    threshold and the flags given. *)
Definition run_opts (init n log sample val ckpt threshold : Z)
    (tracker continue : bool) (ckpt_file : string) : Opts :=
  {| exp_path := "."; name_exp := "exp_main_model";
     init_epoch := init; n_epochs := n;
     freq_log := log; freq_sample := sample; freq_val := val;
     freq_ckpt := ckpt; threshold_ckpt := threshold;
     loss_w_l1 := Q2Qc 1; loss_w_pt_c := Q2Qc 0.5; kl_beta := Q2Qc 0.1;
     loss_w_cmd := Q2Qc 1; loss_w_args := Q2Qc 1; loss_w_smt := Q2Qc 1;
     loss_w_aux := Q2Qc 1;
     wandb := tracker; wandb_project_name := "dvf"; multi_gpu := false;
     continue_training := continue; continue_ckpt := ckpt_file |}.

(** The parameters and the optimizer state of the examples. *)
Definition toy_state (n o : Z) : @Net toy * @Optim toy := (n, o).

(** Collaborators where the state of the optimizer counts the steps of
    the scheduler and the parameters count the steps of the optimizer. *)
Definition counting : Collaborators :=
  {| Batch := LossDict; Net := Z; Optim := Z; Ret := unit;
     new_model := fun _ => 0;
     new_optimizer := fun _ => 0;
     forward := fun _ _ _ data => (tt, data);
     optimize := fun _ n o _ _ => (n + 1, o);
     optim_lr := fun _ => Q2Qc 1;
     scheduler_step := fun o => o + 1;
     log_artifact_ok := fun _ => true |}.

Definition counting_world : @World counting :=
  {| net := (0 : @Net counting); optim := (0 : @Optim counting);
     training := false;
     logfile_train := {| on_disk := []; buffer := []; is_open := false |};
     logfile_val := {| on_disk := []; buffer := []; is_open := false |};
     stdout := []; samples := []; ckpt_files := ∅; tracker := [];
     batches_done := None |}.

(** A font library in which no glyph can be selected in the font read. *)
Definition glyphless_fontforge : FontForge :=
  {| FF := unit;
     open_for_writing := fun _ => Ok tt;
     cur_select := fun _ _ => Raise FontForgeError;
     cur_copy := fun x => Ok x;
     new_font := fun x => Ok x;
     new_select := fun _ x => Ok x;
     new_paste := fun x => Ok x;
     new_set_fontname := fun _ x => Ok x;
     new_save := fun _ x => Ok x;
     new_width := fun _ _ => Ok 600;
     new_vwidth := fun _ _ => Ok 1000 |}.

Definition glyphless_conv_world : @ConvWorld glyphless_fontforge :=
  {| ff := (tt : @FF glyphless_fontforge); files := ∅; found_errors := [];
     char := [] |}.

(** A font library where every call goes through, with a file system
    where no file can be opened for writing: the directory is missing. *)
Definition readonly_fontforge : FontForge :=
  {| FF := unit;
     open_for_writing := fun path => Raise (FileNotFoundError path);
     cur_select := fun _ x => Ok x;
     cur_copy := fun x => Ok x;
     new_font := fun x => Ok x;
     new_select := fun _ x => Ok x;
     new_paste := fun x => Ok x;
     new_set_fontname := fun _ x => Ok x;
     new_save := fun _ x => Ok x;
     new_width := fun _ _ => Ok 600;
     new_vwidth := fun _ _ => Ok 1000 |}.

Definition readonly_conv_world : @ConvWorld readonly_fontforge :=
  {| ff := (tt : @FF readonly_fontforge); files := ∅; found_errors := [];
     char := [] |}.

(** Fonts that all open and close, and five font files. *)
Definition toy_fontfiles : @FontFiles toy_fontforge :=
  {| fontforge_open := fun _ x => Ok x; cur_close := fun x => Ok x |}.

Definition toy_ttf_fnames : list string :=
  ["a.ttf"; "b.ttf"; "c.ttf"; "d.ttf"; "e.ttf"].

Definition toy_proc_world : @ProcWorld toy_fontforge :=
  {| conv := toy_conv_world; made_dirs := []; cannot_open := [] |}.

(** A machine with the Thai charset of two characters, one directory of
    five fonts and [cpus] processors. *)
Definition toy_machine (cpus : Z) : Machine :=
  {| read_text := fun path =>
       if String.eqb path "data/char_set/tha.txt" then Some [3585; 3586]
       else None;
     walk_files := fun _ => [toy_ttf_fnames];
     cpu_count := cpus |}.

(** ** Vocabulary of the statements *)

(** The value of a lookup, 0 when it raises. *)
Definition term_or_zero (r : Result Qc) : Qc :=
  match r with
  | Ok x => x
  | Raise _ => 0%Qc
  end.

Definition is_ok {A : Type} (r : Result A) : bool :=
  match r with
  | Ok _ => true
  | Raise _ => false
  end.

(** The terms summed by a validation event: those of the categories
    ['img'] and ['svg'] of the literal. *)
Definition accumulated : list (string * string) :=
  [ ("img", "l1"); ("img", "vggpt");
    ("svg", "total"); ("svg", "cmd"); ("svg", "args"); ("svg", "aux") ].

(** The breakdown has every accumulated term. *)
Definition has_terms (d : LossDict) : bool :=
  forallb (fun ck => is_ok (get_term d (fst ck) (snd ck))) accumulated.

(** The sums hold every accumulated term. *)
Definition entries_ok (loss_val : LossVal) : Prop :=
  forall c k, In (c, k) accumulated -> exists x, get_val loss_val c k = Ok x.

(** The sum of a term over the breakdowns of the validation batches. *)
Definition term_sum (ds : list LossDict) (cat key : string) : Qc :=
  fold_right (fun d s => (term_or_zero (get_term d cat key) + s)%Qc) 0%Qc ds.

(** The breakdowns the model returns on the validation batches, called
    in evaluation mode with [mode='val']. *)
Definition val_breakdowns `{C : Collaborators} (net : Net)
    (val_loader : list Batch) : list LossDict :=
  map (fun b => snd (forward net false ModeVal b)) val_loader.

(** A property of the state that a computation keeps, whether it returns
    or raises. *)
Definition preserves {S A : Type} (P : S -> Prop) (m : Comp S A) : Prop :=
  forall w, P w -> P (snd (m w)).

(** Both log files are open. *)
Definition logs_open `{C : Collaborators} (w : World) : Prop :=
  is_open (logfile_train w) = true /\ is_open (logfile_val w) = true.

(** Both log files are closed with nothing left to flush. *)
Definition logs_released `{C : Collaborators} (w : World) : Prop :=
  is_open (logfile_train w) = false /\ buffer (logfile_train w) = []
  /\ is_open (logfile_val w) = false /\ buffer (logfile_val w) = [].

(** The model is in evaluation mode. *)
Definition eval_mode `{C : Collaborators} (w : World) : Prop :=
  training w = false.

(** The breakdown has every term that the aggregation and the message of
    a training step read. *)
Definition train_terms_ok (opts : Opts) (d : LossDict) : bool :=
  is_ok (aggregate opts d)
  && is_ok (train_message opts 0 0 0 0%Qc d 0%Qc 0).

(** The epoch and the step of each record of the training log. *)
Definition log_trace (records : list TrainMsg) : list (Z * Z) :=
  map (fun m => (tm_epoch m, tm_step m)) records.

(** The epoch and the step of the batches of one epoch over [n] batches,
    and of the epochs of a run. *)
Definition epoch_trace (n : nat) (epoch : Z) : list (Z * Z) :=
  map (fun i => (epoch, epoch * Z.of_nat n + Z.of_nat i + 1)) (seq 0 n).

Definition run_trace (n : nat) (epochs : list Z) : list (Z * Z) :=
  flat_map (epoch_trace n) epochs.

(** The pairs of a trace that the log cadence selects, and the files of
    the samples that the sample cadence saves along a trace. *)
Definition logged (opts : Opts) (trace : list (Z * Z)) : list (Z * Z) :=
  List.filter (fun es => snd es mod freq_log opts =? 0) trace.

Definition sampled (opts : Opts) (trace : list (Z * Z)) : list string :=
  map (fun es => sample_path opts (fst es) (snd es))
      (List.filter (fun es => (0 <? freq_sample opts)
                              && (snd es mod freq_sample opts =? 0)) trace).

(** The parameters and the optimizer state after the optimizer steps of
    the batches of one epoch and the step of the scheduler, and after a
    list of epochs. *)
Definition train_batches `{C : Collaborators} (opts : Opts) (tr : bool)
    (l : list Batch) (no : Net * Optim) : Net * Optim :=
  fold_left (fun no b => optimize opts (fst no) (snd no) tr b) l no.

Definition train_epoch `{C : Collaborators} (opts : Opts) (tr : bool)
    (l : list Batch) (no : Net * Optim) : Net * Optim :=
  (fst (train_batches opts tr l no),
   scheduler_step (snd (train_batches opts tr l no))).

Definition train_epochs `{C : Collaborators} (opts : Opts) (tr : bool)
    (l : list Batch) (epochs : list Z) (no : Net * Optim) : Net * Optim :=
  fold_left (fun no (_ : Z) => train_epoch opts tr l no) epochs no.

(** What a stretch of a run without validation and without tracker does
    to the world: the training log is open, nothing new is flushed, the
    records selected along [trace] are appended to it, the sample files
    selected along [trace] are saved, the model and the optimizer are in
    the state [no], the training mode is as before and the step counter
    is [bd]. *)
Definition advanced `{C : Collaborators} (opts : Opts) (w w' : World)
    (trace : list (Z * Z)) (no : Net * Optim) (bd : option Z) : Prop :=
  is_open (logfile_train w') = true
  /\ on_disk (logfile_train w') = on_disk (logfile_train w)
  /\ log_trace (buffer (logfile_train w'))
     = (log_trace (buffer (logfile_train w)) ++ logged opts trace)%list
  /\ map fst (samples w')
     = (map fst (samples w) ++ sampled opts trace)%list
  /\ (net w', optim w') = no
  /\ training w' = training w
  /\ batches_done w' = bd.

(** The records written to a file, flushed or not yet. *)
Definition written {A : Type} (f : File A) : list A := on_disk f ++ buffer f.

(** What a stretch of a run does to the training log, whatever the
    configuration and however the stretch ends: the handle and what is on
    disk are as before, and the records of the epochs and steps [p] are
    appended. *)
Definition log_grows `{C : Collaborators} (w w' : World) (p : list (Z * Z))
  : Prop :=
  is_open (logfile_train w') = is_open (logfile_train w)
  /\ on_disk (logfile_train w') = on_disk (logfile_train w)
  /\ log_trace (buffer (logfile_train w'))
     = (log_trace (buffer (logfile_train w)) ++ p)%list.

(** The training log is [f] and the step counter is [b]. *)
Definition log_and_counter `{C : Collaborators} (f : File TrainMsg)
    (b : option Z) (w : World) : Prop :=
  logfile_train w = f /\ batches_done w = b.

(** The step recorded in the checkpoint at a path, if there is one. *)
Definition ckpt_n_iter_at `{C : Collaborators} (w : World) (path : string)
  : option Z :=
  match ckpt_files w !! path with
  | Some ck => Some (ck_n_iter ck)
  | None => None
  end.

(** The number written by a string of lower-case hexadecimal digits. *)
Definition hex_value (d : Z) : Z := if d <? 58 then d - 48 else d - 87.

Definition hex_number (s : PyStr) : Z :=
  fold_left (fun acc d => 16 * acc + hex_value d) s 0.

(** The characters that [unicode_escape] writes as they are or as a
    backslash and one letter: the printable ASCII characters, the tab, the
    line feed and the carriage return. *)
Definition plain (c : Z) : bool :=
  ((32 <=? c) && (c <? 127)) || (c =? 9) || (c =? 10) || (c =? 13).

(** The name under which the glyph of a character of the charset is
    selected in the font read (lines 53-56). *)
Definition glyph_name (charset_th : PyStr) (c : Z) : PyStr :=
  if existsb (Z.eqb c) charset_th
  then ([117; 110; 105] ++ unicode_escape_tail c)%list
  else [c].

(** The indices of the fonts below [font_num] in the range of a
    process. *)
Definition process_indices (font_num process_id n : Z) : list Z :=
  List.filter (fun i => i <? font_num)
              (py_range (process_id * n) ((process_id + 1) * n)).

(** The text of a description file written to its end: the five writes
    of lines 71-75, in order. *)
Definition description_text (charset_lenw : nat) (font_id : string)
    (char_id width vwidth : Z) : string :=
  ((((pretty 65 +:+ nl) +:+ (pretty width +:+ nl)) +:+ (pretty vwidth +:+ nl))
   +:+ (pad0 charset_lenw char_id +:+ nl)) +:+ font_id.

(** The character occurs in the string. *)
Fixpoint has_char (c : ascii) (s : string) : bool :=
  match s with
  | EmptyString => false
  | String c' s' => Ascii.eqb c c' || has_char c s'
  end.

(** * Properties *)

(** ** Results and computations *)

Lemma bind_ok {S A B : Type} (m : Comp S A) (k : A -> Comp S B) w a w' :
  m w = (Ok a, w') -> bind m k w = k a w'.
Proof. intros H. unfold bind. now rewrite H. Qed.

Lemma bind_raise {S A B : Type} (m : Comp S A) (k : A -> Comp S B) w e w' :
  m w = (Raise e, w') -> bind m k w = (Raise e, w').
Proof. intros H. unfold bind. now rewrite H. Qed.

Lemma bind_modify {S B : Type} (f : S -> S) (k : unit -> Comp S B) w :
  bind (modify f) k w = k tt (f w).
Proof. reflexivity. Qed.

Lemma bind_get {S B : Type} (k : S -> Comp S B) w : bind get k w = k w w.
Proof. reflexivity. Qed.

Lemma bind_lift_ok {S A B : Type} (a : A) (k : A -> Comp S B) w :
  bind (lift (Ok a)) k w = k a w.
Proof. reflexivity. Qed.

Lemma if_modify {S : Type} (b : bool) (f : S -> S) w :
  (if b then modify f else ret tt) w = (Ok tt, if b then f w else w).
Proof. destruct b; reflexivity. Qed.

(** ** Loss dictionaries *)

Lemma get_term_set_term_ne (d : LossDict) cat key v cat' key' :
  cat <> cat' \/ key <> key' ->
  get_term (set_term d cat key v) cat' key' = get_term d cat' key'.
Proof.
  intros Hne. unfold get_term, set_term.
  destruct (d !! cat) as [[x|m]|] eqn:Hcat; try reflexivity.
  destruct (decide (cat = cat')) as [->|Hc].
  - rewrite lookup_insert_eq, Hcat.
    destruct Hne as [Hne|Hne]; [congruence|].
    now rewrite lookup_insert_ne.
  - now rewrite lookup_insert_ne.
Qed.

Lemma get_scalar_set_term (d : LossDict) cat key v c :
  get_scalar (set_term d cat key v) c = get_scalar d c.
Proof.
  unfold get_scalar, set_term.
  destruct (d !! cat) as [[x|m]|] eqn:Hcat; try reflexivity.
  destruct (decide (cat = c)) as [->|Hc].
  - now rewrite lookup_insert_eq, Hcat.
  - now rewrite lookup_insert_ne.
Qed.

(** ** Loss aggregation *)

(** C1. The optimization target is
    [w_l1 * img.l1 + w_pt * img.vggpt + w_kl * kl + svg.total + svg_para.total];
    rebinding a sub-term [cmd], [args], [smt] or [aux] of [svg] or
    [svg_para] leaves it unchanged; on the example breakdown with the
    example weights it is 7.05. *)
Theorem aggregate_total (opts : Opts) (d : LossDict) (l1 vggpt kl st spt : Qc) :
  get_term d "img" "l1" = Ok l1 ->
  get_term d "img" "vggpt" = Ok vggpt ->
  get_scalar d "kl" = Ok kl ->
  get_term d "svg" "total" = Ok st ->
  get_term d "svg_para" "total" = Ok spt ->
  aggregate opts d
    = Ok (loss_w_l1 opts * l1 + loss_w_pt_c opts * vggpt + kl_beta opts * kl
          + st + spt)%Qc
  /\ (forall cat key v,
        In cat ["svg"; "svg_para"] -> In key ["cmd"; "args"; "smt"; "aux"] ->
        aggregate opts (set_term d cat key v) = aggregate opts d)
  /\ aggregate example_opts example_breakdown = Ok (Q2Qc 7.05).
Proof.
  intros H1 H2 H3 H4 H5. split; [|split].
  - unfold aggregate. rewrite H1, H2, H3, H4, H5. reflexivity.
  - intros cat key v Hcat Hkey. unfold aggregate.
    rewrite !get_scalar_set_term.
    rewrite !get_term_set_term_ne; [reflexivity| | | |];
      simpl in Hcat, Hkey; intuition (subst; first [left; congruence | right; congruence]).
  - unfold aggregate.
    replace (get_term example_breakdown "img" "l1") with (Ok (Q2Qc 2))
      by (vm_compute; reflexivity).
    replace (get_term example_breakdown "img" "vggpt") with (Ok (Q2Qc 1))
      by (vm_compute; reflexivity).
    replace (get_scalar example_breakdown "kl") with (Ok (Q2Qc 0.5))
      by (vm_compute; reflexivity).
    replace (get_term example_breakdown "svg" "total") with (Ok (Q2Qc 3))
      by (vm_compute; reflexivity).
    replace (get_term example_breakdown "svg_para" "total") with (Ok (Q2Qc 1.5))
      by (vm_compute; reflexivity).
    cbn [bindR]. f_equal. apply Qc_is_canon. vm_compute. reflexivity.
Qed.

Lemma aggregate_total_witness :
  aggregate example_opts (full_breakdown (Q2Qc 2))
  = Ok (loss_w_l1 example_opts * Q2Qc 2 + loss_w_pt_c example_opts * Q2Qc 2
        + kl_beta example_opts * Q2Qc 2 + Q2Qc 2 + Q2Qc 2)%Qc.
Proof.
  apply (aggregate_total example_opts (full_breakdown (Q2Qc 2))
           (Q2Qc 2) (Q2Qc 2) (Q2Qc 2) (Q2Qc 2) (Q2Qc 2));
    vm_compute; reflexivity.
Defined.

(** ** Step cadences *)

Lemma py_mod_nonzero a b : b <> 0 -> py_mod a b = Ok (a mod b).
Proof. intros H. unfold py_mod. destruct (Z.eqb_spec b 0); [lia|reflexivity]. Qed.

Lemma sample_due_spec opts step :
  sample_due opts step
  = Ok ((0 <? freq_sample opts) && (step mod freq_sample opts =? 0)).
Proof.
  unfold sample_due. destruct (Z.ltb_spec 0 (freq_sample opts)); [|reflexivity].
  rewrite py_mod_nonzero by lia. reflexivity.
Qed.

Lemma val_due_spec opts step :
  val_due opts step
  = Ok ((0 <? freq_val opts) && (step mod freq_val opts =? 0)).
Proof.
  unfold val_due. destruct (Z.ltb_spec 0 (freq_val opts)); [|reflexivity].
  rewrite py_mod_nonzero by lia. reflexivity.
Qed.

Lemma log_due_nonzero opts step :
  freq_log opts <> 0 ->
  log_due opts step = Ok (step mod freq_log opts =? 0).
Proof. intros H. unfold log_due. now rewrite py_mod_nonzero. Qed.

(** The sample and validate cadences are due exactly when the frequency is
    positive and divides the step. *)
Lemma sample_due_iff opts step :
  sample_due opts step = Ok true
  <-> 0 < freq_sample opts /\ step mod freq_sample opts = 0.
Proof.
  rewrite sample_due_spec. split.
  - intros H. injection H as H. apply andb_true_iff in H as [H1 H2]. lia.
  - intros [H1 H2]. f_equal. apply andb_true_iff. lia.
Qed.

Lemma val_due_iff opts step :
  val_due opts step = Ok true
  <-> 0 < freq_val opts /\ step mod freq_val opts = 0.
Proof.
  rewrite val_due_spec. split.
  - intros H. injection H as H. apply andb_true_iff in H as [H1 H2]. lia.
  - intros [H1 H2]. f_equal. apply andb_true_iff. lia.
Qed.

(** C2. With a frequency of 0 the sample and validate cadences are never
    due, while the test of the log cadence raises [ZeroDivisionError] at
    every step; with a negative frequency dividing the step the log
    cadence is due. *)
Theorem log_due_unguarded (step log sample val : Z) :
  sample_due (cadence_opts log 0 val) step = Ok false
  /\ val_due (cadence_opts log sample 0) step = Ok false
  /\ log_due (cadence_opts 0 sample val) step = Raise ZeroDivisionError
  /\ log_due (cadence_opts (-1) sample val) step = Ok true.
Proof.
  repeat split; try reflexivity.
  unfold log_due, py_mod; cbn.
  replace (step mod -1) with 0; [reflexivity|].
  symmetry. apply Z.mod_divide; [lia|]. exists (- step). lia.
Qed.

(** ** Validation sums *)

Lemma get_val_set_val_eq (lv : LossVal) c k v :
  is_Some (lv !! c) -> get_val (set_val lv c k v) c k = Ok v.
Proof.
  intros [m Hm]. unfold get_val, set_val. rewrite Hm.
  now rewrite !lookup_insert_eq.
Qed.

Lemma get_val_set_val_ne (lv : LossVal) c k v c' k' :
  (c, k) <> (c', k') ->
  get_val (set_val lv c k v) c' k' = get_val lv c' k'.
Proof.
  intros Hne. unfold get_val, set_val.
  destruct (lv !! c) as [m|] eqn:Hm; [|reflexivity].
  destruct (decide (c = c')) as [->|Hc].
  - rewrite lookup_insert_eq, Hm.
    destruct (decide (k = k')) as [->|Hk]; [congruence|].
    now rewrite lookup_insert_ne.
  - now rewrite lookup_insert_ne.
Qed.

Lemma set_val_is_Some (lv : LossVal) c k v c' :
  is_Some (lv !! c') -> is_Some (set_val lv c k v !! c').
Proof.
  intros H. unfold set_val. destruct (lv !! c) as [m|] eqn:Hm; [|exact H].
  destruct (decide (c = c')) as [->|Hc].
  - rewrite lookup_insert_eq. eauto.
  - now rewrite lookup_insert_ne.
Qed.

Lemma get_val_is_Some (lv : LossVal) c k x :
  get_val lv c k = Ok x -> is_Some (lv !! c).
Proof.
  unfold get_val. destruct (lv !! c); [eauto|discriminate].
Qed.

Lemma is_ok_Ok {A : Type} (r : Result A) :
  is_ok r = true -> exists x, r = Ok x.
Proof. destruct r; [eauto|discriminate]. Qed.

Lemma term_keys_img : term_keys "img" = ["l1"; "vggpt"].
Proof. reflexivity. Qed.

Lemma term_keys_svg : term_keys "svg" = ["total"; "cmd"; "args"; "aux"].
Proof. reflexivity. Qed.

(** Rewrites the lookups of the sums after a chain of updates. *)
Ltac get_val_simpl :=
  repeat first
    [ rewrite get_val_set_val_ne by (let H := fresh in intro H; inversion H)
    | rewrite get_val_set_val_eq by (repeat apply set_val_is_Some; assumption) ].

(** The six accumulated entries of a table of sums, one by one. *)
Ltac entries lv H :=
  let a := fresh "a" in
  destruct (H "img" "l1" ltac:(simpl; tauto)) as [a ?];
  let a := fresh "a" in
  destruct (H "img" "vggpt" ltac:(simpl; tauto)) as [a ?];
  let a := fresh "a" in
  destruct (H "svg" "total" ltac:(simpl; tauto)) as [a ?];
  let a := fresh "a" in
  destruct (H "svg" "cmd" ltac:(simpl; tauto)) as [a ?];
  let a := fresh "a" in
  destruct (H "svg" "args" ltac:(simpl; tauto)) as [a ?];
  let a := fresh "a" in
  destruct (H "svg" "aux" ltac:(simpl; tauto)) as [a ?].

Lemma has_terms_entries (d : LossDict) :
  has_terms d = true ->
  forall c k, In (c, k) accumulated -> exists x, get_term d c k = Ok x.
Proof.
  intros H c k Hin. unfold has_terms in H.
  rewrite forallb_forall in H. apply is_ok_Ok.
  apply (H (c, k)). exact Hin.
Qed.

(** One validation batch adds its terms to the sums. *)
Lemma accumulate_ok (lv : LossVal) (d : LossDict) :
  entries_ok lv -> has_terms d = true ->
  exists lv',
    accumulate lv d = Ok lv'
    /\ forall c k, In (c, k) accumulated ->
         get_val lv' c k
         = Ok (term_or_zero (get_val lv c k) + term_or_zero (get_term d c k))%Qc.
Proof.
  intros Hlv Hd.
  pose proof (has_terms_entries d Hd) as Hd'.
  entries lv Hlv. entries d Hd'.
  assert (Himg : is_Some (lv !! "img")) by eauto using get_val_is_Some.
  assert (Hsvg : is_Some (lv !! "svg")) by eauto using get_val_is_Some.
  eexists. split.
  - unfold accumulate. cbn [foldR]. rewrite term_keys_img, term_keys_svg.
    cbn [foldR]. unfold add_term.
    repeat match goal with
           | H : get_term d _ _ = Ok _ |- _ => rewrite H; clear H
           end.
    repeat (get_val_simpl;
            match goal with
            | H : get_val lv _ _ = Ok _ |- context [get_val lv _ _] => rewrite H
            end;
            cbn [bindR]).
    reflexivity.
  - intros c k Hin. simpl in Hin.
    repeat (destruct Hin as [Hin|Hin]; [inversion Hin; subst; clear Hin|]);
      [..|contradiction];
      get_val_simpl;
      repeat match goal with
             | H : get_val lv _ _ = Ok _ |- _ => rewrite H; clear H
             | H : get_term d _ _ = Ok _ |- _ => rewrite H; clear H
             end; reflexivity.
Qed.

Lemma py_div_nonzero x n :
  n <> 0 -> py_div x n = Ok (x / Q2Qc (inject_Z n))%Qc.
Proof. intros H. unfold py_div. destruct (Z.eqb_spec n 0); [lia|reflexivity]. Qed.

(** The division of lines 135-137 divides every sum by the count. *)
Lemma average_ok (lv : LossVal) (n : Z) :
  entries_ok lv -> n <> 0 ->
  exists lv',
    average lv n = Ok lv'
    /\ forall c k, In (c, k) accumulated ->
         get_val lv' c k
         = Ok (term_or_zero (get_val lv c k) / Q2Qc (inject_Z n))%Qc.
Proof.
  intros Hlv Hn. entries lv Hlv.
  assert (Himg : is_Some (lv !! "img")) by eauto using get_val_is_Some.
  assert (Hsvg : is_Some (lv !! "svg")) by eauto using get_val_is_Some.
  eexists. split.
  - unfold average. cbn [foldR]. rewrite term_keys_img, term_keys_svg.
    cbn [foldR]. unfold div_term.
    repeat (get_val_simpl;
            match goal with
            | H : get_val lv _ _ = Ok _ |- context [get_val lv _ _] => rewrite H
            end;
            cbn [bindR];
            rewrite py_div_nonzero by exact Hn;
            cbn [bindR]).
    reflexivity.
  - intros c k Hin. simpl in Hin.
    repeat (destruct Hin as [Hin|Hin]; [inversion Hin; subst; clear Hin|]);
      [..|contradiction];
      get_val_simpl;
      repeat match goal with
             | H : get_val lv _ _ = Ok _ |- _ => rewrite H; clear H
             end; reflexivity.
Qed.

Lemma entries_ok_init : entries_ok loss_val_init.
Proof.
  intros c k Hin. simpl in Hin.
  repeat (destruct Hin as [Hin|Hin]; [inversion Hin; subst; clear Hin|]);
    [..|contradiction]; exists 0%Qc; vm_compute; reflexivity.
Qed.

Lemma get_val_init c k :
  In (c, k) accumulated -> get_val loss_val_init c k = Ok 0%Qc.
Proof.
  intros Hin. simpl in Hin.
  repeat (destruct Hin as [Hin|Hin]; [inversion Hin; subst; clear Hin|]);
    [..|contradiction]; vm_compute; reflexivity.
Qed.

Section ValidationProperties.
Context `{C : Collaborators}.

(** The loop of line 128 adds to every sum the terms of all batches. *)
Lemma sum_val_batches (net : Net) (val_loader : list Batch) :
  forall (lv : LossVal) (r : option Ret),
    entries_ok lv ->
    forallb has_terms (val_breakdowns net val_loader) = true ->
    exists lv' r',
      foldR (val_batch net false) val_loader (lv, r) = Ok (lv', r')
      /\ entries_ok lv'
      /\ forall c k, In (c, k) accumulated ->
           get_val lv' c k
           = Ok (term_or_zero (get_val lv c k)
                 + term_sum (val_breakdowns net val_loader) c k)%Qc.
Proof.
  induction val_loader as [|b bs IH]; intros lv r Hlv Hall.
  - exists lv, r. repeat split; [exact Hlv|].
    intros c k Hin. destruct (Hlv c k Hin) as [x Hx].
    rewrite Hx. cbn. now rewrite Qcplus_0_r.
  - cbn [val_breakdowns map forallb] in Hall.
    apply andb_true_iff in Hall as [Hb Hbs].
    destruct (accumulate_ok lv _ Hlv Hb) as (lv1 & Hacc & Hlv1).
    assert (Hok1 : entries_ok lv1) by (intros c k Hin; eauto).
    destruct (IH lv1 (Some (fst (forward net false ModeVal b))) Hok1 Hbs)
      as (lv' & r' & Hfold & Hok' & Hsum).
    exists lv', r'. repeat split; [|exact Hok'|].
    + cbn [foldR]. unfold val_batch at 1. cbn [fst snd].
      rewrite Hacc. cbn [bindR]. exact Hfold.
    + intros c k Hin. rewrite (Hsum c k Hin), (Hlv1 c k Hin).
      cbn [val_breakdowns map term_sum fold_right term_or_zero].
      now rewrite Qcplus_assoc.
Qed.

(** C3. On a validation stream that is not empty and whose breakdowns hold
    the accumulated terms, the validation returns, for every accumulated
    category and term, the sum over the batches divided by the number of
    batches; run again from the world it has left, it returns the same. *)
Theorem validation_average (val_loader : list Batch) (w : World) :
  val_loader <> [] ->
  forallb has_terms (val_breakdowns (net w) val_loader) = true ->
  exists lv r w',
    validation_losses val_loader w = (Ok (lv, r), w')
    /\ (forall c k, In (c, k) accumulated ->
          get_val lv c k
          = Ok (term_sum (val_breakdowns (net w) val_loader) c k
                / Q2Qc (inject_Z (len val_loader)))%Qc)
    /\ validation_losses val_loader w' = (Ok (lv, r), w').
Proof.
  intros Hne Hall.
  destruct (sum_val_batches (net w) val_loader loss_val_init None
              entries_ok_init Hall) as (lv1 & r1 & Hfold & Hok1 & Hsum).
  assert (Hlen : len val_loader <> 0).
  { unfold len. destruct val_loader; [congruence|cbn; lia]. }
  destruct (average_ok lv1 (len val_loader) Hok1 Hlen) as (lv & Havg & Hlv).
  assert (Hrun : forall w0 : World, net w0 = net w ->
            validation_losses val_loader w0
            = (Ok (lv, r1), set_training false w0)).
  { intros w0 Hnet. unfold validation_losses, bind, modify, get, lift, ret.
    cbn [net training set_training]. rewrite Hnet, Hfold. cbn [fst snd].
    rewrite Havg. reflexivity. }
  exists lv, r1, (set_training false w). split; [|split].
  - apply Hrun. reflexivity.
  - intros c k Hin. rewrite (Hlv c k Hin), (Hsum c k Hin).
    rewrite (get_val_init c k Hin). cbn [term_or_zero].
    now rewrite Qcplus_0_l.
  - rewrite (Hrun (set_training false w)); reflexivity.
Qed.

End ValidationProperties.

(** ** Properties kept by the computations of the driver *)

Section Preservation.
Context {S : Type} (P : S -> Prop).

Lemma preserves_ret {A : Type} (a : A) : preserves P (ret a).
Proof. intros w H. exact H. Qed.

Lemma preserves_raise {A : Type} (e : Exn) : preserves P (@raise S A e).
Proof. intros w H. exact H. Qed.

Lemma preserves_lift {A : Type} (r : Result A) : preserves P (lift r).
Proof. intros w H. exact H. Qed.

Lemma preserves_get : preserves P (@get S).
Proof. intros w H. exact H. Qed.

Lemma preserves_modify (f : S -> S) :
  (forall w, P w -> P (f w)) -> preserves P (modify f).
Proof. intros Hf w H. apply Hf, H. Qed.

Lemma preserves_bind {A B : Type} (m : Comp S A) (k : A -> Comp S B) :
  preserves P m -> (forall a, preserves P (k a)) -> preserves P (bind m k).
Proof.
  intros Hm Hk w H. unfold bind. specialize (Hm w H).
  destruct (m w) as [[a|e] w1]; cbn in *; [apply Hk, Hm|exact Hm].
Qed.

Lemma preserves_for_each {A : Type} (l : list A) (body : A -> Comp S unit) :
  (forall x, preserves P (body x)) -> preserves P (for_each l body).
Proof.
  intros Hb. induction l as [|x l IH]; cbn [for_each].
  - apply preserves_ret.
  - apply preserves_bind; [apply Hb|intros _; exact IH].
Qed.

End Preservation.

Create HintDb loop_inv.

(** Takes a computation of the driver apart down to its updates of the
    world, which are left as goals; a computation known to keep the
    property is not opened. *)
Ltac preserves_steps :=
  repeat first
    [ solve [auto with loop_inv]
    | match goal with
      | |- preserves _ (if ?b then _ else _) => destruct b
      | |- preserves _ (match ?o with Some _ => _ | None => _ end) =>
          destruct o
      end
    | apply preserves_ret
    | apply preserves_raise
    | apply preserves_lift
    | apply preserves_get
    | apply preserves_bind; [|intros ?]
    | apply preserves_for_each; intros ?
    | apply preserves_modify; intros ? ? ].

(** A property of the world that the updates made between the opening and
    the closing of the log files keep is kept by every batch and every
    epoch. *)
Section LoopInvariant.
Context `{C : Collaborators}.
Variable P : World -> Prop.
Hypothesis P_set_net_optim : forall no w, P w -> P (set_net_optim no w).
Hypothesis P_eval : forall w, P w -> P (set_training false w).
Hypothesis P_print : forall p w, P w -> P (print p w).
Hypothesis P_save_image : forall path img w, P w -> P (save_image path img w).
Hypothesis P_torch_save : forall ck path w, P w -> P (torch_save ck path w).
Hypothesis P_track : forall e w, P w -> P (track e w).
Hypothesis P_set_batches_done : forall bd w, P w -> P (set_batches_done bd w).
Hypothesis P_write_train : forall m, preserves P (write_train m).
Hypothesis P_write_val : forall m, preserves P (write_val m).

Local Hint Resolve P_set_net_optim P_eval P_print P_save_image P_torch_save
  P_track P_set_batches_done P_write_train P_write_val : loop_inv.

Ltac loop_inv := preserves_steps; auto with loop_inv.

Lemma wandb_log_train_preserves opts ret_dict loss_dict bd :
  preserves P (wandb_log_train opts ret_dict loss_dict bd).
Proof. unfold wandb_log_train. loop_inv. Qed.

Lemma validation_losses_preserves val_loader :
  preserves P (validation_losses val_loader).
Proof. unfold validation_losses. loop_inv. Qed.

Lemma wandb_log_val_preserves loss_val ret_dict_val :
  preserves P (wandb_log_val loss_val ret_dict_val).
Proof. unfold wandb_log_val. loop_inv. Qed.

Local Hint Resolve wandb_log_train_preserves validation_losses_preserves
  wandb_log_val_preserves : loop_inv.

Lemma validation_event_preserves opts val_loader epoch idx n :
  preserves P (validation_event opts val_loader epoch idx n).
Proof.
  unfold validation_event.
  apply preserves_bind; [auto with loop_inv|intros lv_ret].
  apply preserves_bind; [destruct (wandb opts); auto with loop_inv;
                         apply preserves_ret|intros _].
  loop_inv.
Qed.

Local Hint Resolve validation_event_preserves : loop_inv.

Lemma batch_step_preserves opts n val_loader epoch idx_data :
  preserves P (batch_step opts n val_loader epoch idx_data).
Proof.
  unfold batch_step. cbv zeta.
  apply preserves_bind; [apply preserves_get|intros w0].
  apply preserves_bind; [apply preserves_lift|intros loss].
  apply preserves_bind; [apply preserves_modify; auto with loop_inv|intros _].
  apply preserves_bind; [apply preserves_modify; auto with loop_inv|intros _].
  apply preserves_bind; [apply preserves_get|intros w1].
  apply preserves_bind; [apply preserves_lift|intros message].
  apply preserves_bind; [apply preserves_lift|intros log].
  apply preserves_bind.
  { destruct log; [|apply preserves_ret].
    apply preserves_bind; [auto with loop_inv|intros _].
    apply preserves_bind; [apply preserves_modify; auto with loop_inv|intros _].
    destruct (wandb opts); [auto with loop_inv|apply preserves_ret]. }
  intros _.
  apply preserves_bind; [apply preserves_lift|intros sample].
  apply preserves_bind.
  { destruct sample; [apply preserves_modify; auto with loop_inv
                     |apply preserves_ret]. }
  intros _.
  apply preserves_bind; [apply preserves_lift|intros validate].
  destruct validate; [auto with loop_inv|apply preserves_ret].
Qed.

Lemma save_checkpoint_preserves opts epoch :
  preserves P (save_checkpoint opts epoch).
Proof.
  unfold save_checkpoint, read_batches_done, publish_artifact. cbv zeta.
  loop_inv.
Qed.

Lemma epoch_body_preserves opts train_loader val_loader epoch :
  preserves P (epoch_body opts train_loader val_loader epoch).
Proof.
  unfold epoch_body.
  apply preserves_bind;
    [apply preserves_for_each; intros x; apply batch_step_preserves|intros _].
  apply preserves_bind; [apply preserves_modify; auto with loop_inv|intros _].
  apply preserves_bind; [apply preserves_lift|intros due].
  destruct due; [apply save_checkpoint_preserves|apply preserves_ret].
Qed.

Lemma epochs_preserve opts train_loader val_loader epochs :
  preserves P (for_each epochs (epoch_body opts train_loader val_loader)).
Proof. apply preserves_for_each. intros e. apply epoch_body_preserves. Qed.

End LoopInvariant.

(** ** Validation events *)

Lemma validation_average_witness :
  exists lv r w',
    @validation_losses toy val_example toy_world = (Ok (lv, r), w')
    /\ get_val lv "img" "l1" = Ok (Q2Qc 2).
Proof.
  destruct (@validation_average toy val_example toy_world)
    as (lv & r & w' & Hrun & Havg & _).
  - discriminate.
  - vm_compute. reflexivity.
  - exists lv, r, w'. split; [exact Hrun|].
    rewrite (Havg "img" "l1") by (simpl; tauto).
    f_equal. apply Qc_is_canon. vm_compute. reflexivity.
Defined.

Section EventProperties.
Context `{C : Collaborators}.

Lemma write_train_eval m : preserves eval_mode (write_train m).
Proof. unfold write_train. preserves_steps. Qed.

Lemma write_val_eval m : preserves eval_mode (write_val m).
Proof. unfold write_val. preserves_steps. Qed.

Lemma batch_step_eval opts n val_loader epoch idx_data :
  preserves eval_mode (batch_step opts n val_loader epoch idx_data).
Proof.
  apply batch_step_preserves;
    first [apply write_train_eval | apply write_val_eval
          | intros; first [reflexivity | assumption]].
Qed.

Lemma validation_losses_eval val_loader w :
  eval_mode (snd (validation_losses val_loader w)).
Proof.
  unfold validation_losses, bind, modify, get, lift, ret.
  cbn [net training set_training].
  destruct (foldR _ _ _) as [acc|e]; [|reflexivity].
  destruct (average _ _); reflexivity.
Qed.

Lemma validation_event_eval opts val_loader epoch idx n w :
  eval_mode (snd (validation_event opts val_loader epoch idx n w)).
Proof.
  unfold validation_event. unfold bind at 1.
  pose proof (validation_losses_eval val_loader w) as H.
  destruct (validation_losses val_loader w) as [[lv_ret|e] w1]; [|exact H].
  cbn [snd] in H.
  assert (Hk : preserves eval_mode
            ((if wandb opts then wandb_log_val (fst lv_ret) (snd lv_ret)
              else ret tt);;
             let! val_msg := lift (val_message opts epoch idx n (fst lv_ret)) in
             write_val val_msg;; modify (print (PrintVal val_msg)))).
  { apply preserves_bind.
    - destruct (wandb opts); [|apply preserves_ret].
      apply wandb_log_val_preserves. intros; assumption.
    - intros _. apply preserves_bind; [apply preserves_lift|intros val_msg].
      apply preserves_bind; [apply write_val_eval|intros _].
      apply preserves_modify. intros; assumption. }
  exact (Hk w1 H).
Qed.

(** C4. When a validation event ends, by returning or by raising, the model
    is in evaluation mode, and a batch processed after it leaves the model
    in evaluation mode: the driver never puts it back in training mode. *)
Theorem validation_leaves_eval opts val_loader epoch idx n w :
  training (snd (validation_event opts val_loader epoch idx n w)) = false
  /\ forall n' epoch' idx_data,
       training
         (snd (batch_step opts n' val_loader epoch' idx_data
                 (snd (validation_event opts val_loader epoch idx n w))))
       = false.
Proof.
  split.
  - apply validation_event_eval.
  - intros n' epoch' idx_data. apply batch_step_eval.
    apply validation_event_eval.
Qed.

(** C5. On an empty validation stream the validation raises
    [ZeroDivisionError], from the division of the first sum by the number
    of batches; the validation event raises it in turn, and so does
    whatever the driver would run after the event. *)
Theorem validation_empty_raises opts epoch idx n w :
  validation_losses [] w = (Raise ZeroDivisionError, set_training false w)
  /\ validation_event opts [] epoch idx n w
     = (Raise ZeroDivisionError, set_training false w)
  /\ forall (A : Type) (k : unit -> Run A),
       bind (validation_event opts [] epoch idx n) k w
       = (Raise ZeroDivisionError, set_training false w).
Proof.
  assert (H : validation_losses [] w
              = (Raise ZeroDivisionError, set_training false w)).
  { unfold validation_losses, bind, modify, get, lift, ret. cbn [foldR fst].
    replace (average loss_val_init (len [])) with
      (@Raise LossVal ZeroDivisionError) by (vm_compute; reflexivity).
    reflexivity. }
  assert (H' : validation_event opts [] epoch idx n w
               = (Raise ZeroDivisionError, set_training false w)).
  { unfold validation_event. unfold bind at 1. rewrite H. reflexivity. }
  split; [exact H|]. split; [exact H'|].
  intros A k. apply bind_raise. exact H'.
Qed.

End EventProperties.

Lemma validation_leaves_eval_counterexample :
  training toy_training_world = true
  /\ fst (@validation_event toy example_opts val_example 0 0 1
            toy_training_world) = Ok tt
  /\ training (snd (@validation_event toy example_opts val_example 0 0 1
                      toy_training_world)) <> true.
Proof. vm_compute. repeat split; discriminate. Qed.

Lemma validation_empty_counterexample :
  fst (@train_main_model toy (cadence_opts 1 0 1) [full_breakdown (Q2Qc 1)] []
         toy_world) = Raise ZeroDivisionError
  /\ ~ (exists e,
          fst (@train_main_model toy (cadence_opts 1 0 1)
                 [full_breakdown (Q2Qc 1)] [] toy_world) = Raise e
          /\ numeric_error e = false).
Proof.
  assert (H : fst (@train_main_model toy (cadence_opts 1 0 1)
                     [full_breakdown (Q2Qc 1)] [] toy_world)
              = Raise ZeroDivisionError) by (vm_compute; reflexivity).
  split; [exact H|].
  intros (e & He & Hnum). rewrite H in He. injection He as <-. discriminate.
Qed.

(** ** Exceptions in the loops *)

Lemma for_each_app {S A : Type} (l1 l2 : list A) (body : A -> Comp S unit) w :
  for_each (l1 ++ l2) body w
  = bind (for_each l1 body) (fun _ => for_each l2 body) w.
Proof.
  revert w. induction l1 as [|x l1 IH]; intros w; cbn [app for_each].
  - reflexivity.
  - unfold bind. destruct (body x w) as [[[]|e] w1]; [|reflexivity].
    rewrite IH. reflexivity.
Qed.

(** An exception raised by the body ends the loop: the elements left are
    not visited. *)
Lemma for_each_raise {S A : Type} (l1 l2 : list A) (x : A)
    (body : A -> Comp S unit) w w1 w2 e :
  for_each l1 body w = (Ok tt, w1) ->
  body x w1 = (Raise e, w2) ->
  for_each (l1 ++ x :: l2) body w = (Raise e, w2).
Proof.
  intros H1 H2. rewrite for_each_app. unfold bind. rewrite H1.
  cbn [for_each]. unfold bind. rewrite H2. reflexivity.
Qed.

(** ** Checkpoints and the log files *)

Section RunProperties.
Context `{C : Collaborators}.

(** C8. When the publication of a checkpoint to the tracker fails, the
    exception is not caught: the run ends with it, the epochs left are not
    processed; the checkpoint written just before is on disk. *)
Theorem publication_failure_aborts opts train_loader val_loader
    (w w0 w1 w2 : World) (es1 es2 : list Z) (epoch bd : Z) :
  py_range (init_epoch opts) (n_epochs opts) = (es1 ++ epoch :: es2)%list ->
  setup opts w = (Ok tt, w0) ->
  for_each es1 (epoch_body opts train_loader val_loader) w0 = (Ok tt, w1) ->
  for_each (enumerate train_loader)
           (batch_step opts (len train_loader) val_loader epoch) w1
    = (Ok tt, w2) ->
  ckpt_due opts epoch = Ok true ->
  batches_done w2 = Some bd ->
  wandb opts = true ->
  log_artifact_ok (ckpt_path opts epoch bd) = false ->
  exists w',
    train_main_model opts train_loader val_loader w = (Raise TrackerError, w')
    /\ ckpt_files w' !! ckpt_path opts epoch bd
       = Some {| ck_model := net w2; ck_module_keys := false;
                 ck_opt := scheduler_step (optim w2);
                 ck_n_epoch := epoch; ck_n_iter := bd |}.
Proof.
  intros Hrange Hsetup Hes1 Hbatches Hdue Hbd Hwandb Hfail.
  eexists. split.
  - unfold train_main_model. unfold bind at 1. rewrite Hsetup.
    unfold bind at 1. rewrite Hrange.
    erewrite for_each_raise; [reflexivity|exact Hes1|].
    unfold epoch_body. unfold bind at 1. rewrite Hbatches.
    unfold bind at 1. cbn [modify]. unfold bind at 1, lift at 1.
    rewrite Hdue. unfold save_checkpoint, read_batches_done.
    unfold bind at 1. unfold bind at 1. cbn [get].
    cbn [batches_done set_net_optim]. rewrite Hbd. cbn [ret].
    rewrite Hwandb. unfold publish_artifact. rewrite Hfail.
    destruct (multi_gpu opts); reflexivity.
  - cbn. apply lookup_insert_eq.
Qed.

Lemma write_train_open m : preserves logs_open (write_train m).
Proof.
  intros w [H1 H2]. unfold write_train, bind, get, lift, modify, file_write.
  rewrite H1. split; [reflexivity|exact H2].
Qed.

Lemma write_val_open m : preserves logs_open (write_val m).
Proof.
  intros w [H1 H2]. unfold write_val, bind, get, lift, modify, file_write.
  rewrite H2. split; [exact H1|reflexivity].
Qed.

Lemma epochs_open opts train_loader val_loader epochs :
  preserves logs_open
    (for_each epochs (epoch_body opts train_loader val_loader)).
Proof.
  apply epochs_preserve;
    first [apply write_train_open | apply write_val_open
          | intros; assumption].
Qed.

(** The log files are open when the setup ends, by returning or by
    raising. *)
Lemma setup_opens opts w : logs_open (snd (setup opts w)).
Proof.
  unfold setup, load_checkpoint, bind, modify, get, raise, ret. cbv zeta.
  destruct (continue_training opts); [|split; reflexivity].
  cbn [ckpt_files set_training set_net_optim set_logfile_val
       set_logfile_train enter_call track].
  destruct (_ !! _) as [ck|]; [|split; reflexivity].
  destruct (Bool.eqb _ _); split; reflexivity.
Qed.

(** C9. The two log files are opened when the run starts. When the run
    returns, both have been flushed and closed; when the run ends by an
    exception, both are still open: the driver does not close them on that
    path. *)
Theorem logs_closed_on_return_only opts train_loader val_loader (w : World) :
  match fst (train_main_model opts train_loader val_loader w) with
  | Ok _ => logs_released (snd (train_main_model opts train_loader val_loader w))
  | Raise _ => logs_open (snd (train_main_model opts train_loader val_loader w))
  end.
Proof.
  unfold train_main_model. unfold bind at 1 3 5.
  pose proof (setup_opens opts w) as Hsetup.
  destruct (setup opts w) as [[[]|e] w0]; [|exact Hsetup].
  cbn [snd] in Hsetup. unfold bind.
  pose proof (epochs_open opts train_loader val_loader
                (py_range (init_epoch opts) (n_epochs opts)) w0 Hsetup) as Hloop.
  destruct (for_each _ _ w0) as [[[]|e] w1]; [|exact Hloop].
  cbn. repeat split; reflexivity.
Qed.

End RunProperties.

Lemma publication_failure_aborts_witness :
  exists w',
    @train_main_model toy publish_opts [full_breakdown (Q2Qc 1)] [] toy_world
    = (Raise TrackerError, w')
    /\ is_Some (ckpt_files w' !! ckpt_path publish_opts 0 1).
Proof.
  destruct (@publication_failure_aborts toy publish_opts
              [full_breakdown (Q2Qc 1)] [] toy_world
              (snd (@setup toy publish_opts toy_world))
              (snd (@setup toy publish_opts toy_world))
              (snd (for_each (enumerate [full_breakdown (Q2Qc 1)])
                      (@batch_step toy publish_opts 1 [] 0)
                      (snd (@setup toy publish_opts toy_world))))
              [] [1] 0 1)
    as (w' & Hrun & Hck); try (vm_compute; reflexivity).
  exists w'. split; [exact Hrun|]. rewrite Hck. eexists. reflexivity.
Defined.

Lemma publication_failure_counterexample :
  fst (@train_main_model toy publish_opts [full_breakdown (Q2Qc 1)] []
         toy_world) = Raise TrackerError
  /\ length (buffer (logfile_train
        (snd (@train_main_model toy publish_opts [full_breakdown (Q2Qc 1)] []
                toy_world)))) = 1%nat.
Proof. vm_compute. split; reflexivity. Qed.

Lemma logs_closed_counterexample :
  fst (@train_main_model toy (cadence_opts 0 0 0) [full_breakdown (Q2Qc 1)] []
         toy_world) = Raise ZeroDivisionError
  /\ ~ (is_open (logfile_train
          (snd (@train_main_model toy (cadence_opts 0 0 0)
                  [full_breakdown (Q2Qc 1)] [] toy_world))) = false
        /\ is_open (logfile_val
          (snd (@train_main_model toy (cadence_opts 0 0 0)
                  [full_breakdown (Q2Qc 1)] [] toy_world))) = false).
Proof. vm_compute. split; [reflexivity|]. intros [H _]. discriminate. Qed.

(** ** The step counter *)

Lemma train_message_ok opts d epoch idx n loss lr bd :
  is_ok (train_message opts 0 0 0 0%Qc d 0%Qc 0) = true ->
  exists m,
    train_message opts epoch idx n loss d lr bd = Ok m
    /\ tm_epoch m = epoch /\ tm_step m = bd.
Proof.
  unfold train_message.
  repeat (match goal with
          | |- context [get_term d ?c ?k] => destruct (get_term d c k)
          end; cbn [bindR is_ok]; [|discriminate]).
  intros _. eexists. split; [reflexivity|split; reflexivity].
Qed.

Lemma train_message_fields opts epoch idx n loss d lr bd m :
  train_message opts epoch idx n loss d lr bd = Ok m ->
  tm_epoch m = epoch /\ tm_step m = bd.
Proof.
  unfold train_message.
  repeat (match goal with
          | |- context [get_term d ?c ?k] => destruct (get_term d c k)
          end; cbn [bindR]; [|discriminate]).
  intros [= <-]. split; reflexivity.
Qed.

Lemma bind_ret {S A B : Type} (a : A) (k : A -> Comp S B) w :
  bind (ret a) k w = k a w.
Proof. reflexivity. Qed.

Lemma bind_assoc {S A B D : Type} (m : Comp S A) (k : A -> Comp S B)
    (h : B -> Comp S D) w :
  bind (bind m k) h w = bind m (fun a => bind (k a) h) w.
Proof. unfold bind. destruct (m w) as [[a|e] w1]; reflexivity. Qed.

Lemma bind_lift_raise {S A B : Type} (e : Exn) (k : A -> Comp S B) w :
  bind (lift (Raise e)) k w = (Raise e, w).
Proof. reflexivity. Qed.

(** A computation followed by another returns and the other goes on, or
    raises and the other is not run. *)
Lemma bind_cases {S A B : Type} (m : Comp S A) (k : A -> Comp S B) w :
  (exists a w1, m w = (Ok a, w1) /\ bind m k w = k a w1)
  \/ (exists e w1, m w = (Raise e, w1) /\ bind m k w = (Raise e, w1)).
Proof.
  unfold bind. destruct (m w) as [[a|e] w1]; [left|right]; eauto.
Qed.

Lemma logged_app opts t1 t2 :
  logged opts (t1 ++ t2) = (logged opts t1 ++ logged opts t2)%list.
Proof. unfold logged. apply List.filter_app. Qed.

Lemma logged_cons opts x t :
  logged opts (x :: t) = (logged opts [x] ++ logged opts t)%list.
Proof. exact (logged_app opts [x] t). Qed.

Lemma logged_one opts e s :
  logged opts [(e, s)] = if s mod freq_log opts =? 0 then [(e, s)] else [].
Proof. reflexivity. Qed.

Lemma map_snd_logged opts trace :
  map snd (logged opts trace)
  = List.filter (fun s => s mod freq_log opts =? 0) (map snd trace).
Proof.
  unfold logged. induction trace as [|[e s] t IH]; [reflexivity|].
  cbn [List.filter map snd]. destruct (_ =? 0); cbn [map snd]; now rewrite IH.
Qed.

Lemma filter_every_step (l : list Z) :
  List.filter (fun s => s mod 1 =? 0) l = l.
Proof.
  induction l as [|s l IH]; cbn [List.filter]; [reflexivity|].
  rewrite Z.mod_1_r. cbn [Z.eqb]. now f_equal.
Qed.

(** The steps of a run are consecutive from one epoch to the next. *)
Lemma map_seq_shift {A : Type} (f : nat -> A) (s n : nat) :
  map f (seq s n) = map (fun i => f (s + i)%nat) (seq 0 n).
Proof.
  revert f s. induction n as [|n IH]; intros f s; [reflexivity|].
  cbn [seq map]. rewrite Nat.add_0_r. f_equal.
  rewrite (IH f (Datatypes.S s)), (IH (fun i => f (s + i)%nat) 1%nat).
  apply map_ext. intros i. f_equal. lia.
Qed.

Lemma run_trace_steps (n : nat) (a b : Z) :
  map snd (run_trace n (py_range a b))
  = map (fun k => a * Z.of_nat n + 1 + Z.of_nat k)
        (seq 0 (Z.to_nat (b - a) * n)).
Proof.
  unfold py_range. generalize (Z.to_nat (b - a)) as m.
  induction m as [|m IH]; [reflexivity|].
  rewrite seq_S, map_app. unfold run_trace in *.
  rewrite flat_map_app, map_app, IH. cbn [map flat_map Nat.add].
  rewrite app_nil_r. unfold epoch_trace. rewrite map_map. cbn [snd].
  replace (Datatypes.S m * n)%nat with (m * n + n)%nat by lia.
  rewrite seq_app, map_app. f_equal. cbn [Nat.add].
  rewrite (map_seq_shift _ (m * n) n). apply map_ext. intros i. lia.
Qed.

Section StepCounter.
Context `{C : Collaborators}.

Lemma write_train_ok m (w : World) :
  is_open (logfile_train w) = true ->
  write_train m w
  = (Ok tt, set_logfile_train
              {| on_disk := on_disk (logfile_train w);
                 buffer := buffer (logfile_train w) ++ [m];
                 is_open := true |} w).
Proof.
  intros H. unfold write_train, file_write. rewrite bind_get, H. reflexivity.
Qed.

Lemma write_train_closed m (w : World) :
  is_open (logfile_train w) = false ->
  write_train m w = (Raise ValueError, w).
Proof.
  intros H. unfold write_train, file_write. rewrite bind_get, H. reflexivity.
Qed.

Lemma log_grows_refl (w : World) : log_grows w w [].
Proof. unfold log_grows. rewrite app_nil_r. repeat split; reflexivity. Qed.

Lemma log_grows_trans (w w1 w2 : World) p q :
  log_grows w w1 p -> log_grows w1 w2 q -> log_grows w w2 (p ++ q).
Proof.
  intros (H1 & H2 & H3) (H4 & H5 & H6). unfold log_grows.
  rewrite H4, H5, H6, H3, app_assoc. repeat split; assumption.
Qed.

Lemma log_grows_frame (w w1 w2 : World) p :
  log_grows w w1 p -> logfile_train w2 = logfile_train w1 -> log_grows w w2 p.
Proof. unfold log_grows. intros H ->. exact H. Qed.

(** What is run after the training log is written leaves the log and the
    step counter as they are. *)
Lemma write_val_frame f b m : preserves (log_and_counter f b) (write_val m).
Proof.
  intros w H. unfold write_val. rewrite bind_get.
  destruct (file_write m (logfile_val w)) as [f'|e]; exact H.
Qed.

Lemma wandb_log_train_frame f b opts ret_dict loss_dict bd :
  preserves (log_and_counter f b) (wandb_log_train opts ret_dict loss_dict bd).
Proof. apply wandb_log_train_preserves. intros e w H. exact H. Qed.

Lemma validation_event_frame f b opts val_loader epoch idx n :
  preserves (log_and_counter f b)
            (validation_event opts val_loader epoch idx n).
Proof.
  apply validation_event_preserves;
    [intros w H; exact H|intros p w H; exact H|intros e w H; exact H
    |apply write_val_frame].
Qed.

Lemma save_checkpoint_frame f b opts epoch :
  preserves (log_and_counter f b) (save_checkpoint opts epoch).
Proof.
  apply save_checkpoint_preserves;
    [intros p w H; exact H|intros ck path w H; exact H|intros e w H; exact H].
Qed.

Ltac tail_frame :=
  repeat first
    [ apply wandb_log_train_frame
    | apply validation_event_frame
    | apply preserves_ret
    | apply preserves_lift
    | match goal with
      | |- preserves _ (if ?b then _ else _) => destruct b
      end
    | apply preserves_modify; intros ? ?; assumption
    | apply preserves_bind; [|intros ?] ].

(** One batch, whatever the configuration and however the batch ends: at
    most one record is written to the training log, that of the epoch and
    of the step [epoch * n + idx + 1]; it is written when the batch
    returns and the cadence selects the step; and the step counter is that
    step as soon as the loss has been aggregated. *)
Lemma batch_step_log opts n val_loader epoch idx data (w : World) :
  exists p,
    log_grows w (snd (batch_step opts n val_loader epoch (idx, data) w)) p
    /\ p `prefix_of` logged opts [(epoch, epoch * n + idx + 1)]
    /\ (fst (batch_step opts n val_loader epoch (idx, data) w) = Ok tt ->
        p = logged opts [(epoch, epoch * n + idx + 1)]
        /\ batches_done (snd (batch_step opts n val_loader epoch (idx, data) w))
           = Some (epoch * n + idx + 1))
    /\ (is_ok (aggregate opts
                 (snd (forward (net w) (training w) ModeTrain data))) = true ->
        batches_done (snd (batch_step opts n val_loader epoch (idx, data) w))
        = Some (epoch * n + idx + 1)).
Proof.
  unfold batch_step. cbv zeta. cbn [fst snd]. rewrite bind_get.
  destruct (aggregate opts _) as [loss|e].
  2:{ rewrite bind_lift_raise. exists []. cbn [fst snd is_ok].
      split; [apply log_grows_refl|]. split; [apply prefix_nil|].
      split; discriminate. }
  rewrite bind_lift_ok, !bind_modify, bind_get.
  set (bd := epoch * n + idx + 1).
  set (w1 := set_batches_done bd (set_net_optim _ w)).
  assert (Hw1 : log_grows w w1 []).
  { apply log_grows_frame with w; [apply log_grows_refl|reflexivity]. }
  destruct (train_message opts epoch idx n loss _ _ bd) as [m|e] eqn:Hm.
  2:{ rewrite bind_lift_raise. exists []. cbn [fst snd].
      split; [exact Hw1|]. split; [apply prefix_nil|].
      split; [discriminate|reflexivity]. }
  apply train_message_fields in Hm as [Hepoch Hstep].
  rewrite bind_lift_ok, logged_one. unfold log_due, py_mod.
  destruct (freq_log opts =? 0).
  { cbn [bindR]. rewrite bind_lift_raise. exists []. cbn [fst snd].
    split; [exact Hw1|]. split; [apply prefix_nil|].
    split; [discriminate|reflexivity]. }
  cbn [bindR]. rewrite bind_lift_ok.
  destruct (bd mod freq_log opts =? 0).
  - cbv iota. rewrite !bind_assoc.
    destruct (is_open (logfile_train w)) eqn:Hopen.
    + rewrite (bind_ok _ _ _ _ _ (write_train_ok m w1 Hopen)). cbv beta.
      set (w2 := set_logfile_train _ w1).
      match goal with
      | |- context [snd (?t w2)] =>
          assert (Hp : preserves (log_and_counter (logfile_train w2) (Some bd)) t)
            by tail_frame
      end.
      destruct (Hp w2 (conj eq_refl eq_refl)) as [Hf Hb].
      exists [(epoch, bd)]. split.
      * unfold log_grows. rewrite Hf. subst w2 w1.
        cbn [logfile_train set_logfile_train set_batches_done set_net_optim
             is_open on_disk buffer].
        rewrite Hopen. unfold log_trace. rewrite map_app. cbn [map].
        rewrite Hepoch, Hstep. repeat split; reflexivity.
      * split; [reflexivity|]. split; [intros _; split; [reflexivity|exact Hb]|].
        intros _. exact Hb.
    + rewrite (bind_raise _ _ _ _ _ (write_train_closed m w1 Hopen)).
      exists []. cbn [fst snd].
      split; [exact Hw1|]. split; [apply prefix_nil|].
      split; [discriminate|reflexivity].
  - cbv iota. rewrite bind_ret. cbv beta.
    match goal with
    | |- context [snd (?t w1)] =>
        assert (Hp : preserves (log_and_counter (logfile_train w1) (Some bd)) t)
          by tail_frame
    end.
    destruct (Hp w1 (conj eq_refl eq_refl)) as [Hf Hb].
    exists []. split; [exact (log_grows_frame _ _ _ _ Hw1 Hf)|].
    split; [reflexivity|]. split; [intros _; split; [reflexivity|exact Hb]|].
    intros _. exact Hb.
Qed.

(** The loop over the batches of an epoch, from the batch of index [k]. *)
Lemma batches_log opts n val_loader epoch (l : list Batch) :
  forall (k : nat) (w : World),
    exists p,
      log_grows w
        (snd (for_each (combine (map Z.of_nat (seq k (length l))) l)
                       (batch_step opts n val_loader epoch) w)) p
      /\ p `prefix_of`
           logged opts (map (fun i => (epoch, epoch * n + Z.of_nat i + 1))
                            (seq k (length l)))
      /\ (fst (for_each (combine (map Z.of_nat (seq k (length l))) l)
                        (batch_step opts n val_loader epoch) w) = Ok tt ->
          p = logged opts (map (fun i => (epoch, epoch * n + Z.of_nat i + 1))
                               (seq k (length l)))
          /\ (l <> [] ->
              batches_done
                (snd (for_each (combine (map Z.of_nat (seq k (length l))) l)
                               (batch_step opts n val_loader epoch) w))
              = Some (epoch * n + Z.of_nat (k + length l)))).
Proof.
  induction l as [|b l IH]; intros k w.
  - exists []. cbn. split; [apply log_grows_refl|].
    split; [apply prefix_nil|]. intros _. split; [reflexivity|congruence].
  - cbn [length seq map combine for_each]. rewrite logged_cons.
    destruct (batch_step_log opts n val_loader epoch (Z.of_nat k) b w)
      as (p1 & Hg1 & Hpre1 & Hok1 & _).
    match goal with
    | |- context [bind ?m ?h w] =>
        destruct (bind_cases m h w) as [(a & w1 & Hm & Hb)|(e & w1 & Hm & Hb)]
    end; rewrite Hb; rewrite Hm in Hg1, Hok1; cbn [fst snd] in Hg1, Hok1.
    + destruct a. destruct (Hok1 eq_refl) as [-> Hbd1].
      destruct (IH (Datatypes.S k) w1) as (p2 & Hg2 & Hpre2 & Hok2).
      exists (logged opts [(epoch, epoch * n + Z.of_nat k + 1)] ++ p2)%list.
      split; [exact (log_grows_trans _ _ _ _ _ Hg1 Hg2)|].
      split; [apply prefix_app; exact Hpre2|].
      intros Hok. destruct (Hok2 Hok) as [-> Hbd2].
      split; [reflexivity|]. intros _.
      destruct l as [|b' l'].
      * cbn [length seq map combine for_each ret snd]. rewrite Hbd1.
        f_equal. lia.
      * rewrite Hbd2 by discriminate. f_equal. cbn [length]. lia.
    + exists p1. cbn [fst snd].
      split; [exact Hg1|]. split; [apply prefix_app_r; exact Hpre1|].
      discriminate.
Qed.

(** One epoch: the records of the batches, and a step counter that the end
    of the epoch leaves at the step of the last batch. *)
Lemma epoch_body_log opts (train_loader val_loader : list Batch) epoch
    (w : World) :
  exists p,
    log_grows w (snd (epoch_body opts train_loader val_loader epoch w)) p
    /\ p `prefix_of` logged opts (epoch_trace (length train_loader) epoch)
    /\ (fst (epoch_body opts train_loader val_loader epoch w) = Ok tt ->
        p = logged opts (epoch_trace (length train_loader) epoch)
        /\ (train_loader <> [] ->
            batches_done (snd (epoch_body opts train_loader val_loader epoch w))
            = Some ((epoch + 1) * len train_loader))).
Proof.
  destruct (batches_log opts (len train_loader) val_loader epoch train_loader
              0 w) as (p & Hg & Hpre & Hok).
  unfold epoch_body, enumerate, epoch_trace.
  match goal with
  | |- context [bind ?m ?h w] =>
      destruct (bind_cases m h w) as [(a & w1 & Hm & Hb)|(e & w1 & Hm & Hb)]
  end; rewrite Hb; rewrite Hm in Hg, Hok; cbn [fst snd] in Hg, Hok.
  - destruct a. destruct (Hok eq_refl) as [-> Hbd].
    match goal with
    | |- context [snd (?t w1)] =>
        assert (Hp : preserves (log_and_counter (logfile_train w1)
                                                (batches_done w1)) t)
    end.
    { apply preserves_bind; [apply preserves_modify; intros ? ?; assumption
                            |intros _].
      apply preserves_bind; [apply preserves_lift|intros due].
      destruct due; [apply save_checkpoint_frame|apply preserves_ret]. }
    destruct (Hp w1 (conj eq_refl eq_refl)) as [Hf Hc].
    eexists. split; [exact (log_grows_frame _ _ _ _ Hg Hf)|].
    split; [reflexivity|]. intros _. split; [reflexivity|].
    intros Hne. rewrite Hc, (Hbd Hne). f_equal. unfold len. lia.
  - exists p. cbn [fst snd]. split; [exact Hg|]. split; [exact Hpre|].
    discriminate.
Qed.

Lemma epochs_log opts (train_loader val_loader : list Batch) (epochs : list Z) :
  forall w : World,
    exists p,
      log_grows w
        (snd (for_each epochs (epoch_body opts train_loader val_loader) w)) p
      /\ p `prefix_of` logged opts (run_trace (length train_loader) epochs)
      /\ (fst (for_each epochs (epoch_body opts train_loader val_loader) w)
          = Ok tt ->
          p = logged opts (run_trace (length train_loader) epochs)).
Proof.
  induction epochs as [|e es IH]; intros w.
  - exists []. cbn. split; [apply log_grows_refl|].
    split; [apply prefix_nil|]. reflexivity.
  - cbn [for_each run_trace flat_map]. rewrite logged_app.
    fold (run_trace (length train_loader) es).
    destruct (epoch_body_log opts train_loader val_loader e w)
      as (p1 & Hg1 & Hpre1 & Hok1).
    match goal with
    | |- context [bind ?m ?h w] =>
        destruct (bind_cases m h w) as [(a & w1 & Hm & Hb)|(x & w1 & Hm & Hb)]
    end; rewrite Hb; rewrite Hm in Hg1, Hok1; cbn [fst snd] in Hg1, Hok1.
    + destruct a. destruct (Hok1 eq_refl) as [-> _].
      destruct (IH w1) as (p2 & Hg2 & Hpre2 & Hok2).
      eexists. split; [exact (log_grows_trans _ _ _ _ _ Hg1 Hg2)|].
      split; [apply prefix_app; exact Hpre2|].
      intros Hok. now rewrite (Hok2 Hok).
    + exists p1. cbn [fst snd].
      split; [exact Hg1|]. split; [apply prefix_app_r; exact Hpre1|].
      discriminate.
Qed.

(** The training log is opened empty by the setup, however it ends. *)
Lemma setup_log opts (w : World) :
  logfile_train (snd (setup opts w))
  = {| on_disk := []; buffer := []; is_open := true |}.
Proof.
  unfold setup, load_checkpoint. cbv zeta. rewrite !bind_modify.
  destruct (continue_training opts); [|reflexivity].
  rewrite bind_get. destruct (_ !! _) as [ck|]; [|reflexivity].
  destruct (Bool.eqb _ _); reflexivity.
Qed.

(** The setup binds no step counter, puts the model in training mode and
    calls the tracker once, to initialise it, however it ends. *)
Lemma setup_counter opts (w : World) : batches_done (snd (setup opts w)) = None.
Proof.
  unfold setup, load_checkpoint. cbv zeta. rewrite !bind_modify.
  destruct (continue_training opts); [|reflexivity].
  rewrite bind_get. destruct (_ !! _) as [ck|]; [|reflexivity].
  destruct (Bool.eqb _ _); reflexivity.
Qed.

Lemma setup_training opts (w : World) : training (snd (setup opts w)) = true.
Proof.
  unfold setup, load_checkpoint. cbv zeta. rewrite !bind_modify.
  destruct (continue_training opts); [|reflexivity].
  rewrite bind_get. destruct (_ !! _) as [ck|]; [|reflexivity].
  destruct (Bool.eqb _ _); reflexivity.
Qed.


(** A run, whatever the configuration and however it ends: the records
    written to the training log are the first of those that the cadence
    selects among the batches of the epochs from [init_epoch], in order;
    when the run returns they are all of them, flushed. *)
Lemma run_log opts (train_loader val_loader : list Batch) (w : World) :
  log_trace (written (logfile_train
                        (snd (train_main_model opts train_loader val_loader w))))
    `prefix_of` logged opts (run_trace (length train_loader)
                                (py_range (init_epoch opts) (n_epochs opts)))
  /\ (fst (train_main_model opts train_loader val_loader w) = Ok tt ->
      log_trace (on_disk (logfile_train
                            (snd (train_main_model opts train_loader val_loader w))))
      = logged opts (run_trace (length train_loader)
                       (py_range (init_epoch opts) (n_epochs opts)))).
Proof.
  pose proof (setup_log opts w) as Hfile.
  unfold train_main_model.
  match goal with
  | |- context [bind ?m ?h w] =>
      destruct (bind_cases m h w) as [(a & w0 & Hm & Hb)|(e & w0 & Hm & Hb)]
  end; rewrite Hb; rewrite Hm in Hfile; cbn [fst snd] in Hfile.
  - destruct a.
    destruct (epochs_log opts train_loader val_loader
                (py_range (init_epoch opts) (n_epochs opts)) w0)
      as (p & (Hopen & Hdisk & Hbuf) & Hpre & Hok).
    rewrite Hfile in Hdisk, Hbuf. cbn [on_disk buffer log_trace map app] in *.
    match goal with
    | |- context [bind ?m ?h w0] =>
        destruct (bind_cases m h w0) as [(a & w1 & Hm1 & Hb1)|(e & w1 & Hm1 & Hb1)]
    end; rewrite Hb1; rewrite Hm1 in Hdisk, Hbuf, Hok; cbn [fst snd] in *.
    + destruct a. rewrite (Hok eq_refl) in Hbuf.
      unfold close_logs. rewrite !bind_modify. cbn [modify fst snd].
      cbn [logfile_train set_logfile_train set_logfile_val].
      unfold written, file_close. cbn [on_disk buffer].
      rewrite Hdisk, app_nil_r.
      cbn [app]. fold (log_trace (buffer (logfile_train w1))).
      rewrite Hbuf. split; [reflexivity|]. intros _. reflexivity.
    + unfold written. rewrite Hdisk. cbn [app].
      fold (log_trace (buffer (logfile_train w1))). rewrite Hbuf.
      split; [exact Hpre|discriminate].
  - cbn [fst snd]. unfold written. rewrite Hfile.
    cbn [on_disk buffer app log_trace map].
    split; [apply prefix_nil|discriminate].
Qed.

Lemma setup_fresh opts (w : World) :
  continue_training opts = false ->
  exists w0,
    setup opts w = (Ok tt, w0)
    /\ logfile_train w0 = {| on_disk := []; buffer := []; is_open := true |}.
Proof.
  intros H. unfold setup, load_checkpoint. rewrite H.
  eexists. split; reflexivity.
Qed.

Lemma load_checkpoint_ok opts (w : World) ck :
  continue_training opts = true ->
  ckpt_files w !! continue_ckpt opts = Some ck ->
  ck_module_keys ck = data_parallel opts ->
  load_checkpoint opts (data_parallel opts) w
  = (Ok tt, set_net_optim (ck_model ck, ck_opt ck) w).
Proof.
  intros H Hck Hkeys. unfold load_checkpoint.
  rewrite H, bind_get, Hck, Hkeys, Bool.eqb_reflx. reflexivity.
Qed.

Lemma setup_resume opts (w : World) ck :
  continue_training opts = true ->
  ckpt_files w !! continue_ckpt opts = Some ck ->
  ck_module_keys ck = data_parallel opts ->
  exists w0,
    setup opts w = (Ok tt, w0)
    /\ logfile_train w0 = {| on_disk := []; buffer := []; is_open := true |}
    /\ net w0 = ck_model ck /\ optim w0 = ck_opt ck
    /\ batches_done w0 = None.
Proof.
  intros H Hck Hkeys. unfold setup. cbv zeta. rewrite !bind_modify.
  erewrite load_checkpoint_ok; [|exact H|exact Hck|exact Hkeys].
  eexists. split; [reflexivity|]. repeat split; reflexivity.
Qed.

(** C6. A run continued from a checkpoint takes from it the parameters of
    the model and the state of the optimizer and nothing else, whatever
    the configuration: the load changes nothing but these two, no step
    counter is bound after the setup, the loop goes over the epochs from
    [opts.init_epoch], and the epochs and steps written to the training
    log are those of the batches of these epochs, whatever epoch and step
    the checkpoint records; nothing compares [opts.init_epoch] with
    them. *)
Theorem resume_from_init_epoch opts (train_loader val_loader : list Batch)
    (w : World) ck :
  continue_training opts = true ->
  ckpt_files w !! continue_ckpt opts = Some ck ->
  ck_module_keys ck = data_parallel opts ->
  load_checkpoint opts (data_parallel opts) w
  = (Ok tt, set_net_optim (ck_model ck, ck_opt ck) w)
  /\ exists w0,
       setup opts w = (Ok tt, w0)
       /\ net w0 = ck_model ck /\ optim w0 = ck_opt ck
       /\ batches_done w0 = None
       /\ train_main_model opts train_loader val_loader w
          = (for_each (py_range (init_epoch opts) (n_epochs opts))
                      (epoch_body opts train_loader val_loader);;
             close_logs) w0
       /\ log_trace (written (logfile_train
            (snd (train_main_model opts train_loader val_loader w))))
            `prefix_of` logged opts (run_trace (length train_loader)
                            (py_range (init_epoch opts) (n_epochs opts)))
       /\ (fst (train_main_model opts train_loader val_loader w) = Ok tt ->
           log_trace (on_disk (logfile_train
             (snd (train_main_model opts train_loader val_loader w))))
           = logged opts (run_trace (length train_loader)
                            (py_range (init_epoch opts) (n_epochs opts)))).
Proof.
  intros Hcont Hck Hkeys.
  split; [exact (load_checkpoint_ok opts w ck Hcont Hck Hkeys)|].
  destruct (setup_resume opts w ck Hcont Hck Hkeys)
    as (w0 & Hsetup & _ & Hnet & Hopt & Hbd).
  destruct (run_log opts train_loader val_loader w) as [Hpre Hok].
  exists w0. split; [exact Hsetup|]. split; [exact Hnet|].
  split; [exact Hopt|]. split; [exact Hbd|].
  split; [|split; [exact Hpre|exact Hok]].
  unfold train_main_model. exact (bind_ok _ _ _ _ _ Hsetup).
Qed.

(** C7. Whatever the configuration: a batch whose loss has been aggregated
    sets the step counter to [epoch * len(train_loader) + idx + 1], however
    the batch ends; the end of an epoch leaves the counter at
    [(epoch + 1) * len(train_loader)], from which the first batch of the
    next epoch goes on by 1; and the steps written to the training log, in
    a run that returns or raises, are the first of the consecutive steps
    from [init_epoch * len(train_loader) + 1] that [freq_log] divides, all
    of them when the run returns, and every step when [freq_log] is 1. *)
Theorem step_counter opts (train_loader val_loader : list Batch) :
  (forall epoch idx data (w : World) loss,
     aggregate opts (snd (forward (net w) (training w) ModeTrain data))
       = Ok loss ->
     batches_done
       (snd (batch_step opts (len train_loader) val_loader epoch (idx, data) w))
     = Some (epoch * len train_loader + idx + 1))
  /\ (forall epoch (w w' : World),
        epoch_body opts train_loader val_loader epoch w = (Ok tt, w') ->
        train_loader <> [] ->
        batches_done w' = Some ((epoch + 1) * len train_loader))
  /\ (forall w : World,
        let r := train_main_model opts train_loader val_loader w in
        let steps :=
          map (fun k => init_epoch opts * len train_loader + 1 + Z.of_nat k)
              (seq 0 (Z.to_nat (n_epochs opts - init_epoch opts)
                      * length train_loader)) in
        map tm_step (written (logfile_train (snd r)))
          `prefix_of` List.filter (fun s => s mod freq_log opts =? 0) steps
        /\ (fst r = Ok tt ->
            map tm_step (on_disk (logfile_train (snd r)))
            = List.filter (fun s => s mod freq_log opts =? 0) steps)
        /\ (fst r = Ok tt -> freq_log opts = 1 ->
            map tm_step (on_disk (logfile_train (snd r))) = steps)).
Proof.
  split; [|split].
  - intros epoch idx data w loss Hagg.
    destruct (batch_step_log opts (len train_loader) val_loader epoch idx
                data w) as (p & _ & _ & _ & Hbd).
    apply Hbd. rewrite Hagg. reflexivity.
  - intros epoch w w' Hrun Hne.
    destruct (epoch_body_log opts train_loader val_loader epoch w)
      as (p & _ & _ & Hok).
    rewrite Hrun in Hok. cbn [fst snd] in Hok.
    destruct (Hok eq_refl) as [_ Hbd]. exact (Hbd Hne).
  - intros w r steps. subst r steps.
    destruct (run_log opts train_loader val_loader w) as [Hpre Hok].
    assert (Hsteps : forall records : list TrainMsg,
              map tm_step records = map snd (log_trace records)).
    { intros records. unfold log_trace. rewrite map_map. reflexivity. }
    unfold len. rewrite <- run_trace_steps, <- map_snd_logged, !Hsteps.
    split; [|split].
    + destruct Hpre as [k Hk]. exists (map snd k).
      rewrite Hk, map_app. reflexivity.
    + intros H. now rewrite (Hok H).
    + intros H Hlog. rewrite (Hok H), map_snd_logged, Hlog.
      apply filter_every_step.
Qed.

End StepCounter.

Lemma train_example_terms_ok opts_weights :
  forall (net : @Net toy) (tr : bool) (b : @Batch toy),
    In b train_example ->
    train_terms_ok opts_weights (snd (@forward toy net tr ModeTrain b)) = true.
Proof.
  intros net tr b Hin. cbn [forward toy snd].
  assert (H : forall x, train_terms_ok opts_weights (full_breakdown x) = true).
  { intros x. unfold train_terms_ok, aggregate, train_message.
    replace (get_term (full_breakdown x) "img" "l1") with (Ok x) by reflexivity.
    replace (get_term (full_breakdown x) "img" "vggpt") with (Ok x) by reflexivity.
    replace (get_scalar (full_breakdown x) "kl") with (Ok x) by reflexivity.
    replace (get_term (full_breakdown x) "svg" "total") with (Ok x) by reflexivity.
    replace (get_term (full_breakdown x) "svg_para" "total") with (Ok x) by reflexivity.
    replace (get_term (full_breakdown x) "svg" "cmd") with (Ok x) by reflexivity.
    replace (get_term (full_breakdown x) "svg" "args") with (Ok x) by reflexivity.
    replace (get_term (full_breakdown x) "svg" "smt") with (Ok x) by reflexivity.
    replace (get_term (full_breakdown x) "svg" "aux") with (Ok x) by reflexivity.
    reflexivity. }
  simpl in Hin. destruct Hin as [<-|[<-|[<-|[]]]]; apply H.
Qed.

Lemma resume_from_init_epoch_witness :
  exists w0,
    @setup toy resume_opts resume_world = (Ok tt, w0)
    /\ net w0 = 40 /\ optim w0 = 41 /\ batches_done w0 = None
    /\ log_trace (on_disk (logfile_train
         (snd (@train_main_model toy resume_opts train_example []
                 resume_world))))
       = [(2, 7); (2, 8); (2, 9)].
Proof.
  destruct (@resume_from_init_epoch toy resume_opts train_example []
              resume_world resume_checkpoint)
    as (_ & w0 & H1 & H2 & H3 & H4 & _ & _ & H7).
  - reflexivity.
  - vm_compute. reflexivity.
  - reflexivity.
  - exists w0. split; [exact H1|]. split; [exact H2|]. split; [exact H3|].
    split; [exact H4|]. rewrite H7 by (vm_compute; reflexivity).
    vm_compute. reflexivity.
Defined.

Lemma step_counter_witness :
  fst (@train_main_model toy example_opts train_example [] toy_world) = Ok tt
  /\ map tm_step (on_disk (logfile_train
       (snd (@train_main_model toy example_opts train_example [] toy_world))))
     = [1; 2; 3].
Proof.
  destruct (@step_counter toy example_opts train_example []) as (_ & _ & H).
  destruct (H toy_world) as (_ & _ & Hall).
  split; [vm_compute; reflexivity|].
  rewrite Hall; [reflexivity|vm_compute; reflexivity|reflexivity].
Defined.

(** ** The font converter *)

Section ConverterProperties.
Context `{F : FontForge}.

Lemma call_ok (f : FF -> Result FF) (k : unit -> Comp ConvWorld unit) w w' :
  bind (call f) k w = (Ok tt, w') ->
  exists x, f (ff w) = Ok x /\ k tt (set_ff x w) = (Ok tt, w').
Proof.
  unfold call, bind, get, lift, modify.
  destruct (f (ff w)) as [x|e]; [eauto|discriminate].
Qed.

Lemma query_ok {A : Type} (f : FF -> Result A)
    (k : A -> Comp ConvWorld unit) w w' :
  bind (query f) k w = (Ok tt, w') ->
  exists a, f (ff w) = Ok a /\ k a w = (Ok tt, w').
Proof.
  unfold query, bind, get, lift.
  destruct (f (ff w)) as [a|e]; [eauto|discriminate].
Qed.

(** C10. When the conversion of a character returns, the description file
    of the character starts with the line [65], the code point of ['A'],
    whatever the character, the font and the position in the charset. *)
Theorem description_records_A (charset_th : PyStr) (charset_lenw : nat)
    (target_dir font_id font_name : string) (char_id : Z) (w w' : ConvWorld) :
  convert_char charset_th charset_lenw target_dir font_id font_name char_id w
    = (Ok tt, w') ->
  exists rest,
    files w' !! description_path target_dir font_id charset_lenw char_id
      = Some ("65" +:+ nl +:+ rest)
    /\ first_line ("65" +:+ nl +:+ rest) = "65".
Proof.
  unfold convert_char, create_file. cbv zeta.
  set (p := description_path target_dir font_id charset_lenw char_id).
  rewrite bind_assoc.
  destruct (open_for_writing p) as [[]|e];
    [rewrite bind_lift_ok, bind_modify, bind_get
    |rewrite bind_lift_raise; discriminate].
  intros H.
  assert (Hm : exists w1,
            match char (truncate_file p w) with
            | [c] =>
                if existsb (Z.eqb c) charset_th
                then modify (set_char ([117; 110; 105] ++ unicode_escape_tail c))
                else ret tt
            | _ => ret tt
            end (truncate_file p w) = (Ok tt, w1)
            /\ files w1 = <[p := ""]> (files w)).
  { destruct (char (truncate_file p w)) as [|c [|c' l]];
      try (eexists; split; reflexivity).
    destruct (existsb (Z.eqb c) charset_th); eexists; split; reflexivity. }
  destruct Hm as (w1 & Hm & Hfiles).
  rewrite (bind_ok _ _ _ _ _ Hm), bind_get in H.
  apply call_ok in H as (x1 & _ & H).
  apply call_ok in H as (x2 & _ & H).
  apply call_ok in H as (x3 & _ & H).
  rewrite bind_modify, bind_get in H. cbn [char set_char set_ff] in H.
  apply call_ok in H as (x4 & _ & H).
  apply call_ok in H as (x5 & _ & H).
  apply call_ok in H as (x6 & _ & H).
  apply call_ok in H as (x7 & _ & H).
  cbn [ord] in H. rewrite bind_lift_ok, bind_modify in H.
  apply query_ok in H as (width & _ & H). rewrite bind_modify in H.
  apply query_ok in H as (vwidth & _ & H). rewrite !bind_modify in H.
  injection H as <-.
  cbn [files append_file set_ff set_char]. rewrite Hfiles.
  rewrite !lookup_insert_eq. cbn [default].
  replace (pretty 65) with "65" by (vm_compute; reflexivity).
  cbn [String.append]. eexists. split; [reflexivity|].
  reflexivity.
Qed.

End ConverterProperties.

Example thai_glyph_name : unicode_escape_tail 3585 = [48; 101; 48; 49].
Proof. reflexivity. Qed.

Lemma description_records_A_witness :
  exists rest,
    files (snd (@convert_char toy_fontforge [3585] 2 "sfd" "font0" "font0.ttf" 0
                  (set_char [3585] toy_conv_world)))
      !! description_path "sfd" "font0" 2 0
    = Some ("65" +:+ nl +:+ rest)
    /\ first_line ("65" +:+ nl +:+ rest) = "65".
Proof.
  apply (@description_records_A toy_fontforge [3585] 2 "sfd" "font0"
           "font0.ttf" 0 (set_char [3585] toy_conv_world)).
  vm_compute. reflexivity.
Defined.

(** * Further properties of the driver *)

(** ** What a validation event leaves alone *)

Lemma bind_lift_ok_fun {S A B : Type} (a : A) (k : A -> Comp S B) :
  bind (lift (Ok a)) k = k a.
Proof. reflexivity. Qed.

Section ValidationFrame.
Context `{C : Collaborators}.

(** X1. A validation event, whether it returns or raises, leaves the
    parameters of the model, the state of the optimizer, the step counter,
    the training log, the sample images and the checkpoints as they
    were. *)
Theorem validation_keeps_training_state opts val_loader epoch idx n (w : World) :
  let w' := snd (validation_event opts val_loader epoch idx n w) in
  net w' = net w /\ optim w' = optim w
  /\ batches_done w' = batches_done w
  /\ logfile_train w' = logfile_train w
  /\ samples w' = samples w /\ ckpt_files w' = ckpt_files w.
Proof.
  apply (validation_event_preserves
           (fun w0 => net w0 = net w /\ optim w0 = optim w
                      /\ batches_done w0 = batches_done w
                      /\ logfile_train w0 = logfile_train w
                      /\ samples w0 = samples w
                      /\ ckpt_files w0 = ckpt_files w)).
  - intros w0 H. exact H.
  - intros p w0 H. exact H.
  - intros e w0 H. exact H.
  - intros m. unfold write_val. preserves_steps.
  - repeat split; reflexivity.
Qed.

End ValidationFrame.

(** ** The sums of ['svg_para'] *)

Lemma set_val_other (lv : LossVal) c k v c' :
  c <> c' -> set_val lv c k v !! c' = lv !! c'.
Proof.
  intros Hne. unfold set_val. destruct (lv !! c); [|reflexivity].
  now rewrite lookup_insert_ne.
Qed.

Lemma get_val_ext (lv1 lv2 : LossVal) c k :
  lv1 !! c = lv2 !! c -> get_val lv1 c k = get_val lv2 c k.
Proof. intros H. unfold get_val. now rewrite H. Qed.

Lemma add_term_other d c lv k lv' c' :
  c <> c' -> add_term d c lv k = Ok lv' -> lv' !! c' = lv !! c'.
Proof.
  intros Hne. unfold add_term.
  destruct (get_val lv c k); [|discriminate].
  destruct (get_term d c k); [|discriminate].
  cbn [bindR]. intros [= <-]. now apply set_val_other.
Qed.

Lemma div_term_other n c lv k lv' c' :
  c <> c' -> div_term n c lv k = Ok lv' -> lv' !! c' = lv !! c'.
Proof.
  intros Hne. unfold div_term.
  destruct (get_val lv c k); [|discriminate]. cbn [bindR].
  destruct (py_div _ n); [|discriminate].
  cbn [bindR]. intros [= <-]. now apply set_val_other.
Qed.

Lemma foldR_other {A : Type} (f : LossVal -> A -> Result LossVal) c' :
  (forall lv x lv', f lv x = Ok lv' -> lv' !! c' = lv !! c') ->
  forall l lv lv', foldR f l lv = Ok lv' -> lv' !! c' = lv !! c'.
Proof.
  intros Hf. induction l as [|x l IH]; intros lv lv'; cbn [foldR].
  - now intros [= <-].
  - destruct (f lv x) as [lv1|e] eqn:Hx; [|discriminate]. cbn [bindR].
    intros H. rewrite (IH _ _ H). now apply Hf in Hx.
Qed.

Lemma accumulate_svg_para lv d lv' :
  accumulate lv d = Ok lv' -> lv' !! "svg_para" = lv !! "svg_para".
Proof.
  unfold accumulate. cbn [foldR].
  destruct (foldR (add_term d "img") _ lv) as [lv1|] eqn:H1; [|discriminate].
  cbn [bindR].
  destruct (foldR (add_term d "svg") _ lv1) as [lv2|] eqn:H2; [|discriminate].
  cbn [bindR]. intros [= <-].
  apply foldR_other with (c' := "svg_para") in H1;
    [|intros ? ? ? Hx; eapply add_term_other; [|exact Hx]; discriminate].
  apply foldR_other with (c' := "svg_para") in H2;
    [|intros ? ? ? Hx; eapply add_term_other; [|exact Hx]; discriminate].
  congruence.
Qed.

Lemma average_svg_para lv n lv' :
  average lv n = Ok lv' -> lv' !! "svg_para" = lv !! "svg_para".
Proof.
  unfold average. cbn [foldR].
  destruct (foldR (div_term n "img") _ lv) as [lv1|] eqn:H1; [|discriminate].
  cbn [bindR].
  destruct (foldR (div_term n "svg") _ lv1) as [lv2|] eqn:H2; [|discriminate].
  cbn [bindR]. intros [= <-].
  apply foldR_other with (c' := "svg_para") in H1;
    [|intros ? ? ? Hx; eapply div_term_other; [|exact Hx]; discriminate].
  apply foldR_other with (c' := "svg_para") in H2;
    [|intros ? ? ? Hx; eapply div_term_other; [|exact Hx]; discriminate].
  congruence.
Qed.

Section SvgPara.
Context `{C : Collaborators}.

Lemma val_batches_svg_para (net : Net) tr (val_loader : list Batch) :
  forall acc acc',
    foldR (val_batch net tr) val_loader acc = Ok acc' ->
    fst acc' !! "svg_para" = fst acc !! "svg_para".
Proof.
  induction val_loader as [|b bs IH]; intros acc acc'; cbn [foldR].
  - now intros [= <-].
  - unfold val_batch at 1.
    destruct (accumulate (fst acc) _) as [lv1|] eqn:Hacc; [|discriminate].
    cbn [bindR]. intros H. rewrite (IH _ _ H). cbn [fst].
    exact (accumulate_svg_para _ _ _ Hacc).
Qed.

(** X2. The sums of the category ['svg_para'] are set to 0 and never
    added to nor divided: when the validation returns, each of them is
    still 0. *)
Theorem svg_para_never_accumulated (val_loader : list Batch) (w w' : World)
    lv r :
  validation_losses val_loader w = (Ok (lv, r), w') ->
  forall k, In k ["total"; "cmd"; "args"; "aux"] ->
    get_val lv "svg_para" k = Ok 0%Qc.
Proof.
  unfold validation_losses. rewrite bind_modify, bind_get.
  unfold bind, lift, ret.
  destruct (foldR _ val_loader _) as [acc|] eqn:Hfold; [|discriminate].
  destruct (average (fst acc) _) as [lv1|] eqn:Havg; [|discriminate].
  intros [= <- <- <-] k Hk.
  apply val_batches_svg_para in Hfold. apply average_svg_para in Havg.
  cbn [fst] in Hfold.
  rewrite (get_val_ext lv1 loss_val_init "svg_para" k) by congruence.
  simpl in Hk.
  repeat (destruct Hk as [<-|Hk]; [vm_compute; reflexivity|]).
  contradiction.
Qed.

End SvgPara.

Lemma svg_para_never_accumulated_witness :
  exists lv r w',
    @validation_losses toy val_example toy_world = (Ok (lv, r), w')
    /\ get_val lv "svg_para" "total" = Ok 0%Qc.
Proof.
  destruct (@validation_losses toy val_example toy_world) as [[[lv r]|e] w']
    eqn:H.
  - exists lv, r, w'. split; [reflexivity|].
    apply (@svg_para_never_accumulated toy val_example toy_world w' lv r H).
    simpl. tauto.
  - vm_compute in H. discriminate.
Defined.

(** ** Where a batch can fail *)

Section BatchFailure.
Context `{C : Collaborators}.

(** X3. A batch whose breakdown lacks a term of the loss raises before
    the optimizer step and leaves the world as it was. A batch whose
    breakdown has the terms of the loss and lacks one read by the log
    message raises after the optimizer step and the update of the step
    counter, whether the step is to be logged or not. *)
Theorem batch_failure_points opts n val_loader epoch idx data (w : World) :
  let d := snd (forward (net w) (training w) ModeTrain data) in
  let bd := epoch * n + idx + 1 in
  let w1 := set_batches_done bd
              (set_net_optim (optimize opts (net w) (optim w) (training w) data)
                 w) in
  (forall e, aggregate opts d = Raise e ->
     batch_step opts n val_loader epoch (idx, data) w = (Raise e, w))
  /\ (forall loss e,
        aggregate opts d = Ok loss ->
        train_message opts epoch idx n loss d (optim_lr (optim w1)) bd
          = Raise e ->
        batch_step opts n val_loader epoch (idx, data) w = (Raise e, w1)).
Proof.
  cbv zeta. split.
  - intros e He. unfold batch_step. cbv zeta. cbn [fst snd].
    rewrite bind_get, He. reflexivity.
  - intros loss e Hloss He. unfold batch_step. cbv zeta. cbn [fst snd].
    rewrite bind_get, Hloss, bind_lift_ok, !bind_modify, bind_get, He.
    reflexivity.
Qed.

End BatchFailure.

(** ** The end of an epoch *)

Lemma py_range_cons (a b : Z) :
  a < b -> py_range a b = a :: py_range (a + 1) b.
Proof.
  intros H. unfold py_range.
  replace (Z.to_nat (b - a)) with (Datatypes.S (Z.to_nat (b - (a + 1)))) by lia.
  cbn [seq map]. f_equal; [lia|].
  rewrite <- seq_shift, map_map. apply map_ext. intros i. lia.
Qed.

Section EpochEnd.
Context `{C : Collaborators}.

(** X4. With [freq_ckpt = 0] the test of the checkpoint cadence raises
    [ZeroDivisionError]: a run whose first epoch goes through its batches
    ends with that exception at the end of the epoch, after the step of
    the scheduler, and no checkpoint is written. *)
Theorem zero_ckpt_frequency_aborts opts (train_loader val_loader : list Batch)
    (w w0 w1 : World) :
  freq_ckpt opts = 0 ->
  init_epoch opts < n_epochs opts ->
  setup opts w = (Ok tt, w0) ->
  for_each (enumerate train_loader)
           (batch_step opts (len train_loader) val_loader (init_epoch opts)) w0
    = (Ok tt, w1) ->
  train_main_model opts train_loader val_loader w
  = (Raise ZeroDivisionError,
     set_net_optim (net w1, scheduler_step (optim w1)) w1).
Proof.
  intros Hfreq Hlt Hsetup Hbatches.
  unfold train_main_model.
  rewrite (bind_ok _ _ _ _ _ Hsetup), py_range_cons by exact Hlt.
  cbn [for_each]. unfold bind at 1 2. unfold epoch_body.
  rewrite (bind_ok _ _ _ _ _ Hbatches), bind_modify.
  unfold ckpt_due, py_mod. rewrite Hfreq. reflexivity.
Qed.

(** X5. In a run over an empty training stream the step counter is never
    bound: when a checkpoint is due at the first epoch, the run ends with
    [UnboundLocalError] on [batches_done]. *)
Theorem empty_train_loader_unbound opts (val_loader : list Batch)
    (w w0 : World) :
  init_epoch opts < n_epochs opts ->
  setup opts w = (Ok tt, w0) ->
  ckpt_due opts (init_epoch opts) = Ok true ->
  fst (train_main_model opts [] val_loader w)
  = Raise (UnboundLocalError "batches_done").
Proof.
  intros Hlt Hsetup Hdue.
  assert (Hbd : batches_done w0 = None).
  { pose proof (setup_counter opts w) as H. now rewrite Hsetup in H. }
  unfold train_main_model.
  rewrite (bind_ok _ _ _ _ _ Hsetup), py_range_cons by exact Hlt.
  cbn [for_each]. unfold bind at 1 2. unfold epoch_body.
  cbn [enumerate length seq map combine for_each].
  rewrite bind_ret, bind_modify, Hdue, bind_lift_ok.
  unfold save_checkpoint, read_batches_done.
  unfold bind at 1 2. cbn [get batches_done set_net_optim].
  rewrite Hbd. reflexivity.
Qed.

(** X6. A checkpoint saved by the driver holds the state dictionary of
    the module, without the prefix of a wrapper, whatever [opts.multi_gpu]
    was. Given as [continue_ckpt] to a later run, it restores the
    parameters of the model and the state of the optimizer that were saved
    when the model of that run is the module itself. When the model of
    that run is a [DataParallel] wrapper the load raises [RuntimeError]
    and restores nothing: a run with [multi_gpu] cannot be continued from
    a checkpoint that the driver wrote. *)
Theorem save_then_load opts opts' epoch bd (wrapped : bool) (w w2 : World) :
  wandb opts = false ->
  batches_done w = Some bd ->
  continue_training opts' = true ->
  continue_ckpt opts' = ckpt_path opts epoch bd ->
  ckpt_files w2 = ckpt_files (snd (save_checkpoint opts epoch w)) ->
  fst (save_checkpoint opts epoch w) = Ok tt
  /\ load_checkpoint opts' wrapped w2
     = (if wrapped then (Raise RuntimeError, w2)
        else (Ok tt, set_net_optim (net w, optim w) w2))
  /\ fst (setup opts' w2)
     = (if multi_gpu opts' then Raise RuntimeError else Ok tt).
Proof.
  intros Hwandb Hbd Hcont Hpath.
  assert (Hsave : save_checkpoint opts epoch w
            = (Ok tt, torch_save {| ck_model := net w;
                                    ck_module_keys := false;
                                    ck_opt := optim w;
                                    ck_n_epoch := epoch; ck_n_iter := bd |}
                        (ckpt_path opts epoch bd)
                        (print (PrintSaved (ckpt_path opts epoch bd)) w))).
  { unfold save_checkpoint, read_batches_done. cbv zeta.
    erewrite bind_ok; [|rewrite bind_get, Hbd; reflexivity].
    rewrite Hwandb. destruct (multi_gpu opts); reflexivity. }
  rewrite Hsave. cbn [fst snd]. intros Hfiles. split; [reflexivity|]. split.
  - unfold load_checkpoint. rewrite Hcont, bind_get, Hfiles, Hpath.
    cbn [ckpt_files torch_save]. rewrite lookup_insert_eq.
    cbn [ck_module_keys ck_model ck_opt]. destruct wrapped; reflexivity.
  - unfold setup, load_checkpoint, data_parallel. cbv zeta.
    rewrite !bind_modify, Hcont, bind_get.
    cbn [ckpt_files set_training set_net_optim track set_logfile_val
         set_logfile_train enter_call].
    rewrite Hfiles, Hpath. cbn [ckpt_files torch_save].
    rewrite lookup_insert_eq. cbn [ck_module_keys].
    destruct (multi_gpu opts'); reflexivity.
Qed.

End EpochEnd.

Lemma batch_failure_points_witness :
  exists w1,
    @batch_step toy (cadence_opts 5 0 0) 1 [] 0 (0, example_breakdown)
      toy_training_world = (Raise (KeyError "cmd"), w1)
    /\ net w1 = 1 /\ batches_done w1 = Some 1.
Proof.
  destruct (@batch_failure_points toy (cadence_opts 5 0 0) 1 [] 0 0
              example_breakdown toy_training_world) as [_ H].
  destruct (aggregate (cadence_opts 5 0 0)
              (snd (@forward toy (net toy_training_world)
                      (training toy_training_world) ModeTrain
                      example_breakdown))) as [loss|e] eqn:Hagg.
  - eexists. split.
    + apply (H loss (KeyError "cmd") eq_refl). vm_compute. reflexivity.
    + split; reflexivity.
  - vm_compute in Hagg. discriminate.
Defined.

Lemma zero_ckpt_frequency_aborts_witness :
  fst (@train_main_model toy (run_opts 0 2 1 0 0 0 0 false false "")
         train_example [] toy_world) = Raise ZeroDivisionError
  /\ ckpt_files (snd (@train_main_model toy
                        (run_opts 0 2 1 0 0 0 0 false false "")
                        train_example [] toy_world)) = ∅.
Proof.
  rewrite (@zero_ckpt_frequency_aborts toy
             (run_opts 0 2 1 0 0 0 0 false false "") train_example []
             toy_world
             (snd (@setup toy (run_opts 0 2 1 0 0 0 0 false false "") toy_world))
             (snd (for_each (enumerate train_example)
                     (@batch_step toy (run_opts 0 2 1 0 0 0 0 false false "")
                        3 [] 0)
                     (snd (@setup toy (run_opts 0 2 1 0 0 0 0 false false "")
                             toy_world))))).
  - split; reflexivity.
  - reflexivity.
  - cbn. lia.
  - reflexivity.
  - vm_compute. reflexivity.
Defined.

Lemma empty_train_loader_unbound_witness :
  fst (@train_main_model toy (run_opts 0 1 1 0 0 1 0 false false "") [] []
         toy_world) = Raise (UnboundLocalError "batches_done").
Proof.
  apply (@empty_train_loader_unbound toy (run_opts 0 1 1 0 0 1 0 false false "")
           [] toy_world
           (snd (@setup toy (run_opts 0 1 1 0 0 1 0 false false "") toy_world))).
  - cbn. lia.
  - reflexivity.
  - reflexivity.
Defined.

Lemma save_then_load_witness :
  net (snd (@load_checkpoint toy
              (run_opts 1 2 1 0 0 1 0 false true (ckpt_path example_opts 0 3))
              false
              (set_net_optim (toy_state 0 0)
                 (snd (@save_checkpoint toy example_opts 0
                         (set_net_optim (toy_state 7 8)
                            (set_batches_done 3 toy_training_world)))))))
  = 7.
Proof.
  destruct (@save_then_load toy example_opts
              (run_opts 1 2 1 0 0 1 0 false true (ckpt_path example_opts 0 3))
              0 3 false
              (set_net_optim (toy_state 7 8) (set_batches_done 3 toy_training_world))
              (set_net_optim (toy_state 0 0)
                 (snd (@save_checkpoint toy example_opts 0
                         (set_net_optim (toy_state 7 8)
                            (set_batches_done 3 toy_training_world))))))
    as (_ & H & _).
  - reflexivity.
  - reflexivity.
  - reflexivity.
  - reflexivity.
  - reflexivity.
  - rewrite H. reflexivity.
Defined.

(** ** What a run never does *)

Section RunFrame.
Context `{C : Collaborators}.


(** X8. With the validation cadence off ([freq_val <= 0]) the model is in
    training mode when the run ends, however it ends: nothing but a
    validation event takes it out of training mode. *)
Theorem training_mode_kept_without_validation opts
    (train_loader val_loader : list Batch) (w : World) :
  freq_val opts <= 0 ->
  training (snd (train_main_model opts train_loader val_loader w)) = true.
Proof.
  intros Hval.
  assert (Hloop : preserves (fun w0 : World => training w0 = true)
            (bind (for_each (py_range (init_epoch opts) (n_epochs opts))
                            (epoch_body opts train_loader val_loader))
                  (fun _ => close_logs))).
  { apply preserves_bind; [|intros _; unfold close_logs; preserves_steps].
    apply preserves_for_each. intros epoch. unfold epoch_body.
    apply preserves_bind.
    - apply preserves_for_each. intros idx_data.
      unfold batch_step. cbv zeta. rewrite val_due_spec.
      replace (0 <? freq_val opts) with false by (symmetry; apply Z.ltb_ge; lia).
      cbn [andb]. rewrite bind_lift_ok_fun.
      unfold wandb_log_train. preserves_steps.
    - intros _. unfold save_checkpoint, read_batches_done, publish_artifact.
      cbv zeta. preserves_steps. }
  unfold train_main_model. unfold bind at 1.
  pose proof (setup_training opts w) as Hsetup.
  destruct (setup opts w) as [[[]|e] w0]; [|exact Hsetup].
  apply Hloop. exact Hsetup.
Qed.

End RunFrame.


Lemma training_mode_kept_without_validation_witness :
  training (snd (@train_main_model toy example_opts train_example val_example
                   toy_world)) = true.
Proof.
  apply (@training_mode_kept_without_validation toy example_opts train_example
           val_example toy_world).
  cbn. lia.
Defined.

(** ** Runs without validation and without tracker *)

Lemma sampled_app opts t1 t2 :
  sampled opts (t1 ++ t2) = (sampled opts t1 ++ sampled opts t2)%list.
Proof. unfold sampled. now rewrite List.filter_app, map_app. Qed.

Section QuietRun.
Context `{C : Collaborators}.

Lemma advanced_refl opts (w : World) :
  is_open (logfile_train w) = true ->
  advanced opts w w [] (net w, optim w) (batches_done w).
Proof.
  intros H. unfold advanced. cbn. rewrite !app_nil_r. repeat split. exact H.
Qed.

Lemma advanced_trans opts (w w1 w2 : World) t1 t2 no1 no2 bd1 bd2 :
  advanced opts w w1 t1 no1 bd1 -> advanced opts w1 w2 t2 no2 bd2 ->
  advanced opts w w2 (t1 ++ t2) no2 bd2.
Proof.
  intros (A1 & A2 & A3 & A4 & A5 & A6 & A7) (B1 & B2 & B3 & B4 & B5 & B6 & B7).
  unfold advanced. rewrite logged_app, sampled_app, !app_assoc.
  repeat split; congruence.
Qed.

Lemma log_part_ok (b : bool) m (w : World) :
  is_open (logfile_train w) = true ->
  (if b then write_train m;; modify (print (PrintTrain m));; ret tt
   else ret tt) w
  = (Ok tt,
     if b
     then print (PrintTrain m)
            (set_logfile_train
               {| on_disk := on_disk (logfile_train w);
                  buffer := buffer (logfile_train w) ++ [m];
                  is_open := true |} w)
     else w).
Proof.
  intros Hopen. destruct b; [|reflexivity].
  erewrite bind_ok; [|apply write_train_ok; exact Hopen].
  reflexivity.
Qed.

Lemma batch_step_advances opts n val_loader epoch idx data (w : World) :
  freq_log opts <> 0 -> freq_val opts <= 0 -> wandb opts = false ->
  train_terms_ok opts (snd (forward (net w) (training w) ModeTrain data)) = true ->
  is_open (logfile_train w) = true ->
  exists w',
    batch_step opts n val_loader epoch (idx, data) w = (Ok tt, w')
    /\ advanced opts w w' [(epoch, epoch * n + idx + 1)]
         (optimize opts (net w) (optim w) (training w) data)
         (Some (epoch * n + idx + 1)).
Proof.
  intros Hlog Hval Hwandb Hterms Hopen.
  apply andb_true_iff in Hterms as [Hagg Hmsg].
  apply is_ok_Ok in Hagg as [loss Hagg].
  unfold batch_step. cbv zeta. cbn [fst snd].
  rewrite bind_get, Hagg, bind_lift_ok, !bind_modify, bind_get.
  destruct (train_message_ok opts _ epoch idx n loss
              (optim_lr (optim (set_batches_done (epoch * n + idx + 1)
                 (set_net_optim
                    (optimize opts (net w) (optim w) (training w) data) w))))
              (epoch * n + idx + 1) Hmsg) as (m & Hm & Hepoch & Hstep).
  rewrite Hm, bind_lift_ok.
  rewrite log_due_nonzero by exact Hlog.
  rewrite bind_lift_ok, Hwandb.
  erewrite bind_ok; [|apply (log_part_ok _ m); exact Hopen].
  rewrite sample_due_spec, bind_lift_ok.
  erewrite bind_ok; [|apply if_modify].
  rewrite val_due_spec.
  replace (0 <? freq_val opts) with false by (symmetry; apply Z.ltb_ge; lia).
  cbn [andb]. rewrite bind_lift_ok. cbn [ret].
  eexists. split; [reflexivity|].
  unfold advanced, logged, sampled. cbn [List.filter snd fst map].
  destruct (optimize opts (net w) (optim w) (training w) data) as [n1 o1].
  destruct (_ mod freq_log opts =? 0), (_ && _); cbn;
    unfold log_trace; rewrite ?map_app, ?app_nil_r; cbn [map];
    rewrite ?Hepoch, ?Hstep; repeat split; first [reflexivity|exact Hopen].
Qed.

Lemma advanced_eq opts (w w' : World) t no no' bd bd' :
  advanced opts w w' t no bd -> no = no' -> bd = bd' ->
  advanced opts w w' t no' bd'.
Proof. intros H <- <-. exact H. Qed.

(** Updates that touch neither the training log, the samples, the
    training mode nor the step counter. *)
Lemma advanced_frame opts (w w1 w' : World) t no bd :
  advanced opts w w1 t no bd ->
  logfile_train w' = logfile_train w1 -> samples w' = samples w1 ->
  training w' = training w1 -> batches_done w' = batches_done w1 ->
  advanced opts w w' t (net w', optim w') bd.
Proof.
  intros (A1 & A2 & A3 & A4 & A5 & A6 & A7) Hf Hs Ht Hb.
  unfold advanced. rewrite Hf, Hs, Ht, Hb. repeat split; assumption.
Qed.

Lemma batches_advance opts n val_loader epoch (l : list Batch) :
  freq_log opts <> 0 -> freq_val opts <= 0 -> wandb opts = false ->
  (forall net tr b, In b l ->
     train_terms_ok opts (snd (forward net tr ModeTrain b)) = true) ->
  forall (k : nat) (w : World),
    is_open (logfile_train w) = true ->
    exists w',
      for_each (combine (map Z.of_nat (seq k (length l))) l)
               (batch_step opts n val_loader epoch) w = (Ok tt, w')
      /\ advanced opts w w'
           (map (fun i => (epoch, epoch * n + Z.of_nat i + 1))
                (seq k (length l)))
           (train_batches opts (training w) l (net w, optim w))
           (match l with
            | [] => batches_done w
            | _ => Some (epoch * n + Z.of_nat (k + length l))
            end).
Proof.
  intros Hlog Hval Hwandb. induction l as [|b l IH]; intros Hterms k w Hopen.
  - exists w. split; [reflexivity|]. now apply advanced_refl.
  - destruct (batch_step_advances opts n val_loader epoch (Z.of_nat k) b w
                Hlog Hval Hwandb (Hterms _ _ b (or_introl eq_refl)) Hopen)
      as (w1 & Hstep & Hadv1).
    assert (Hopen1 : is_open (logfile_train w1) = true) by apply Hadv1.
    destruct (IH (fun net tr b' Hin => Hterms net tr b' (or_intror Hin))
                 (Datatypes.S k) w1 Hopen1) as (w' & Hrest & Hadv').
    exists w'. split.
    + cbn [length seq map combine for_each].
      rewrite (bind_ok _ _ _ _ _ Hstep). exact Hrest.
    + pose proof Hadv1 as (_ & _ & _ & _ & Hno1 & Htr1 & Hbd1).
      cbn [length seq map].
      apply (advanced_eq opts w w' _ _ _ _ _
               (advanced_trans opts w w1 w' _ _ _ _ _ _ Hadv1 Hadv')).
      * unfold train_batches. cbn [fold_left]. rewrite Htr1, Hno1.
        reflexivity.
      * destruct l; [rewrite Hbd1|]; f_equal; cbn [length]; lia.
Qed.

Lemma epoch_advances opts (train_loader val_loader : list Batch) epoch
    (w : World) :
  freq_log opts <> 0 -> freq_val opts <= 0 -> wandb opts = false ->
  freq_ckpt opts <> 0 -> train_loader <> [] ->
  (forall net tr b, In b train_loader ->
     train_terms_ok opts (snd (forward net tr ModeTrain b)) = true) ->
  is_open (logfile_train w) = true ->
  exists w',
    epoch_body opts train_loader val_loader epoch w = (Ok tt, w')
    /\ advanced opts w w' (epoch_trace (length train_loader) epoch)
         (train_epoch opts (training w) train_loader (net w, optim w))
         (Some ((epoch + 1) * len train_loader))
    /\ (ckpt_due opts epoch = Ok true ->
        ckpt_files w' !! ckpt_path opts epoch ((epoch + 1) * len train_loader)
        = Some {| ck_model := net w'; ck_module_keys := false;
                  ck_opt := optim w';
                  ck_n_epoch := epoch;
                  ck_n_iter := (epoch + 1) * len train_loader |}).
Proof.
  intros Hlog Hval Hwandb Hckpt Hne Hterms Hopen.
  destruct (batches_advance opts (len train_loader) val_loader epoch
              train_loader Hlog Hval Hwandb Hterms 0%nat w Hopen)
    as (w1 & Hloop & Hadv1).
  apply advanced_eq
    with (no' := train_batches opts (training w) train_loader (net w, optim w))
         (bd' := Some ((epoch + 1) * len train_loader)) in Hadv1;
    [|reflexivity
     |destruct train_loader; [congruence|]; f_equal; unfold len; lia].
  pose proof Hadv1 as (_ & _ & _ & _ & Hno1 & _ & Hbd1).
  unfold epoch_body, enumerate.
  rewrite (bind_ok _ _ _ _ _ Hloop), bind_modify.
  unfold ckpt_due. rewrite py_mod_nonzero by exact Hckpt. cbn [bindR].
  rewrite bind_lift_ok.
  assert (Hepoch : train_epoch opts (training w) train_loader (net w, optim w)
                   = (net w1, scheduler_step (optim w1))).
  { unfold train_epoch. rewrite <- Hno1. reflexivity. }
  destruct (_ && _) eqn:Hdue.
  - unfold save_checkpoint, read_batches_done. cbv zeta.
    erewrite bind_ok;
      [|rewrite bind_get; cbn [batches_done set_net_optim]; rewrite Hbd1;
        reflexivity].
    rewrite Hwandb.
    set (w' := torch_save
              {| ck_model := net w1; ck_module_keys := false;
                 ck_opt := scheduler_step (optim w1);
                 ck_n_epoch := epoch;
                 ck_n_iter := (epoch + 1) * len train_loader |}
              (ckpt_path opts epoch ((epoch + 1) * len train_loader))
              (print (PrintSaved
                        (ckpt_path opts epoch ((epoch + 1) * len train_loader)))
                 (set_net_optim (net w1, scheduler_step (optim w1)) w1))).
    exists w'.
    split; [destruct (multi_gpu opts); reflexivity|]. split.
    + rewrite Hepoch.
      exact (advanced_frame opts w w1 w' _ _ _ Hadv1
               eq_refl eq_refl eq_refl eq_refl).
    + intros _. cbn. apply lookup_insert_eq.
  - set (w' := set_net_optim (net w1, scheduler_step (optim w1)) w1).
    exists w'. split; [reflexivity|]. split.
    + rewrite Hepoch.
      exact (advanced_frame opts w w1 w' _ _ _ Hadv1
               eq_refl eq_refl eq_refl eq_refl).
    + intros [= H].
Qed.

Lemma epochs_advance opts (train_loader val_loader : list Batch) :
  freq_log opts <> 0 -> freq_val opts <= 0 -> wandb opts = false ->
  freq_ckpt opts <> 0 -> train_loader <> [] ->
  (forall net tr b, In b train_loader ->
     train_terms_ok opts (snd (forward net tr ModeTrain b)) = true) ->
  forall (epochs : list Z) (w : World),
    is_open (logfile_train w) = true ->
    exists w' bd,
      for_each epochs (epoch_body opts train_loader val_loader) w = (Ok tt, w')
      /\ advanced opts w w' (run_trace (length train_loader) epochs)
           (train_epochs opts (training w) train_loader epochs (net w, optim w))
           bd.
Proof.
  intros Hlog Hval Hwandb Hckpt Hne Hterms.
  induction epochs as [|e es IH]; intros w Hopen.
  - exists w, (batches_done w). split; [reflexivity|]. now apply advanced_refl.
  - destruct (epoch_advances opts train_loader val_loader e w
                Hlog Hval Hwandb Hckpt Hne Hterms Hopen)
      as (w1 & Hbody & Hadv1 & _).
    assert (Hopen1 : is_open (logfile_train w1) = true) by apply Hadv1.
    destruct (IH w1 Hopen1) as (w' & bd & Hrest & Hadv').
    exists w', bd. split.
    + cbn [for_each]. rewrite (bind_ok _ _ _ _ _ Hbody). exact Hrest.
    + pose proof Hadv1 as (_ & _ & _ & _ & Hno1 & Htr1 & _).
      cbn [run_trace flat_map].
      apply (advanced_eq opts w w' _ _ _ _ _
               (advanced_trans opts w w1 w' _ _ _ _ _ _ Hadv1 Hadv'));
        [|reflexivity].
      unfold train_epochs. cbn [fold_left]. rewrite Htr1, Hno1. reflexivity.
Qed.

Lemma setup_facts opts (w w0 : World) :
  setup opts w = (Ok tt, w0) ->
  logfile_train w0 = {| on_disk := []; buffer := []; is_open := true |}
  /\ samples w0 = samples w /\ training w0 = true.
Proof.
  unfold setup, load_checkpoint. cbv zeta. rewrite !bind_modify.
  destruct (continue_training opts).
  - rewrite bind_get. destruct (_ !! _); [|discriminate].
    destruct (Bool.eqb _ _); [|discriminate].
    intros [= <-]. repeat split; reflexivity.
  - intros [= <-]. repeat split; reflexivity.
Qed.

(** A run whose setup returns, without validation and without tracker. *)
Lemma run_advances opts (train_loader val_loader : list Batch) (w w0 : World) :
  setup opts w = (Ok tt, w0) ->
  freq_log opts <> 0 -> freq_val opts <= 0 -> wandb opts = false ->
  freq_ckpt opts <> 0 -> train_loader <> [] ->
  (forall net tr b, In b train_loader ->
     train_terms_ok opts (snd (forward net tr ModeTrain b)) = true) ->
  exists w',
    train_main_model opts train_loader val_loader w = (Ok tt, w')
    /\ log_trace (on_disk (logfile_train w'))
       = logged opts (run_trace (length train_loader)
                        (py_range (init_epoch opts) (n_epochs opts)))
    /\ map fst (samples w')
       = (map fst (samples w)
          ++ sampled opts (run_trace (length train_loader)
                             (py_range (init_epoch opts) (n_epochs opts))))%list
    /\ (net w', optim w')
       = train_epochs opts true train_loader
           (py_range (init_epoch opts) (n_epochs opts)) (net w0, optim w0).
Proof.
  intros Hsetup Hlog Hval Hwandb Hckpt Hne Hterms.
  destruct (setup_facts opts w w0 Hsetup) as (Hfile & Hsamples & Htr).
  destruct (epochs_advance opts train_loader val_loader Hlog Hval Hwandb Hckpt
              Hne Hterms (py_range (init_epoch opts) (n_epochs opts)) w0)
    as (w1 & bd & Hloop & A1 & A2 & A3 & A4 & A5 & A6 & A7).
  { rewrite Hfile. reflexivity. }
  unfold train_main_model.
  rewrite (bind_ok _ _ _ _ _ Hsetup), (bind_ok _ _ _ _ _ Hloop).
  eexists. split; [reflexivity|].
  cbn. rewrite A2, Hfile. cbn [on_disk app].
  fold (log_trace (buffer (logfile_train w1))).
  rewrite A3, A4, Hfile, Hsamples, <- Htr. repeat split. exact A5.
Qed.

End QuietRun.

Lemma py_range_length a b : length (py_range a b) = Z.to_nat (b - a).
Proof. unfold py_range. now rewrite length_map, length_seq. Qed.

Section QuietRunProperties.
Context `{C : Collaborators}.

Lemma setup_returns opts (w : World) :
  continue_training opts = false
  \/ (exists ck, ckpt_files w !! continue_ckpt opts = Some ck
                 /\ ck_module_keys ck = data_parallel opts) ->
  exists w0, setup opts w = (Ok tt, w0).
Proof.
  intros Hcont. destruct (continue_training opts) eqn:Hc.
  - destruct Hcont as [Hcont|(ck & Hck & Hkeys)]; [discriminate|].
    destruct (setup_resume opts w ck Hc Hck Hkeys) as (w0 & H & _). eauto.
  - destruct (setup_fresh opts w Hc) as (w0 & H & _). eauto.
Qed.

(** X9. In a run without validation and without tracker, the training
    log holds the steps that [freq_log] divides, in order, and no other:
    those among the consecutive steps of all the batches of the run. *)
Theorem log_holds_selected_steps opts (train_loader val_loader : list Batch)
    (w : World) :
  continue_training opts = false
  \/ (exists ck, ckpt_files w !! continue_ckpt opts = Some ck
                 /\ ck_module_keys ck = data_parallel opts) ->
  freq_log opts <> 0 -> freq_val opts <= 0 -> wandb opts = false ->
  freq_ckpt opts <> 0 -> train_loader <> [] ->
  (forall net tr b, In b train_loader ->
     train_terms_ok opts (snd (forward net tr ModeTrain b)) = true) ->
  exists w',
    train_main_model opts train_loader val_loader w = (Ok tt, w')
    /\ map tm_step (on_disk (logfile_train w'))
       = List.filter (fun s => s mod freq_log opts =? 0)
           (map (fun k => init_epoch opts * len train_loader + 1 + Z.of_nat k)
                (seq 0 (Z.to_nat (n_epochs opts - init_epoch opts)
                        * length train_loader))).
Proof.
  intros Hcont Hlog Hval Hwandb Hckpt Hne Hterms.
  destruct (setup_returns opts w Hcont) as (w0 & Hsetup).
  destruct (run_advances opts train_loader val_loader w w0 Hsetup
              Hlog Hval Hwandb Hckpt Hne Hterms)
    as (w' & Hrun & Htrace & _).
  exists w'. split; [exact Hrun|].
  unfold len. rewrite <- run_trace_steps, <- map_snd_logged, <- Htrace.
  unfold log_trace. rewrite map_map. reflexivity.
Qed.

(** X10. In a run without validation and without tracker, the sample
    images saved are those of the steps that a positive [freq_sample]
    divides, in order, each under the file name of its epoch and step;
    with [freq_sample <= 0] none is saved. *)
Theorem samples_at_selected_steps opts (train_loader val_loader : list Batch)
    (w : World) :
  continue_training opts = false
  \/ (exists ck, ckpt_files w !! continue_ckpt opts = Some ck
                 /\ ck_module_keys ck = data_parallel opts) ->
  freq_log opts <> 0 -> freq_val opts <= 0 -> wandb opts = false ->
  freq_ckpt opts <> 0 -> train_loader <> [] ->
  (forall net tr b, In b train_loader ->
     train_terms_ok opts (snd (forward net tr ModeTrain b)) = true) ->
  exists w',
    train_main_model opts train_loader val_loader w = (Ok tt, w')
    /\ map fst (samples w')
       = (map fst (samples w)
          ++ sampled opts (run_trace (length train_loader)
                             (py_range (init_epoch opts) (n_epochs opts))))%list
    /\ (freq_sample opts <= 0 -> samples w' = samples w).
Proof.
  intros Hcont Hlog Hval Hwandb Hckpt Hne Hterms.
  destruct (setup_returns opts w Hcont) as (w0 & Hsetup).
  destruct (run_advances opts train_loader val_loader w w0 Hsetup
              Hlog Hval Hwandb Hckpt Hne Hterms)
    as (w' & Hrun & _ & Hsamples & _).
  exists w'. split; [exact Hrun|]. split; [exact Hsamples|].
  intros Hoff.
  assert (Hnone : forall t, sampled opts t = []).
  { intros t. unfold sampled.
    replace (0 <? freq_sample opts) with false by (symmetry; apply Z.ltb_ge; lia).
    cbn [andb]. induction t; [reflexivity|exact IHt]. }
  rewrite Hnone, app_nil_r in Hsamples.
  assert (Hlen : length (samples w') = length (samples w))
    by (rewrite <- (length_map fst), Hsamples, length_map; reflexivity).
  clear -Hsamples Hlen Hrun Hsetup Hoff.
  revert Hrun. unfold train_main_model.
  rewrite (bind_ok _ _ _ _ _ Hsetup).
  pose proof (epochs_preserve
                (fun w1 : World => exists l, samples w1 = (samples w0 ++ l)%list))
    as Hgrow.
  intros Hrun.
  assert (Hw0 : samples w0 = samples w).
  { apply (setup_facts opts w w0 Hsetup). }
  assert (Hpre : exists l, samples w' = (samples w ++ l)%list).
  { rewrite <- Hw0.
    unfold bind in Hrun.
    destruct (for_each _ _ w0) as [[[]|e] w1] eqn:Hloop; [|discriminate].
    injection Hrun as <-.
    specialize (Hgrow
      ltac:(intros no w2 H; exact H) ltac:(intros w2 H; exact H)
      ltac:(intros p w2 H; exact H)
      ltac:(intros path img w2 [l H]; exists (l ++ [(path, img)])%list;
            cbn; rewrite H, app_assoc; reflexivity)
      ltac:(intros ck path w2 H; exact H) ltac:(intros e w2 H; exact H)
      ltac:(intros bd w2 H; exact H)
      ltac:(intros m; unfold write_train; preserves_steps)
      ltac:(intros m; unfold write_val; preserves_steps)
      opts train_loader val_loader
      (py_range (init_epoch opts) (n_epochs opts)) w0).
    rewrite Hloop in Hgrow. cbn [snd] in Hgrow.
    destruct Hgrow as [l Hl]; [exists []; now rewrite app_nil_r|].
    exists l. exact Hl. }
  destruct Hpre as [l Hl]. rewrite Hl in Hlen. rewrite length_app in Hlen.
  destruct l; [now rewrite app_nil_r in Hl|cbn in Hlen; lia].
Qed.

(** X11. In a fresh run without validation and without tracker, the
    parameters and the optimizer state at the end are those obtained from
    the new model and optimizer by one optimizer step per batch, in the
    order of the stream and in training mode, and one step of the
    scheduler after the batches of each epoch. *)
Theorem run_trains_in_order opts (train_loader val_loader : list Batch)
    (w : World) :
  continue_training opts = false ->
  freq_log opts <> 0 -> freq_val opts <= 0 -> wandb opts = false ->
  freq_ckpt opts <> 0 -> train_loader <> [] ->
  (forall net tr b, In b train_loader ->
     train_terms_ok opts (snd (forward net tr ModeTrain b)) = true) ->
  exists w',
    train_main_model opts train_loader val_loader w = (Ok tt, w')
    /\ (net w', optim w')
       = train_epochs opts true train_loader
           (py_range (init_epoch opts) (n_epochs opts))
           (new_model opts, new_optimizer opts).
Proof.
  intros Hcont Hlog Hval Hwandb Hckpt Hne Hterms.
  assert (Hsetup : setup opts w
            = (Ok tt,
               set_training true
                 (set_net_optim (new_model opts, new_optimizer opts)
                    (track (WandbInit (wandb_project_name opts) opts)
                       (set_logfile_val (open_w (logfile_val w))
                          (set_logfile_train (open_w (logfile_train w))
                             (enter_call w))))))).
  { unfold setup, load_checkpoint. rewrite Hcont. reflexivity. }
  destruct (run_advances opts train_loader val_loader w _ Hsetup
              Hlog Hval Hwandb Hckpt Hne Hterms)
    as (w' & Hrun & _ & _ & Hno).
  exists w'. split; [exact Hrun|exact Hno].
Qed.

End QuietRunProperties.

Section SchedulerCount.
Context `{C : Collaborators}.
Variable opts : Opts.
Variable steps : Optim -> Z.
Hypothesis steps_optimize :
  forall net o tr b, steps (snd (optimize opts net o tr b)) = steps o.
Hypothesis steps_scheduler : forall o, steps (scheduler_step o) = steps o + 1.

Lemma train_batches_steps tr (l : list Batch) :
  forall no, steps (snd (train_batches opts tr l no)) = steps (snd no).
Proof.
  unfold train_batches. induction l as [|b l IH]; intros no; [reflexivity|].
  cbn [fold_left]. rewrite IH. apply steps_optimize.
Qed.

Lemma train_epochs_steps tr (l : list Batch) (epochs : list Z) :
  forall no,
    steps (snd (train_epochs opts tr l epochs no))
    = steps (snd no) + Z.of_nat (length epochs).
Proof.
  unfold train_epochs. induction epochs as [|e es IH]; intros no.
  - cbn. lia.
  - cbn [fold_left length]. rewrite IH. unfold train_epoch. cbn [snd].
    rewrite steps_scheduler, train_batches_steps. lia.
Qed.

(** X12. The scheduler steps once per epoch and never per batch: for any
    count of the scheduler steps that the optimizer steps leave unchanged,
    a fresh run without validation and without tracker ends with the
    count of the new optimizer plus the number of epochs of the run. *)
Theorem scheduler_steps_once_per_epoch (train_loader val_loader : list Batch)
    (w : World) :
  continue_training opts = false ->
  freq_log opts <> 0 -> freq_val opts <= 0 -> wandb opts = false ->
  freq_ckpt opts <> 0 -> train_loader <> [] ->
  (forall net tr b, In b train_loader ->
     train_terms_ok opts (snd (forward net tr ModeTrain b)) = true) ->
  exists w',
    train_main_model opts train_loader val_loader w = (Ok tt, w')
    /\ steps (optim w')
       = steps (new_optimizer opts)
         + Z.of_nat (Z.to_nat (n_epochs opts - init_epoch opts)).
Proof.
  intros Hcont Hlog Hval Hwandb Hckpt Hne Hterms.
  assert (Hsetup : setup opts w
            = (Ok tt,
               set_training true
                 (set_net_optim (new_model opts, new_optimizer opts)
                    (track (WandbInit (wandb_project_name opts) opts)
                       (set_logfile_val (open_w (logfile_val w))
                          (set_logfile_train (open_w (logfile_train w))
                             (enter_call w))))))).
  { unfold setup, load_checkpoint. rewrite Hcont. reflexivity. }
  destruct (run_advances opts train_loader val_loader w _ Hsetup
              Hlog Hval Hwandb Hckpt Hne Hterms)
    as (w' & Hrun & _ & _ & Hno).
  exists w'. split; [exact Hrun|].
  change (optim w') with (snd (net w', optim w')). rewrite Hno.
  rewrite train_epochs_steps, py_range_length. reflexivity.
Qed.

End SchedulerCount.

Section CheckpointContent.
Context `{C : Collaborators}.

(** X13. When a checkpoint is due at the end of an epoch, without
    validation and without tracker, it is written under the name of the
    epoch and of the step [(epoch + 1) * len(train_loader)], and holds the
    parameters and the optimizer state of the end of the epoch, after the
    step of the scheduler, with that epoch and that step. *)
Theorem checkpoint_records_epoch_end opts (train_loader val_loader : list Batch)
    epoch (w : World) :
  freq_log opts <> 0 -> freq_val opts <= 0 -> wandb opts = false ->
  freq_ckpt opts <> 0 -> train_loader <> [] ->
  (forall net tr b, In b train_loader ->
     train_terms_ok opts (snd (forward net tr ModeTrain b)) = true) ->
  is_open (logfile_train w) = true ->
  ckpt_due opts epoch = Ok true ->
  exists w',
    epoch_body opts train_loader val_loader epoch w = (Ok tt, w')
    /\ ckpt_files w' !! ckpt_path opts epoch ((epoch + 1) * len train_loader)
       = Some {| ck_model := net w'; ck_module_keys := false;
                 ck_opt := optim w';
                 ck_n_epoch := epoch;
                 ck_n_iter := (epoch + 1) * len train_loader |}
    /\ optim w'
       = scheduler_step
           (snd (train_batches opts (training w) train_loader
                   (net w, optim w))).
Proof.
  intros Hlog Hval Hwandb Hckpt Hne Hterms Hopen Hdue.
  destruct (epoch_advances opts train_loader val_loader epoch w
              Hlog Hval Hwandb Hckpt Hne Hterms Hopen)
    as (w' & Hbody & Hadv & Hck).
  exists w'. split; [exact Hbody|]. split; [exact (Hck Hdue)|].
  destruct Hadv as (_ & _ & _ & _ & Hno & _).
  change (optim w') with (snd (net w', optim w')). rewrite Hno. reflexivity.
Qed.

End CheckpointContent.

Lemma train_terms_ok_full opts_weights x :
  train_terms_ok opts_weights (full_breakdown x) = true.
Proof.
  unfold train_terms_ok, aggregate, train_message.
  replace (get_term (full_breakdown x) "img" "l1") with (Ok x) by reflexivity.
  replace (get_term (full_breakdown x) "img" "vggpt") with (Ok x) by reflexivity.
  replace (get_scalar (full_breakdown x) "kl") with (Ok x) by reflexivity.
  replace (get_term (full_breakdown x) "svg" "total") with (Ok x) by reflexivity.
  replace (get_term (full_breakdown x) "svg_para" "total") with (Ok x) by reflexivity.
  replace (get_term (full_breakdown x) "svg" "cmd") with (Ok x) by reflexivity.
  replace (get_term (full_breakdown x) "svg" "args") with (Ok x) by reflexivity.
  replace (get_term (full_breakdown x) "svg" "smt") with (Ok x) by reflexivity.
  replace (get_term (full_breakdown x) "svg" "aux") with (Ok x) by reflexivity.
  reflexivity.
Qed.

Lemma counting_terms_ok opts_weights :
  forall (net : @Net counting) (tr : bool) (b : @Batch counting),
    In b train_example ->
    train_terms_ok opts_weights (snd (@forward counting net tr ModeTrain b))
    = true.
Proof.
  intros net tr b Hin. cbn [forward counting snd].
  simpl in Hin. destruct Hin as [<-|[<-|[<-|[]]]]; apply train_terms_ok_full.
Qed.

Lemma log_holds_selected_steps_witness :
  exists w',
    @train_main_model toy (run_opts 0 2 2 3 0 1 0 false false "")
      train_example [] toy_world = (Ok tt, w')
    /\ map tm_step (on_disk (logfile_train w')) = [2; 4; 6].
Proof.
  destruct (@log_holds_selected_steps toy (run_opts 0 2 2 3 0 1 0 false false "")
              train_example [] toy_world) as (w' & Hrun & Hsteps).
  - left. reflexivity.
  - discriminate.
  - cbn. lia.
  - reflexivity.
  - discriminate.
  - discriminate.
  - apply train_example_terms_ok.
  - exists w'. split; [exact Hrun|exact Hsteps].
Defined.

Lemma samples_at_selected_steps_witness :
  exists w',
    @train_main_model toy (run_opts 0 2 2 3 0 1 0 false false "")
      train_example [] toy_world = (Ok tt, w')
    /\ map fst (samples w')
       = [ "./experiments/exp_main_model/samples/train_epoch_0_batch_3.png";
           "./experiments/exp_main_model/samples/train_epoch_1_batch_6.png" ].
Proof.
  destruct (@samples_at_selected_steps toy
              (run_opts 0 2 2 3 0 1 0 false false "")
              train_example [] toy_world) as (w' & Hrun & Hsamples & _).
  - left. reflexivity.
  - discriminate.
  - cbn. lia.
  - reflexivity.
  - discriminate.
  - discriminate.
  - apply train_example_terms_ok.
  - exists w'. split; [exact Hrun|]. rewrite Hsamples. vm_compute. reflexivity.
Defined.

Lemma run_trains_in_order_witness :
  exists w',
    @train_main_model toy (run_opts 0 2 2 3 0 1 0 false false "")
      train_example [] toy_world = (Ok tt, w')
    /\ net w' = 6.
Proof.
  destruct (@run_trains_in_order toy (run_opts 0 2 2 3 0 1 0 false false "")
              train_example [] toy_world) as (w' & Hrun & Hno).
  - reflexivity.
  - discriminate.
  - cbn. lia.
  - reflexivity.
  - discriminate.
  - discriminate.
  - apply train_example_terms_ok.
  - exists w'. split; [exact Hrun|].
    change (net w') with (fst (net w', optim w')). rewrite Hno. reflexivity.
Defined.

Lemma scheduler_steps_once_per_epoch_witness :
  exists w',
    @train_main_model counting (run_opts 0 2 2 3 0 1 0 false false "")
      train_example [] counting_world = (Ok tt, w')
    /\ optim w' = 2.
Proof.
  destruct (@scheduler_steps_once_per_epoch counting
              (run_opts 0 2 2 3 0 1 0 false false "") (fun o => o)
              (fun _ _ _ _ => eq_refl) (fun _ => eq_refl)
              train_example [] counting_world) as (w' & Hrun & Hsteps).
  - reflexivity.
  - discriminate.
  - cbn. lia.
  - reflexivity.
  - discriminate.
  - discriminate.
  - apply counting_terms_ok.
  - exists w'. split; [exact Hrun|exact Hsteps].
Defined.

Lemma checkpoint_records_epoch_end_witness :
  exists w',
    @epoch_body toy (run_opts 0 2 2 3 0 1 0 false false "") train_example [] 1
      toy_training_world = (Ok tt, w')
    /\ ckpt_n_iter_at w' "./experiments/exp_main_model/checkpoints/1_6.ckpt"
       = Some 6.
Proof.
  destruct (@checkpoint_records_epoch_end toy
              (run_opts 0 2 2 3 0 1 0 false false "") train_example [] 1
              toy_training_world) as (w' & Hbody & Hck & _).
  - discriminate.
  - cbn. lia.
  - reflexivity.
  - discriminate.
  - discriminate.
  - apply train_example_terms_ok.
  - reflexivity.
  - reflexivity.
  - exists w'. split; [exact Hbody|].
    change (ckpt_path _ _ _)
      with "./experiments/exp_main_model/checkpoints/1_6.ckpt" in Hck.
    unfold ckpt_n_iter_at. rewrite Hck. reflexivity.
Defined.

(** * Further properties of the font converter *)

(** ** The names of the glyphs *)

Lemma hex_value_digit d : 0 <= d < 16 -> hex_value (hex_digit d) = d.
Proof.
  intros H. unfold hex_value, hex_digit.
  destruct (Z.ltb_spec d 10).
  - destruct (Z.ltb_spec (48 + d) 58); lia.
  - destruct (Z.ltb_spec (87 + d) 58); lia.
Qed.

Lemma hex_fixed_S width c :
  hex_fixed (Datatypes.S width) c
  = hex_digit ((c / 16 ^ Z.of_nat width) mod 16) :: hex_fixed width c.
Proof. unfold hex_fixed. now rewrite seq_S, rev_app_distr. Qed.

Lemma hex_number_fold width c :
  forall acc,
    fold_left (fun acc d => 16 * acc + hex_value d) (hex_fixed width c) acc
    = acc * 16 ^ Z.of_nat width + c mod 16 ^ Z.of_nat width.
Proof.
  induction width as [|width IH]; intros acc.
  - cbn. rewrite Z.mod_1_r. lia.
  - rewrite hex_fixed_S. cbn [fold_left]. rewrite IH.
    rewrite hex_value_digit by (apply Z.mod_pos_bound; lia).
    rewrite Nat2Z.inj_succ, Z.pow_succ_r by lia.
    rewrite (Z.mul_comm 16 (16 ^ Z.of_nat width)).
    rewrite Z.rem_mul_r by lia. lia.
Qed.

(** Reading back the digits that write a number gives the number. *)
Lemma hex_fixed_round_trip width c :
  0 <= c < 16 ^ Z.of_nat width -> hex_number (hex_fixed width c) = c.
Proof.
  intros H. unfold hex_number. rewrite hex_number_fold.
  rewrite Z.mod_small by exact H. lia.
Qed.

Lemma unicode_escape_tail_cases c :
  0 <= c < 1114112 ->
  (plain c = true /\ unicode_escape_tail c = [])
  \/ (plain c = false /\ hex_number (unicode_escape_tail c) = c).
Proof.
  intros H. unfold unicode_escape_tail, plain.
  destruct (Z.leb_spec 65536 c).
  { right. split; [|apply hex_fixed_round_trip; cbn; lia].
    repeat match goal with
           | |- context [?a <=? ?b] => destruct (Z.leb_spec a b); try lia
           | |- context [?a <? ?b] => destruct (Z.ltb_spec a b); try lia
           | |- context [?a =? ?b] => destruct (Z.eqb_spec a b); try lia
           end; reflexivity. }
  destruct (Z.leb_spec 256 c).
  { right. split; [|apply hex_fixed_round_trip; cbn; lia].
    repeat match goal with
           | |- context [?a <=? ?b] => destruct (Z.leb_spec a b); try lia
           | |- context [?a <? ?b] => destruct (Z.ltb_spec a b); try lia
           | |- context [?a =? ?b] => destruct (Z.eqb_spec a b); try lia
           end; reflexivity. }
  destruct (Z.eqb_spec c 9); [left; subst; split; reflexivity|].
  destruct (Z.eqb_spec c 10); [left; subst; split; reflexivity|].
  destruct (Z.eqb_spec c 13); [left; subst; split; reflexivity|].
  destruct (Z.eqb_spec c 92); [left; subst; split; reflexivity|].
  cbn [orb].
  destruct (Z.ltb_spec c 32).
  { right. cbn [orb]. split; [|apply hex_fixed_round_trip; cbn; lia].
    destruct (Z.leb_spec 32 c); [lia|reflexivity]. }
  destruct (Z.leb_spec 127 c).
  { right. cbn [orb]. split; [|apply hex_fixed_round_trip; cbn; lia].
    destruct (Z.leb_spec 32 c), (Z.ltb_spec c 127); try lia; reflexivity. }
  left. cbn [orb]. split; [|reflexivity].
  destruct (Z.leb_spec 32 c), (Z.ltb_spec c 127); try lia; reflexivity.
Qed.

(** X14. The characters of [charset_th] that are printable ASCII, a tab,
    a line feed or a carriage return are all selected under the one name
    [uni]; two other characters of [charset_th] are selected under
    different names, [uni] followed by the hexadecimal digits of the code
    point. *)
Theorem glyph_names_of_charset (charset_th : PyStr) (c1 c2 : Z) :
  0 <= c1 < 1114112 -> 0 <= c2 < 1114112 ->
  In c1 charset_th -> In c2 charset_th ->
  (plain c1 = true -> glyph_name charset_th c1 = [117; 110; 105])
  /\ (plain c1 = false -> plain c2 = false ->
      glyph_name charset_th c1 = glyph_name charset_th c2 -> c1 = c2).
Proof.
  intros H1 H2 Hin1 Hin2.
  assert (Hex : forall c, In c charset_th ->
            existsb (Z.eqb c) charset_th = true).
  { intros c Hin. apply existsb_exists. exists c. split; [exact Hin|].
    apply Z.eqb_refl. }
  unfold glyph_name. rewrite !Hex by assumption. split.
  - intros Hp. destruct (unicode_escape_tail_cases c1 H1) as [[_ ->]|[Hn _]];
      [reflexivity|congruence].
  - intros Hp1 Hp2 Heq. injection Heq as Heq.
    destruct (unicode_escape_tail_cases c1 H1) as [[Hn _]|[_ Hr1]];
      [congruence|].
    destruct (unicode_escape_tail_cases c2 H2) as [[Hn _]|[_ Hr2]];
      [congruence|].
    rewrite <- Hr1, <- Hr2, Heq. reflexivity.
Qed.

Lemma glyph_names_of_charset_witness :
  glyph_name [3585; 3586; 48] 48 = [117; 110; 105]
  /\ (glyph_name [3585; 3586; 48] 3585 = glyph_name [3585; 3586; 48] 3586 ->
      3585 = 3586).
Proof.
  destruct (glyph_names_of_charset [3585; 3586; 48] 48 3586) as [H _];
    [lia|lia|simpl; tauto|simpl; tauto|].
  destruct (glyph_names_of_charset [3585; 3586; 48] 3585 3586) as [_ H'];
    [lia|lia|simpl; tauto|simpl; tauto|].
  split; [apply H; reflexivity|apply H'; reflexivity].
Defined.

(** ** The loop over the charset *)

Section CharsetLoop.
Context `{F : FontForge}.

(** X16. When the description file of a position has been opened and the
    glyph of the character cannot be selected in the font read, the
    exception is caught and reported with the name of the glyph in place
    of the character, and the description file is left empty. *)
Theorem unselected_glyph_leaves_empty_file (charset_th : PyStr)
    (charset_lenw : nat) (target_dir font_id font_name : string)
    (char_id c : Z) (w : ConvWorld) (e : Exn) :
  open_for_writing (description_path target_dir font_id charset_lenw char_id)
    = Ok tt ->
  cur_select (glyph_name charset_th c) (ff w) = Raise e ->
  exists w',
    try_convert_char charset_th charset_lenw target_dir font_id font_name
      (char_id, c) w = (Ok tt, w')
    /\ files w' !! description_path target_dir font_id charset_lenw char_id
       = Some ""
    /\ found_errors w'
       = (found_errors w
          ++ [{| fe_font_id := font_id; fe_font_name := font_name;
                 fe_char_id := char_id;
                 fe_char := glyph_name charset_th c; fe_exn := e |}])%list.
Proof.
  intros Hopen Hsel. unfold try_convert_char. cbn [fst snd].
  assert (Hrun : exists w1,
            convert_char charset_th charset_lenw target_dir font_id font_name
              char_id (set_char [c] w) = (Raise e, w1)
            /\ files w1 = <[description_path target_dir font_id charset_lenw
                              char_id := ""]> (files w)
            /\ found_errors w1 = found_errors w
            /\ char w1 = glyph_name charset_th c).
  { unfold convert_char, create_file, glyph_name in *. cbv zeta.
    rewrite bind_assoc, Hopen, bind_lift_ok, bind_modify, bind_get.
    cbn [char truncate_file set_char].
    destruct (existsb (Z.eqb c) charset_th).
    - rewrite bind_modify, bind_get. unfold call at 1.
      unfold bind, get, lift. cbn [ff char set_char truncate_file].
      rewrite Hsel. eexists. repeat split; reflexivity.
    - rewrite bind_ret, bind_get. unfold call at 1.
      unfold bind, get, lift. cbn [ff char set_char truncate_file].
      rewrite Hsel. eexists. repeat split; reflexivity. }
  destruct Hrun as (w1 & Hrun & Hfiles & Herr & Hchar).
  rewrite Hrun. eexists. split; [reflexivity|].
  cbn [files found_errors print_found_error]. rewrite Hfiles, Herr, Hchar.
  split; [apply lookup_insert_eq|reflexivity].
Qed.

End CharsetLoop.

Lemma unselected_glyph_leaves_empty_file_witness :
  exists w',
    @try_convert_char glyphless_fontforge [3585] 1 "sfd" "font0" "font0.ttf"
      (0, 3585) glyphless_conv_world = (Ok tt, w')
    /\ files w' !! description_path "sfd" "font0" 1 0 = Some ""
    /\ map fe_char (found_errors w') = [[117; 110; 105; 48; 101; 48; 49]].
Proof.
  destruct (@unselected_glyph_leaves_empty_file glyphless_fontforge [3585] 1
              "sfd" "font0" "font0.ttf" 0 3585 glyphless_conv_world
              FontForgeError eq_refl eq_refl) as (w' & Hrun & Hfile & Herr).
  exists w'. split; [exact Hrun|]. split; [exact Hfile|].
  rewrite Herr. reflexivity.
Defined.

(** ** The fonts of the processes *)

Lemma py_range_app a b c :
  a <= b <= c -> (py_range a b ++ py_range b c)%list = py_range a c.
Proof.
  intros H. unfold py_range.
  replace (Z.to_nat (c - a)) with (Z.to_nat (b - a) + Z.to_nat (c - b))%nat
    by lia.
  rewrite seq_app, map_app. f_equal. cbn [Nat.add].
  rewrite (map_seq_shift _ (Z.to_nat (b - a))). apply map_ext. intros i. lia.
Qed.

Lemma py_range_nil a b : b <= a -> py_range a b = [].
Proof.
  intros H. unfold py_range.
  replace (Z.to_nat (b - a)) with 0%nat by lia. reflexivity.
Qed.

Lemma py_range_bounds a b i : In i (py_range a b) -> a <= i < b.
Proof.
  unfold py_range. intros Hin. apply in_map_iff in Hin as (k & <- & Hk).
  apply in_seq in Hk. lia.
Qed.

Lemma filter_true {A : Type} (f : A -> bool) (l : list A) :
  (forall x, In x l -> f x = true) -> List.filter f l = l.
Proof.
  induction l as [|x l IH]; intros H; [reflexivity|].
  cbn [List.filter]. rewrite (H x (or_introl eq_refl)). f_equal.
  apply IH. intros y Hy. apply H. now right.
Qed.

Lemma filter_false {A : Type} (f : A -> bool) (l : list A) :
  (forall x, In x l -> f x = false) -> List.filter f l = [].
Proof.
  induction l as [|x l IH]; intros H; [reflexivity|].
  cbn [List.filter]. rewrite (H x (or_introl eq_refl)).
  apply IH. intros y Hy. apply H. now right.
Qed.

Lemma filter_concat_map {A B : Type} (p : B -> bool) (f : A -> list B)
    (l : list A) :
  concat (map (fun x => List.filter p (f x)) l)
  = List.filter p (concat (map f l)).
Proof.
  induction l as [|x l IH]; [reflexivity|].
  cbn [map concat]. now rewrite List.filter_app, IH.
Qed.

Lemma concat_ranges (n : Z) (k : nat) :
  0 <= n ->
  concat (map (fun pid => py_range (pid * n) ((pid + 1) * n))
              (py_range 0 (Z.of_nat k)))
  = py_range 0 (Z.of_nat k * n).
Proof.
  intros Hn. induction k as [|k IH]; [reflexivity|].
  rewrite <- (py_range_app 0 (Z.of_nat k) (Z.of_nat (Datatypes.S k))) by lia.
  rewrite map_app, concat_app, IH.
  rewrite (py_range_cons (Z.of_nat k)) by lia.
  rewrite (py_range_nil (Z.of_nat k + 1)) by lia.
  cbn [map concat]. rewrite app_nil_r.
  replace (Z.of_nat (Datatypes.S k) * n) with ((Z.of_nat k + 1) * n) by lia.
  apply py_range_app. nia.
Qed.

(** A loop over a range that leaves at the first index not below a bound
    is the loop over the indices of the range below the bound. *)
Lemma until_bound {S : Type} (bound a : Z) (body : Z -> Comp S unit) :
  forall (m s : nat) (w : S),
    for_each_until (fun i => bound <=? i)
      (map (fun i => a + Z.of_nat i) (seq s m)) body w
    = for_each (List.filter (fun i => i <? bound)
                  (map (fun i => a + Z.of_nat i) (seq s m))) body w.
Proof.
  induction m as [|m IH]; intros s w; [reflexivity|].
  cbn [seq map for_each_until List.filter].
  destruct (Z.leb_spec bound (a + Z.of_nat s)) as [Hge|Hlt].
  - replace (a + Z.of_nat s <? bound) with false by (symmetry; apply Z.ltb_ge; lia).
    rewrite filter_false; [reflexivity|].
    intros x Hx. apply in_map_iff in Hx as (k & <- & Hk).
    apply in_seq in Hk. apply Z.ltb_ge. lia.
  - replace (a + Z.of_nat s <? bound) with true by (symmetry; apply Z.ltb_lt; lia).
    cbn [for_each]. unfold bind.
    destruct (body (a + Z.of_nat s) w) as [[[]|e] w1]; [apply IH|reflexivity].
Qed.

Section ProcessProperties.
Context `{F : FontForge} `{!FontFiles}.

(** X17. On a machine with two processors or more, each process converts
    the fonts of its range whose index is below the number of fonts, and
    the ranges of the processes, put end to end, are the indices of all
    the fonts, each once and in order. *)
Theorem processes_share_the_fonts (charset_th charset : PyStr)
    (charset_lenw : nat) (fonts_file_path sfd_dir split : string)
    (ttf_fnames : list string) (cpus : Z) :
  2 <= cpus ->
  exists n,
    font_num_per_process (len ttf_fnames) cpus = Ok n
    /\ (forall process_id (w : ProcWorld),
          process charset_th charset charset_lenw fonts_file_path sfd_dir
                  split ttf_fnames (len ttf_fnames) process_id n w
          = for_each (process_indices (len ttf_fnames) process_id n)
              (convert_font charset_th charset charset_lenw fonts_file_path
                            sfd_dir split ttf_fnames) w)
    /\ concat (map (fun process_id =>
                      process_indices (len ttf_fnames) process_id n)
                   (py_range 0 (cpus - 1)))
       = py_range 0 (len ttf_fnames).
Proof.
  intros Hcpus.
  exists (len ttf_fnames / (cpus - 1) + 1). split; [|split].
  - unfold font_num_per_process, py_floordiv. cbv zeta.
    destruct (Z.eqb_spec (cpus - 1) 0); [lia|reflexivity].
  - intros process_id w. unfold process, process_indices, py_range.
    apply until_bound.
  - unfold process_indices.
    rewrite (filter_concat_map (fun i => i <? len ttf_fnames)
               (fun pid => py_range (pid * (len ttf_fnames / (cpus - 1) + 1))
                             ((pid + 1) * (len ttf_fnames / (cpus - 1) + 1)))).
    assert (Hlen : 0 <= len ttf_fnames) by (unfold len; lia).
    assert (Hdiv : 0 <= len ttf_fnames / (cpus - 1))
      by (apply Z.div_pos; lia).
    pose proof (concat_ranges (len ttf_fnames / (cpus - 1) + 1)
                  (Z.to_nat (cpus - 1)) ltac:(lia)) as Hcat.
    rewrite Z2Nat.id in Hcat by lia. rewrite Hcat.
    assert (Hcover : len ttf_fnames
                     <= (cpus - 1) * (len ttf_fnames / (cpus - 1) + 1)).
    { pose proof (Z.div_mod (len ttf_fnames) (cpus - 1) ltac:(lia)).
      pose proof (Z.mod_pos_bound (len ttf_fnames) (cpus - 1) ltac:(lia)).
      lia. }
    rewrite <- (py_range_app 0 (len ttf_fnames)) by lia.
    rewrite List.filter_app, filter_true, filter_false.
    + apply app_nil_r.
    + intros x Hx. apply py_range_bounds in Hx. apply Z.ltb_ge. lia.
    + intros x Hx. apply py_range_bounds in Hx. apply Z.ltb_lt. lia.
Qed.

End ProcessProperties.

Lemma processes_share_the_fonts_witness :
  font_num_per_process (len toy_ttf_fnames) 3 = Ok 3
  /\ process_indices (len toy_ttf_fnames) 0 3 = [0; 1; 2]
  /\ process_indices (len toy_ttf_fnames) 1 3 = [3; 4]
  /\ concat (map (fun process_id =>
                    process_indices (len toy_ttf_fnames) process_id 3)
                 (py_range 0 (3 - 1)))
     = py_range 0 (len toy_ttf_fnames).
Proof.
  destruct (@processes_share_the_fonts toy_fontforge toy_fontfiles [3585]
              [3585] 1 "ttf/tha" "sfd/tha" "train" toy_ttf_fnames 3)
    as (n & Hn & _ & Hcat); [lia|].
  assert (Hn3 : n = 3) by (vm_compute in Hn; congruence).
  subst n. split; [exact Hn|]. split; [reflexivity|].
  split; [reflexivity|exact Hcat].
Defined.

(** ** The start of the converter *)

(** X18. Started from [main], the converter reads the charset of the
    language and then fails: the parser gives the namespace no attribute
    [ref_nshot], so that reading it raises [AttributeError]; no font is
    looked for. When the charset file is missing, [FileNotFoundError] is
    raised before. *)
Theorem started_from_main_never_converts
    (language data_path ttf_path sfd_path split : string) (m : Machine) :
  let opts := main_namespace language data_path ttf_path sfd_path split in
  (forall plan, convert_mp_start opts m <> Done plan)
  /\ (forall charset_th,
        read_text m (char_set_path opts language) = Some charset_th ->
        convert_mp_start opts m = FailedAttribute "ref_nshot")
  /\ (read_text m (char_set_path opts language) = None ->
      convert_mp_start opts m
      = Failed (FileNotFoundError (char_set_path opts language))).
Proof.
  cbv zeta. unfold convert_mp_start. cbn [opt_language opt_ref_nshot main_namespace].
  destruct (read_text m _) as [charset_th|].
  - split; [discriminate|]. split; [reflexivity|discriminate].
  - split; [discriminate|]. split; [discriminate|reflexivity].
Qed.

(** X19. On a machine with a single processor the converter cannot
    start: the number of processes is 0 and the number of fonts per
    process is a division by it; once the charset and the fonts are read,
    [ZeroDivisionError] is raised. *)
Theorem single_processor_cannot_start (opts : Namespace) (m : Machine) :
  cpu_count m = 1 ->
  (forall plan, convert_mp_start opts m <> Done plan)
  /\ (forall charset_th ref_nshot ttf_fnames,
        read_text m (char_set_path opts (opt_language opts)) = Some charset_th ->
        opt_ref_nshot opts = Some ref_nshot -> ref_nshot <> 52 ->
        last (walk_files m
                (os_path_join
                   (os_path_join (opt_ttf_path opts) (opt_language opts))
                   (opt_split opts))) = Some ttf_fnames ->
        convert_mp_start opts m = Failed ZeroDivisionError).
Proof.
  intros Hcpu.
  assert (Hdiv : forall font_num,
            font_num_per_process font_num (cpu_count m)
            = Raise ZeroDivisionError).
  { intros font_num. rewrite Hcpu. reflexivity. }
  split.
  - intros plan. unfold convert_mp_start.
    destruct (read_text m _); [|discriminate].
    destruct (opt_ref_nshot opts) as [r|]; [|discriminate].
    destruct (r =? 52).
    + destruct (read_text m _); [|discriminate].
      destruct (last _); [|discriminate]. rewrite Hdiv. discriminate.
    + destruct (last _); [|discriminate]. rewrite Hdiv. discriminate.
  - intros charset_th r ttf_fnames Hread Hr Hne Hwalk.
    unfold convert_mp_start. rewrite Hread, Hr.
    destruct (Z.eqb_spec r 52); [contradiction|].
    rewrite Hwalk, Hdiv. reflexivity.
Qed.

Lemma started_from_main_never_converts_witness :
  convert_mp_start (main_namespace "tha" "data" "ttf" "sfd" "train")
    (toy_machine 4) = FailedAttribute "ref_nshot".
Proof.
  apply (started_from_main_never_converts "tha" "data" "ttf" "sfd" "train"
           (toy_machine 4)) with (charset_th := [3585; 3586]).
  reflexivity.
Defined.

Lemma single_processor_cannot_start_witness :
  convert_mp_start
    {| opt_language := "tha"; opt_data_path := "data"; opt_ttf_path := "ttf";
       opt_sfd_path := "sfd"; opt_split := "train"; opt_ref_nshot := Some 4 |}
    (toy_machine 1) = Failed ZeroDivisionError.
Proof.
  apply (single_processor_cannot_start
           {| opt_language := "tha"; opt_data_path := "data";
              opt_ttf_path := "ttf"; opt_sfd_path := "sfd";
              opt_split := "train"; opt_ref_nshot := Some 4 |}
           (toy_machine 1) eq_refl)
    with (charset_th := [3585; 3586]) (ref_nshot := 4)
         (ttf_fnames := toy_ttf_fnames).
  - reflexivity.
  - reflexivity.
  - lia.
  - reflexivity.
Defined.

(** * The names of the files *)

Lemma has_char_app c s1 s2 :
  has_char c (s1 +:+ s2) = has_char c s1 || has_char c s2.
Proof.
  induction s1 as [|c' s1 IH]; [reflexivity|].
  change (Ascii.eqb c c' || has_char c (s1 +:+ s2)
          = Ascii.eqb c c' || has_char c s1 || has_char c s2).
  rewrite IH. apply orb_assoc.
Qed.

(** Two strings cut at the first occurrence of a character are cut at
    the same place. *)
Lemma split_at_char c s1 s2 t1 t2 :
  has_char c s1 = false -> has_char c s2 = false ->
  s1 +:+ String c t1 = s2 +:+ String c t2 -> s1 = s2 /\ t1 = t2.
Proof.
  revert s2. induction s1 as [|a s1 IH]; intros [|b s2] H1 H2 Heq;
    cbn [String.append has_char] in *.
  - injection Heq as <-. split; reflexivity.
  - injection Heq as <- _. rewrite Ascii.eqb_refl in H2. discriminate.
  - injection Heq as -> _. rewrite Ascii.eqb_refl in H1. discriminate.
  - injection Heq as <- Heq. apply orb_false_iff in H1 as [_ H1].
    apply orb_false_iff in H2 as [_ H2].
    destruct (IH s2 H1 H2 Heq) as [-> ->]. split; reflexivity.
Qed.

Lemma pretty_N_char_digit x : has_char (pretty_N_char x) "0123456789" = true.
Proof. unfold pretty_N_char. repeat case_match; reflexivity. Qed.

Lemma pretty_N_go_chars c x :
  has_char c "0123456789" = false ->
  forall s, has_char c s = false -> has_char c (pretty_N_go x s) = false.
Proof.
  intros Hc. induction (N.lt_wf_0 x) as [x _ IH]; intros s Hs.
  assert (x = 0 \/ 0 < x)%N as [->|Hpos] by lia.
  - rewrite pretty_N_go_0. exact Hs.
  - rewrite pretty_N_go_step by exact Hpos. apply IH.
    + now apply N.div_lt.
    + cbn [has_char]. rewrite Hs, orb_false_r.
      destruct (Ascii.eqb_spec c (pretty_N_char (x `mod` 10))) as [->|];
        [|reflexivity].
      now rewrite pretty_N_char_digit in Hc.
Qed.

(** A decimal numeral holds digits and a sign only. *)
Lemma pretty_Z_chars c (z : Z) :
  has_char c "-0123456789" = false -> has_char c (pretty z) = false.
Proof.
  intros Hc. cbn [has_char] in Hc. apply orb_false_iff in Hc as [Hdash Hc].
  assert (Hpos : forall q : positive, has_char c (pretty q) = false).
  { intros q. unfold pretty, pretty_positive, pretty, pretty_N.
    case_decide; [lia|]. now apply pretty_N_go_chars. }
  destruct z as [|q|q]; unfold pretty, pretty_Z.
  - apply orb_false_iff in Hc as [Hzero _].
    cbn [has_char]. rewrite Hzero. reflexivity.
  - apply Hpos.
  - rewrite has_char_app. cbn [has_char]. rewrite Hdash, Hpos. reflexivity.
Qed.

Lemma numerals_between c (e1 e2 : Z) r1 r2 :
  has_char c "-0123456789" = false ->
  pretty e1 +:+ String c r1 = pretty e2 +:+ String c r2 ->
  e1 = e2 /\ r1 = r2.
Proof.
  intros Hc Heq.
  apply split_at_char in Heq as [He Hr]; [|now apply pretty_Z_chars..].
  split; [|exact Hr]. now apply (inj pretty).
Qed.

(** The name of a checkpoint file and the name of a sample file determine
    the epoch and the step they were written for. *)
Lemma file_names_inj opts (e1 b1 e2 b2 : Z) :
  (ckpt_path opts e1 b1 = ckpt_path opts e2 b2 -> e1 = e2 /\ b1 = b2)
  /\ (sample_path opts e1 b1 = sample_path opts e2 b2 -> e1 = e2 /\ b1 = b2).
Proof.
  split.
  - unfold ckpt_path. intros Heq.
    apply (inj (String.append (dir_ckpt opts))) in Heq.
    cbn [String.append] in Heq. injection Heq as Heq.
    apply numerals_between in Heq as [-> Heq]; [|reflexivity].
    split; [reflexivity|].
    change (pretty b1 +:+ String "." "ckpt" = pretty b2 +:+ String "." "ckpt")
      in Heq.
    now apply numerals_between in Heq as [-> _].
  - unfold sample_path, os_path_join. cbn [String.append String.prefix].
    cbn. intros Heq.
    assert (Hname : pretty e1 +:+ String "_" ("batch_" +:+ pretty b1 +:+ ".png")
                    = pretty e2 +:+ String "_" ("batch_" +:+ pretty b2 +:+ ".png")).
    { destruct (_ || _).
      - apply (inj (String.append (dir_sample opts))) in Heq.
        now injection Heq.
      - apply (inj (String.append (dir_sample opts))) in Heq.
        now injection Heq. }
    apply numerals_between in Hname as [-> Hname]; [|reflexivity].
    split; [reflexivity|].
    cbn [String.append] in Hname. injection Hname as Hname.
    change (pretty b1 +:+ String "." "png" = pretty b2 +:+ String "." "png")
      in Hname.
    now apply numerals_between in Hname as [-> _].
Qed.

(** X20. Checkpoints of different epochs or steps go to different files,
    and so do samples: no file of a run is overwritten by a later
    checkpoint or sample of another epoch or step. *)
Theorem distinct_steps_distinct_files opts (e1 b1 e2 b2 : Z) :
  e1 <> e2 \/ b1 <> b2 ->
  ckpt_path opts e1 b1 <> ckpt_path opts e2 b2
  /\ sample_path opts e1 b1 <> sample_path opts e2 b2.
Proof.
  intros Hne. destruct (file_names_inj opts e1 b1 e2 b2) as [Hck Hsm].
  split; intros Heq.
  - apply Hck in Heq as [-> ->]. destruct Hne as [Hne|Hne]; now apply Hne.
  - apply Hsm in Heq as [-> ->]. destruct Hne as [Hne|Hne]; now apply Hne.
Qed.

Lemma distinct_steps_distinct_files_witness :
  ckpt_path example_opts 1 6 <> ckpt_path example_opts 2 6
  /\ sample_path example_opts 1 6 <> sample_path example_opts 2 6.
Proof.
  apply (distinct_steps_distinct_files example_opts 1 6 2 6).
  left. lia.
Defined.

(** * The description files of the charset *)

(** ** Positions written on a fixed width *)

Lemma zeros_S (k : nat) (s : string) :
  String.concat "" (repeat "0" (Datatypes.S k)) +:+ s
  = String "0" (String.concat "" (repeat "0" k) +:+ s).
Proof. destruct k; reflexivity. Qed.

Lemma zeros_chars (c : ascii) (k : nat) :
  Ascii.eqb c "0" = false ->
  has_char c (String.concat "" (repeat "0" k)) = false.
Proof.
  intros Hc. induction k as [|k IH]; [reflexivity|].
  assert (H : String.concat "" (repeat "0" (Datatypes.S k))
              = String "0" (String.concat "" (repeat "0" k)))
    by (destruct k; reflexivity).
  rewrite H. cbn [has_char]. now rewrite Hc, IH.
Qed.

(** The numeral of a positive number starts with a digit that is not 0. *)
Lemma pretty_N_go_head (x : N) :
  (0 < x)%N ->
  forall s, exists c t, pretty_N_go x s = String c t /\ c <> "0"%char.
Proof.
  induction (N.lt_wf_0 x) as [x _ IH]. intros Hpos s.
  rewrite pretty_N_go_step by exact Hpos.
  destruct (decide (x < 10)%N) as [Hlt|Hge].
  - rewrite N.div_small, pretty_N_go_0 by exact Hlt.
    rewrite N.mod_small by exact Hlt. eexists _, s. split; [reflexivity|].
    assert (x = 1 \/ x = 2 \/ x = 3 \/ x = 4 \/ x = 5 \/ x = 6 \/ x = 7
            \/ x = 8 \/ x = 9)%N as Hx by lia.
    destruct Hx as [->|[->|[->|[->|[->|[->|[->|[->| ->]]]]]]]]; discriminate.
  - apply IH; [apply N.div_lt; lia|apply N.div_str_pos; lia].
Qed.

Lemma pretty_nonneg_head (n : Z) :
  0 <= n ->
  pretty n = "0" \/ exists c t, pretty n = String c t /\ c <> "0"%char.
Proof.
  intros Hn. destruct n as [|q|q]; [left; reflexivity| |lia].
  right. unfold pretty, pretty_Z, pretty, pretty_positive, pretty, pretty_N.
  case_decide; [lia|]. apply pretty_N_go_head. lia.
Qed.

(** Zeros put before two numerals give the same string for the same
    numeral only. *)
Lemma zeros_inj (a b : string) :
  (a = "0" \/ exists c t, a = String c t /\ c <> "0"%char) ->
  (b = "0" \/ exists c t, b = String c t /\ c <> "0"%char) ->
  forall k1 k2 : nat,
    String.concat "" (repeat "0" k1) +:+ a
    = String.concat "" (repeat "0" k2) +:+ b ->
    a = b.
Proof.
  intros Ha Hb.
  assert (Hstart : forall (x y : string) (k : nat),
            (x = "0" \/ exists c t, x = String c t /\ c <> "0"%char) ->
            (y = "0" \/ exists c t, y = String c t /\ c <> "0"%char) ->
            x = String.concat "" (repeat "0" (Datatypes.S k)) +:+ y -> False).
  { intros x y k Hx Hy Heq. rewrite zeros_S in Heq.
    destruct Hx as [->|(c & t & -> & Hc)].
    - injection Heq as Heq.
      destruct k as [|k]; [|rewrite zeros_S in Heq; discriminate].
      cbn in Heq. destruct Hy as [->|(c & t & -> & _)]; discriminate.
    - injection Heq as -> _. now apply Hc. }
  induction k1 as [|k1 IH]; intros [|k2] Heq.
  - exact Heq.
  - exfalso. exact (Hstart a b k2 Ha Hb Heq).
  - exfalso. exact (Hstart b a k1 Hb Ha (eq_sym Heq)).
  - rewrite !zeros_S in Heq. injection Heq as Heq. exact (IH k2 Heq).
Qed.

Lemma pad0_inj (width : nat) (n m : Z) :
  0 <= n -> 0 <= m -> pad0 width n = pad0 width m -> n = m.
Proof.
  intros Hn Hm Heq. unfold pad0 in Heq.
  apply zeros_inj in Heq; [|now apply pretty_nonneg_head..].
  now apply (inj pretty).
Qed.

Lemma pad0_chars (c : ascii) (width : nat) (n : Z) :
  has_char c "-0123456789" = false -> has_char c (pad0 width n) = false.
Proof.
  intros Hc. unfold pad0. rewrite has_char_app, (pretty_Z_chars c n Hc).
  rewrite zeros_chars; [reflexivity|].
  cbn [has_char] in Hc. apply orb_false_iff in Hc as [_ Hc].
  now apply orb_false_iff in Hc as [Hc _].
Qed.

Lemma prefix_empty (s : string) : String.prefix "" s = true.
Proof. destruct s; reflexivity. Qed.

(** Whether a string starts with a slash is seen on its first
    character. *)
Lemma prefix_slash_app (c : ascii) (f x y : string) :
  String.prefix "/" (String c f +:+ x) = String.prefix "/" (String c f +:+ y).
Proof.
  change (String.prefix "/" (String c f +:+ x))
    with (if ascii_dec "/"%char c then String.prefix "" (f +:+ x) else false).
  change (String.prefix "/" (String c f +:+ y))
    with (if ascii_dec "/"%char c then String.prefix "" (f +:+ y) else false).
  destruct (ascii_dec "/"%char c); [now rewrite !prefix_empty|reflexivity].
Qed.

Section DescriptionFiles.
Context `{F : FontForge}.

(** Two positions of a charset have different description files. *)
Lemma description_path_inj target_dir font_id (width : nat) (i j : Z) :
  0 <= i -> 0 <= j ->
  description_path target_dir font_id width i
  = description_path target_dir font_id width j ->
  i = j.
Proof.
  intros Hi Hj. unfold description_path, os_path_join.
  assert (Hpre : String.prefix "/" (font_id +:+ "_" +:+ pad0 width i +:+ ".txt")
                 = String.prefix "/" (font_id +:+ "_" +:+ pad0 width j +:+ ".txt")).
  { destruct font_id as [|c f]; [reflexivity|]. apply prefix_slash_app. }
  rewrite Hpre. clear Hpre.
  assert (Hname : font_id +:+ "_" +:+ pad0 width i +:+ ".txt"
                  = font_id +:+ "_" +:+ pad0 width j +:+ ".txt" -> i = j).
  { intros Heq. apply (inj (String.append font_id)) in Heq.
    injection Heq as Heq.
    apply (split_at_char "."%char (pad0 width i) (pad0 width j) "txt" "txt")
      in Heq as [Heq _]; [|now apply pad0_chars..].
    exact (pad0_inj width i j Hi Hj Heq). }
  destruct (String.prefix "/" (font_id +:+ "_" +:+ pad0 width j +:+ ".txt"));
    [exact Hname|].
  destruct (_ || _); intros Heq;
    apply (inj (String.append target_dir)) in Heq.
  - exact (Hname Heq).
  - injection Heq as Heq. exact (Hname Heq).
Qed.

(** The conversion of a character writes to the description file of its
    position only, and prints nothing. *)
Lemma convert_char_other_files q v charset_th charset_lenw target_dir font_id
    font_name char_id :
  q <> description_path target_dir font_id charset_lenw char_id ->
  preserves (fun w : ConvWorld => files w !! q = v)
    (convert_char charset_th charset_lenw target_dir font_id font_name char_id).
Proof.
  intros Hq.
  assert (Hins : forall (t : string) (m : gmap string string),
            m !! q = v ->
            <[description_path target_dir font_id charset_lenw char_id := t]> m
              !! q = v).
  { intros t m H. rewrite lookup_insert_ne by congruence. exact H. }
  unfold convert_char, create_file, call, query. cbv zeta.
  preserves_steps; try (cbn; apply Hins; assumption).
  match goal with
  | |- context [char ?w0] => destruct (char w0) as [|c [|c' l]]
  end; try assumption.
  destruct (existsb _ _); assumption.
Qed.

Lemma convert_char_prints_nothing errs charset_th charset_lenw target_dir
    font_id font_name char_id :
  preserves (fun w : ConvWorld => found_errors w = errs)
    (convert_char charset_th charset_lenw target_dir font_id font_name char_id).
Proof.
  unfold convert_char, create_file, call, query. cbv zeta.
  preserves_steps; try assumption.
  match goal with
  | |- context [char ?w0] => destruct (char w0) as [|c [|c' l]]
  end; try assumption.
  destruct (existsb _ _); assumption.
Qed.

(** When the conversion returns, the five writes have been made. *)
Lemma convert_char_complete charset_th charset_lenw target_dir font_id
    font_name char_id (w w' : ConvWorld) :
  convert_char charset_th charset_lenw target_dir font_id font_name char_id w
    = (Ok tt, w') ->
  exists width vwidth,
    files w' !! description_path target_dir font_id charset_lenw char_id
    = Some (description_text charset_lenw font_id char_id width vwidth).
Proof.
  unfold convert_char, create_file. cbv zeta.
  set (p := description_path target_dir font_id charset_lenw char_id).
  rewrite bind_assoc.
  destruct (open_for_writing p) as [[]|e];
    [rewrite bind_lift_ok, bind_modify, bind_get
    |rewrite bind_lift_raise; discriminate].
  intros H.
  assert (Hm : exists w1,
            match char (truncate_file p w) with
            | [c] =>
                if existsb (Z.eqb c) charset_th
                then modify (set_char ([117; 110; 105] ++ unicode_escape_tail c))
                else ret tt
            | _ => ret tt
            end (truncate_file p w) = (Ok tt, w1)
            /\ files w1 = <[p := ""]> (files w)).
  { destruct (char (truncate_file p w)) as [|c [|c' l]];
      try (eexists; split; reflexivity).
    destruct (existsb (Z.eqb c) charset_th); eexists; split; reflexivity. }
  destruct Hm as (w1 & Hm & Hfiles).
  rewrite (bind_ok _ _ _ _ _ Hm), bind_get in H.
  apply call_ok in H as (x1 & _ & H).
  apply call_ok in H as (x2 & _ & H).
  apply call_ok in H as (x3 & _ & H).
  rewrite bind_modify, bind_get in H. cbn [char set_char set_ff] in H.
  apply call_ok in H as (x4 & _ & H).
  apply call_ok in H as (x5 & _ & H).
  apply call_ok in H as (x6 & _ & H).
  apply call_ok in H as (x7 & _ & H).
  cbn [ord] in H. rewrite bind_lift_ok, bind_modify in H.
  apply query_ok in H as (width & _ & H). rewrite bind_modify in H.
  apply query_ok in H as (vwidth & _ & H). rewrite !bind_modify in H.
  injection H as <-. exists width, vwidth.
  cbn [files append_file set_ff set_char]. rewrite Hfiles.
  rewrite !lookup_insert_eq. cbn [default]. reflexivity.
Qed.

(** One position: the conversion is tried, the body of the loop returns,
    and either one error is printed, for that position, or nothing is
    printed and the description file is written to its end; no other file
    is touched. *)
Lemma try_convert_char_accounts charset_th charset_lenw target_dir font_id
    font_name (i c : Z) (w : ConvWorld) :
  exists w1 errs,
    try_convert_char charset_th charset_lenw target_dir font_id font_name
      (i, c) w = (Ok tt, w1)
    /\ found_errors w1 = (found_errors w ++ errs)%list
    /\ ((exists fe, errs = [fe] /\ fe_char_id fe = i)
        \/ (errs = []
            /\ exists width vwidth,
                 files w1 !! description_path target_dir font_id charset_lenw i
                 = Some (description_text charset_lenw font_id i width vwidth)))
    /\ (forall q, q <> description_path target_dir font_id charset_lenw i ->
          files w1 !! q = files w !! q).
Proof.
  unfold try_convert_char. cbn [fst snd].
  pose proof (convert_char_prints_nothing (found_errors w) charset_th
                charset_lenw target_dir font_id font_name i
                (set_char [c] w) eq_refl) as Herrs.
  assert (Hframe : forall q,
            q <> description_path target_dir font_id charset_lenw i ->
            files (snd (convert_char charset_th charset_lenw target_dir
                          font_id font_name i (set_char [c] w))) !! q
            = files w !! q).
  { intros q Hq.
    exact (convert_char_other_files q (files w !! q) charset_th charset_lenw
             target_dir font_id font_name i Hq (set_char [c] w) eq_refl). }
  destruct (convert_char charset_th charset_lenw target_dir font_id font_name
              i (set_char [c] w)) as [[[]|e] w1] eqn:Hrun;
    cbn [snd] in Herrs, Hframe.
  - exists w1, []. split; [reflexivity|].
    split; [rewrite app_nil_r; exact Herrs|].
    split; [|exact Hframe]. right. split; [reflexivity|].
    exact (convert_char_complete _ _ _ _ _ _ _ _ Hrun).
  - eexists _, [_]. split; [reflexivity|].
    cbn [found_errors files print_found_error]. rewrite Herrs.
    split; [reflexivity|]. split; [|exact Hframe].
    left. eexists. split; reflexivity.
Qed.

(** The loop over the positions from [k]. *)
Lemma convert_positions_account charset_th charset_lenw target_dir font_id
    font_name (l : PyStr) :
  forall (k : nat) (w : ConvWorld),
    exists w' errs,
      for_each (combine (map Z.of_nat (seq k (length l))) l)
        (try_convert_char charset_th charset_lenw target_dir font_id font_name)
        w = (Ok tt, w')
      /\ found_errors w' = (found_errors w ++ errs)%list
      /\ (forall q,
            (forall i, Z.of_nat k <= i ->
               q <> description_path target_dir font_id charset_lenw i) ->
            files w' !! q = files w !! q)
      /\ (forall i c,
            In (i, c) (combine (map Z.of_nat (seq k (length l))) l) ->
            (exists fe, In fe errs /\ fe_char_id fe = i)
            \/ (exists width vwidth,
                  files w' !! description_path target_dir font_id charset_lenw i
                  = Some (description_text charset_lenw font_id i width
                                           vwidth))).
Proof.
  induction l as [|c l IH]; intros k w.
  - exists w, []. cbn. rewrite app_nil_r. repeat split; try reflexivity.
    intros i c [].
  - cbn [length seq map combine for_each].
    destruct (try_convert_char_accounts charset_th charset_lenw target_dir
                font_id font_name (Z.of_nat k) c w)
      as (w1 & e1 & Hstep & Herr1 & Hacc1 & Hframe1).
    destruct (IH (Datatypes.S k) w1) as (w' & e2 & Hrest & Herr2 & Hframe2 & Hacc2).
    exists w', (e1 ++ e2)%list.
    rewrite (bind_ok _ _ _ _ _ Hstep), Hrest.
    split; [reflexivity|].
    split; [rewrite Herr2, Herr1, app_assoc; reflexivity|].
    split.
    + intros q Hq. rewrite Hframe2, Hframe1.
      * reflexivity.
      * apply Hq. lia.
      * intros i Hi. apply Hq. lia.
    + intros i c' [Heq|Hin].
      * injection Heq as <- <-.
        destruct Hacc1 as [(fe & -> & Hfe)|(-> & width & vwidth & Hfile)].
        -- left. exists fe. split; [left; reflexivity|exact Hfe].
        -- right. exists width, vwidth. rewrite Hframe2; [exact Hfile|].
           intros i Hi Heq.
           apply description_path_inj in Heq; lia.
      * destruct (Hacc2 i c' Hin) as [(fe & Hfe & Hid)|Hfile].
        -- left. exists fe. split; [apply in_or_app; right; exact Hfe|exact Hid].
        -- right. exact Hfile.
Qed.

(** X15. The loop over the charset goes through every position and never
    raises, and it accounts for each position: when it ends, either an
    error has been printed for the position, or its description file
    holds the five entries in full, the line [65], the two widths, the
    position on the width of the charset and the name of the font. No
    position fails in silence, and no position overwrites the file of
    another. *)
Theorem every_position_is_accounted_for (charset_th charset : PyStr)
    (charset_lenw : nat) (target_dir font_id font_name : string)
    (w : ConvWorld) :
  exists w' errs,
    convert_charset charset_th charset charset_lenw target_dir font_id
      font_name w = (Ok tt, w')
    /\ found_errors w' = (found_errors w ++ errs)%list
    /\ forall i c, In (i, c) (enumerate charset) ->
         (exists fe, In fe errs /\ fe_char_id fe = i)
         \/ (exists width vwidth,
               files w' !! description_path target_dir font_id charset_lenw i
               = Some (description_text charset_lenw font_id i width vwidth)).
Proof.
  destruct (convert_positions_account charset_th charset_lenw target_dir
              font_id font_name charset 0 w)
    as (w' & errs & Hrun & Herrs & _ & Hacc).
  exists w', errs. split; [exact Hrun|]. split; [exact Herrs|exact Hacc].
Qed.

(** One position whose description file cannot be opened: the exception
    of [open] is caught and printed with the character itself; the library
    is not called and no file is touched. *)
Lemma try_convert_char_unopened charset_th charset_lenw target_dir font_id
    font_name (char_id c : Z) (w : ConvWorld) (e : Exn) :
  open_for_writing (description_path target_dir font_id charset_lenw char_id)
    = Raise e ->
  try_convert_char charset_th charset_lenw target_dir font_id font_name
    (char_id, c) w
  = (Ok tt,
     print_found_error
       {| fe_font_id := font_id; fe_font_name := font_name;
          fe_char_id := char_id; fe_char := [c]; fe_exn := e |}
       (set_char [c] w)).
Proof.
  intros Hopen. unfold try_convert_char, convert_char, create_file.
  cbv zeta. cbn [fst snd]. rewrite !bind_assoc, Hopen, bind_lift_raise.
  reflexivity.
Qed.

Lemma unwritable_positions charset_th charset_lenw target_dir font_id
    font_name (err : Z -> Exn) (l : PyStr) :
  (forall i,
     open_for_writing (description_path target_dir font_id charset_lenw i)
     = Raise (err i)) ->
  forall (k : nat) (w : ConvWorld),
    exists w',
      for_each (combine (map Z.of_nat (seq k (length l))) l)
        (try_convert_char charset_th charset_lenw target_dir font_id font_name)
        w = (Ok tt, w')
      /\ files w' = files w /\ ff w' = ff w
      /\ found_errors w'
         = (found_errors w
            ++ map (fun ic => {| fe_font_id := font_id;
                                 fe_font_name := font_name;
                                 fe_char_id := fst ic; fe_char := [snd ic];
                                 fe_exn := err (fst ic) |})
                   (combine (map Z.of_nat (seq k (length l))) l))%list.
Proof.
  intros Hopen. induction l as [|c l IH]; intros k w.
  - exists w. cbn. rewrite app_nil_r. repeat split; reflexivity.
  - cbn [length seq map combine for_each].
    rewrite (bind_ok _ _ _ _ _
               (try_convert_char_unopened charset_th charset_lenw target_dir
                  font_id font_name (Z.of_nat k) c w _ (Hopen _))).
    destruct (IH (Datatypes.S k)
                (print_found_error
                   {| fe_font_id := font_id; fe_font_name := font_name;
                      fe_char_id := Z.of_nat k; fe_char := [c];
                      fe_exn := err (Z.of_nat k) |}
                   (set_char [c] w)))
      as (w' & Hrun & Hfiles & Hff & Herrs).
    exists w'. split; [exact Hrun|].
    split; [exact Hfiles|]. split; [exact Hff|].
    rewrite Herrs. cbn [found_errors print_found_error set_char fst snd].
    rewrite <- app_assoc. reflexivity.
Qed.

(** X21. When no description file of the font can be opened, as in a
    directory that cannot be written to, the loop over the charset still
    goes through every position and returns: the exception of each [open]
    is caught and printed, once for each position and in order, with the
    character itself; the library is never called, so that no glyph is
    converted, and no file is made or changed. *)
Theorem unwritable_directory_reports_every_position (charset_th charset : PyStr)
    (charset_lenw : nat) (target_dir font_id font_name : string)
    (err : Z -> Exn) (w : ConvWorld) :
  (forall i,
     open_for_writing (description_path target_dir font_id charset_lenw i)
     = Raise (err i)) ->
  exists w',
    convert_charset charset_th charset charset_lenw target_dir font_id
      font_name w = (Ok tt, w')
    /\ files w' = files w /\ ff w' = ff w
    /\ found_errors w'
       = (found_errors w
          ++ map (fun ic => {| fe_font_id := font_id;
                               fe_font_name := font_name;
                               fe_char_id := fst ic; fe_char := [snd ic];
                               fe_exn := err (fst ic) |})
                 (enumerate charset))%list.
Proof.
  intros Hopen.
  exact (unwritable_positions charset_th charset_lenw target_dir font_id
           font_name err charset Hopen 0 w).
Qed.

End DescriptionFiles.

Lemma every_position_is_accounted_for_witness :
  exists w',
    @convert_charset toy_fontforge [3585] [3585; 48] 1 "sfd" "font0"
      "font0.ttf" toy_conv_world = (Ok tt, w')
    /\ found_errors w' = []
    /\ exists width vwidth,
         files w' !! description_path "sfd" "font0" 1 1
         = Some (description_text 1 "font0" 1 width vwidth).
Proof.
  destruct (@every_position_is_accounted_for toy_fontforge [3585] [3585; 48]
              1 "sfd" "font0" "font0.ttf" toy_conv_world)
    as (w' & errs & Hrun & Herrs & Hacc).
  assert (Hnone : found_errors w' = []).
  { pose proof (f_equal (fun r => found_errors (snd r)) Hrun) as H.
    cbn [snd] in H. rewrite <- H. vm_compute. reflexivity. }
  exists w'. split; [exact Hrun|]. split; [exact Hnone|].
  destruct (Hacc 1 48) as [(fe & Hin & _)|Hfile].
  - simpl. tauto.
  - rewrite Hnone in Herrs. cbn [found_errors toy_conv_world app] in Herrs.
    subst errs. destruct Hin.
  - exact Hfile.
Defined.

Lemma unwritable_directory_reports_every_position_witness :
  exists w',
    @convert_charset readonly_fontforge [3585] [3585; 48] 1 "sfd" "font0"
      "font0.ttf" readonly_conv_world = (Ok tt, w')
    /\ files w' = ∅
    /\ map fe_char (found_errors w') = [[3585]; [48]].
Proof.
  destruct (@unwritable_directory_reports_every_position readonly_fontforge
              [3585] [3585; 48] 1 "sfd" "font0" "font0.ttf"
              (fun i => FileNotFoundError
                          (description_path "sfd" "font0" 1 i))
              readonly_conv_world)
    as (w' & Hrun & Hfiles & _ & Herrs).
  - intros i. reflexivity.
  - exists w'. split; [exact Hrun|]. split; [exact Hfiles|].
    rewrite Herrs. reflexivity.
Defined.
